(** * Financial document analyzer: a shallow embedding of the job pipeline

    The development follows the Python sources of the repository:
    - [task.py]: the pydantic schema, [_extract_json_str], [_mock_result],
      [_llm_analyze_financials] and [run_analysis];
    - [tools.py]: [extract_text_from_pdf_bytes];
    - [models.py], [db.py], [tasks_worker.py]: the three relations, the
      transactional [session_scope] and the Celery task [process_pdf_job].

    Python [str] values are Rocq strings, read as UTF-8 text.  The string
    methods that the code uses ([strip], [lower], [find], [in],
    [startswith], slicing) are written out below with their behaviour on
    ASCII characters: [lower] folds the letters A-Z and [strip] removes the
    ASCII white space.  What Python does to letters and blanks outside
    ASCII is not modelled; the keywords and delimiters that the code looks
    for are all ASCII. *)

From Stdlib Require Import ZArith Ascii String List Bool Lia DecimalString.
From stdpp Require Import base option list strings gmap.

Local Open Scope Z_scope.

(** ** Python string methods *)

Module Py.

(** The double quote and the line feed, which a Rocq literal cannot hold
    directly. *)
Definition dquote : ascii := "034"%char.
Definition nl : string := String "010"%char EmptyString.

(** [lit s] is [s] with every apostrophe read as a double quote; it only
    serves to write JSON documents down in examples. *)
Fixpoint lit (s : string) : string :=
  match s with
  | EmptyString => EmptyString
  | String c r => String (if Ascii.eqb c "'"%char then dquote else c) (lit r)
  end.

(** [str.isspace] on one ASCII character: TAB, LF, VT, FF, CR, the four
    separators FS, GS, RS, US, and the blank. *)
Definition isspace (c : ascii) : bool :=
  match c with
  | "009" | "010" | "011" | "012" | "013"
  | "028" | "029" | "030" | "031" | " " => true
  | _ => false
  end%char.

Fixpoint lstrip_with (p : ascii -> bool) (s : string) : string :=
  match s with
  | EmptyString => EmptyString
  | String c r => if p c then lstrip_with p r else s
  end.

Fixpoint rstrip_with (p : ascii -> bool) (s : string) : string :=
  match s with
  | EmptyString => EmptyString
  | String c r =>
      match rstrip_with p r with
      | EmptyString => if p c then EmptyString else String c EmptyString
      | r' => String c r'
      end
  end.

Definition strip_with (p : ascii -> bool) (s : string) : string :=
  rstrip_with p (lstrip_with p s).

(** [s.strip()] *)
Definition strip (s : string) : string := strip_with isspace s.

Fixpoint mem_char (c : ascii) (chars : string) : bool :=
  match chars with
  | EmptyString => false
  | String d r => Ascii.eqb c d || mem_char c r
  end.

(** [s.strip(chars)] *)
Definition strip_chars (chars : string) (s : string) : string :=
  strip_with (fun c => mem_char c chars) s.

(** [s.startswith(p)] *)
Fixpoint startswith (p s : string) : bool :=
  match p, s with
  | EmptyString, _ => true
  | String a p', String b s' => Ascii.eqb a b && startswith p' s'
  | String _ _, EmptyString => false
  end.

Fixpoint find_from (sub s : string) (i : nat) : option nat :=
  if startswith sub s then Some i
  else match s with
       | EmptyString => None
       | String _ r => find_from sub r (S i)
       end.

(** [s.find(sub)]: the lowest index where [sub] occurs, [-1] when there is
    none. *)
Definition find (sub s : string) : Z :=
  match find_from sub s 0 with
  | Some i => Z.of_nat i
  | None => -1
  end.

(** [sub in s] *)
Definition contains (sub s : string) : bool :=
  match find_from sub s 0 with
  | Some _ => true
  | None => false
  end.

(** [len(s)] *)
Definition len (s : string) : Z := Z.of_nat (String.length s).

(** [s[i:j]] for [0 <= i]. *)
Definition slice (s : string) (i j : Z) : string :=
  String.substring (Z.to_nat i) (Z.to_nat (j - i)) s.

Definition lower_char (c : ascii) : ascii :=
  let n := nat_of_ascii c in
  if (Nat.leb 65 n && Nat.leb n 90)%bool then ascii_of_nat (n + 32) else c.

(** [s.lower()] *)
Fixpoint lower (s : string) : string :=
  match s with
  | EmptyString => EmptyString
  | String c r => String (lower_char c) (lower r)
  end.

(** [sep.join(parts)] *)
Definition join (sep : string) (parts : list string) : string :=
  String.concat sep parts.

End Py.

(** ** [_extract_json_str] (task.py, lines 53-82) *)

(** The [for i in range(start, len(s))] loop.  [rest] is [s[i:]]; the result
    is the index [i] at which the loop returns, [None] when it runs to the
    end of the string. *)
Fixpoint scan_loop (rest : string) (i : Z) (depth : Z) (in_str esc : bool)
  : option Z :=
  match rest with
  | EmptyString => None
  | String ch rest' =>
      if in_str then
        if esc then scan_loop rest' (i + 1) depth in_str false
        else if Ascii.eqb ch "\"%char then scan_loop rest' (i + 1) depth in_str true
        else if Ascii.eqb ch Py.dquote then scan_loop rest' (i + 1) depth false esc
        else scan_loop rest' (i + 1) depth in_str esc
      else
        if Ascii.eqb ch Py.dquote then scan_loop rest' (i + 1) depth true esc
        else if Ascii.eqb ch "{"%char then scan_loop rest' (i + 1) (depth + 1) in_str esc
        else if Ascii.eqb ch "}"%char then
          let depth := depth - 1 in
          if depth =? 0 then Some i
          else scan_loop rest' (i + 1) depth in_str esc
        else scan_loop rest' (i + 1) depth in_str esc
  end.

(** Lines 55-57: trimming, and the removal of the backticks of a fence. *)
Definition unfence (s : string) : string :=
  let s := Py.strip s in
  if Py.startswith "```" s then Py.strip (Py.strip_chars "`" s) else s.

(** The argument is always a [str] at the call site, so [(s or "")] is [s]. *)
Definition _extract_json_str (s : string) : string :=
  let s := unfence s in
  let start := Py.find "{" s in
  if start =? -1 then s
  else
    match scan_loop (Py.slice s start (Py.len s)) start 0 false false with
    | Some i =>
        Py.strip (Py.strip_chars "`" (Py.strip (Py.slice s start (i + 1))))
    | None => s
    end.

(** ** Python values and JSON documents *)

Module Json.

(** The values that travel through the pipeline: the documents the model
    returns, the [meta] dictionary and the result dictionary.  A float is kept
    as the exact decimal [m * 10^e] of its literal; rounding to a binary
    double is not modelled.  A [dict] keeps its keys in insertion order. *)
#[warnings="-register-all"] Inductive value : Type :=
| VNone
| VBool (b : bool)
| VInt (n : Z)
| VFloat (m e : Z)
| VStr (s : string)
| VList (l : list value)
| VDict (d : list (string * value)).

Fixpoint dict_lookup (k : string) (d : list (string * value)) : option value :=
  match d with
  | [] => None
  | (k', v) :: r => if String.eqb k k' then Some v else dict_lookup k r
  end.

(** [d[k] = v] *)
Fixpoint dict_set (k : string) (v : value) (d : list (string * value))
  : list (string * value) :=
  match d with
  | [] => [(k, v)]
  | (k', v') :: r =>
      if String.eqb k k' then (k, v) :: r else (k', v') :: dict_set k v r
  end.

(** [d.get(k)] *)
Definition get (k : string) (d : list (string * value)) : value :=
  default VNone (dict_lookup k d).

(** Truth value of an object, as [or] and [if] test it. *)
Definition truthy (v : value) : bool :=
  match v with
  | VNone => false
  | VBool b => b
  | VInt n => negb (n =? 0)
  | VFloat m _ => negb (m =? 0)
  | VStr s => negb (String.eqb s "")
  | VList l => match l with [] => false | _ => true end
  | VDict d => match d with [] => false | _ => true end
  end.

(** [a or b] *)
Definition or_ (a b : value) : value := if truthy a then a else b.

(** *** Reading a JSON text (RFC 8259) *)

Definition is_ws (c : ascii) : bool :=
  match c with
  | " " | "009" | "010" | "013" => true
  | _ => false
  end%char.

Definition skip_ws (s : string) : string := Py.lstrip_with is_ws s.

Definition digit (c : ascii) : option Z :=
  let n := Z.of_nat (nat_of_ascii c) in
  if (48 <=? n) && (n <=? 57) then Some (n - 48) else None.

Definition hexdigit (c : ascii) : option N :=
  let n := N_of_ascii c in
  if (48 <=? n)%N && (n <=? 57)%N then Some (n - 48)%N
  else if (65 <=? n)%N && (n <=? 70)%N then Some (n - 55)%N
  else if (97 <=? n)%N && (n <=? 102)%N then Some (n - 87)%N
  else None.

(** Reads the longest run of digits, continuing the number [acc]; also
    returns how many digits were read. *)
Fixpoint take_digits (s : string) (acc : Z) (count : nat) : Z * nat * string :=
  match s with
  | EmptyString => (acc, count, s)
  | String c r =>
      match digit c with
      | Some d => take_digits r (10 * acc + d) (S count)
      | None => (acc, count, s)
      end
  end.

Definition parse_exponent (s : string) : option (option Z * string) :=
  match s with
  | String c r =>
      if Ascii.eqb c "e"%char || Ascii.eqb c "E"%char then
        let '(neg, r) :=
          match r with
          | String "-"%char r' => (true, r')
          | String "+"%char r' => (false, r')
          | _ => (false, r)
          end in
        let '(x, k, rest) := take_digits r 0 0 in
        if Nat.eqb k 0 then None
        else Some (Some (if neg then - x else x), rest)
      else Some (None, s)
  | EmptyString => Some (None, s)
  end.

Definition parse_number (s : string) : option (value * string) :=
  let '(neg, s) :=
    match s with
    | String "-"%char r => (true, r)
    | _ => (false, s)
    end in
  let sign (x : Z) := if neg then - x else x in
  match s with
  | EmptyString => None
  | String c r =>
      d ← digit c;
      let '(ip, _, r1) := if d =? 0 then (0, 1%nat, r) else take_digits r d 1 in
      '(frac, r2) ←
        match r1 with
        | String "."%char r' =>
            let '(m, k, rest) := take_digits r' ip 0 in
            if Nat.eqb k 0 then None else Some (Some (m, k), rest)
        | _ => Some (None, r1)
        end;
      '(ex, r3) ← parse_exponent r2;
      match frac, ex with
      | None, None => Some (VInt (sign ip), r3)
      | None, Some x => Some (VFloat (sign ip) x, r3)
      | Some (m, k), None => Some (VFloat (sign m) (- Z.of_nat k), r3)
      | Some (m, k), Some x => Some (VFloat (sign m) (x - Z.of_nat k), r3)
      end
  end.

(** UTF-8 encoding of a code point, for the [\u] escapes. *)
Definition utf8 (cp : N) : string :=
  let b (n : N) := ascii_of_N n in
  let s1 (a : N) := String (b a) EmptyString in
  (if cp <? 128 then s1 cp
   else if cp <? 2048 then String (b (192 + cp / 64)) (s1 (128 + cp mod 64))
   else if cp <? 65536 then
     String (b (224 + cp / 4096))
       (String (b (128 + (cp / 64) mod 64)) (s1 (128 + cp mod 64)))
   else
     String (b (240 + cp / 262144))
       (String (b (128 + (cp / 4096) mod 64))
          (String (b (128 + (cp / 64) mod 64)) (s1 (128 + cp mod 64)))))%N.

Definition simple_escape (c : ascii) : option ascii :=
  match c with
  | "034" => Some "034"
  | "\" => Some "\"
  | "/" => Some "/"
  | "b" => Some "008"
  | "f" => Some "012"
  | "n" => Some "010"
  | "r" => Some "013"
  | "t" => Some "009"
  | _ => None
  end%char.

Definition hex4 (a b c d : ascii) : option N :=
  x1 ← hexdigit a; x2 ← hexdigit b; x3 ← hexdigit c; x4 ← hexdigit d;
  Some (((x1 * 16 + x2) * 16 + x3) * 16 + x4)%N.

(** The characters of a string literal after its opening quote.  [hi] holds
    a high surrogate that still waits for its low half. *)
Fixpoint parse_string (hi : option N) (s : string) : option (string * string) :=
  match s with
  | EmptyString => None
  | String c r =>
      if Ascii.eqb c "\"%char then
        match r with
        | String "u"%char (String h1 (String h2 (String h3 (String h4 r')))) =>
            cp ← hex4 h1 h2 h3 h4;
            match hi with
            | Some h =>
                if (56320 <=? cp)%N && (cp <=? 57343)%N then
                  '(str, rest) ← parse_string None r';
                  Some (utf8 (65536 + (h - 55296) * 1024 + (cp - 56320))%N +:+ str,
                        rest)
                else None
            | None =>
                if (55296 <=? cp)%N && (cp <=? 56319)%N then
                  parse_string (Some cp) r'
                else if (56320 <=? cp)%N && (cp <=? 57343)%N then None
                else
                  '(str, rest) ← parse_string None r';
                  Some (utf8 cp +:+ str, rest)
            end
        | String e r' =>
            match hi with
            | Some _ => None
            | None =>
                ch ← simple_escape e;
                '(str, rest) ← parse_string None r';
                Some (String ch str, rest)
            end
        | EmptyString => None
        end
      else
        match hi with
        | Some _ => None
        | None =>
            if Ascii.eqb c Py.dquote then Some (EmptyString, r)
            else if (N_of_ascii c <? 32)%N then None
            else
              '(str, rest) ← parse_string None r;
              Some (String c str, rest)
        end
  end.

Definition drop_prefix (p s : string) : option string :=
  if Py.startswith p s
  then Some (String.substring (String.length p)
               (String.length s - String.length p) s)
  else None.

Fixpoint parse_value (fuel : nat) (s : string) {struct fuel}
  : option (value * string) :=
  match fuel with
  | O => None
  | S fuel =>
      match skip_ws s with
      | EmptyString => None
      | String c r as s' =>
          if Ascii.eqb c "{"%char then
            match skip_ws r with
            | String "}"%char rest => Some (VDict [], rest)
            | r' => parse_members fuel r' []
            end
          else if Ascii.eqb c "["%char then
            match skip_ws r with
            | String "]"%char rest => Some (VList [], rest)
            | r' => parse_elements fuel r' []
            end
          else if Ascii.eqb c Py.dquote then
            '(str, rest) ← parse_string None r; Some (VStr str, rest)
          else if Ascii.eqb c "n"%char then
            rest ← drop_prefix "null" s'; Some (VNone, rest)
          else if Ascii.eqb c "t"%char then
            rest ← drop_prefix "true" s'; Some (VBool true, rest)
          else if Ascii.eqb c "f"%char then
            rest ← drop_prefix "false" s'; Some (VBool false, rest)
          else parse_number s'
      end
  end
with parse_elements (fuel : nat) (s : string) (acc : list value) {struct fuel}
  : option (value * string) :=
  match fuel with
  | O => None
  | S fuel =>
      '(v, r) ← parse_value fuel s;
      match skip_ws r with
      | String ","%char r' => parse_elements fuel r' (v :: acc)
      | String "]"%char r' => Some (VList (rev (v :: acc)), r')
      | _ => None
      end
  end
with parse_members (fuel : nat) (s : string) (acc : list (string * value))
       {struct fuel} : option (value * string) :=
  match fuel with
  | O => None
  | S fuel =>
      match skip_ws s with
      | String c r =>
          if Ascii.eqb c Py.dquote then
            '(k, r1) ← parse_string None r;
            match skip_ws r1 with
            | String ":"%char r2 =>
                '(v, r3) ← parse_value fuel r2;
                let acc := dict_set k v acc in
                match skip_ws r3 with
                | String ","%char r4 => parse_members fuel r4 acc
                | String "}"%char r4 => Some (VDict acc, r4)
                | _ => None
                end
            | _ => None
            end
          else None
      | EmptyString => None
      end
  end.

(** [json.loads]: one value, with nothing but white space around it. *)
Definition loads (s : string) : option value :=
  '(v, rest) ← parse_value (2 * String.length s + 2) s;
  match skip_ws rest with
  | EmptyString => Some v
  | _ => None
  end.

End Json.

Import Json.

(** ** Exceptions *)

(** One failed constraint of a pydantic validation: where, and the type
    identifier of the error. *)
Record verror := { loc : list string; kind : string }.

(** The exception classes that occur in the pipeline.  No other class is
    defined or raised by the repository. *)
Inductive exn :=
| RuntimeError (msg : string)
| ValidationError (title : string) (errs : list verror)
| OpenAIError (msg : string)
| OSError (msg : string)
| IntegrityError (msg : string)
| Exception (msg : string).

Definition show_nat (n : nat) : string := NilEmpty.string_of_uint (Nat.to_uint n).

Definition show_verror (e : verror) : string :=
  Py.nl +:+ Py.join "." (loc e) +:+ Py.nl +:+ "  [type=" +:+ kind e +:+ "]".

(** [str(e)].  For a [ValidationError] this is pydantic's layout, a count,
    the model and one entry per error, with each entry cut down to its
    location and type. *)
Definition str (e : exn) : string :=
  match e with
  | RuntimeError m | OpenAIError m | OSError m | IntegrityError m
  | Exception m => m
  | ValidationError title errs =>
      show_nat (length errs) +:+ " validation error"
      +:+ (if Nat.eqb (length errs) 1 then "" else "s")
      +:+ " for " +:+ title +:+ String.concat "" (map show_verror errs)
  end.

(** A call either returns or raises. *)
Inductive outcome (A : Type) :=
| Return (a : A)
| Raise (e : exn).
Arguments Return {A} a.
Arguments Raise {A} e.

(** ** The pydantic schema (task.py, lines 13-50) *)

Module Schema.

Record Recommendation := {
  action : string;        (* Literal["buy", "hold", "sell"] *)
  rationale : string;
  confidence : Z          (* conint(ge=0, le=100) *)
}.

Record RiskItem := {
  name : string;
  severity : string;      (* Literal["low", "medium", "high", "critical"] *)
  impact : string;
  likelihood : string;    (* Literal["low", "medium", "high"] *)
  mitigation : string
}.

Record MarketInsight := {
  topic : string;
  insight : string;
  evidence : string
}.

Record Metrics := {
  revenue_yoy : option (Z * Z);
  gross_margin : option (Z * Z);
  ebitda_margin : option (Z * Z);
  guidance_change : option string
}.

Record DocumentMetadata := {
  company : option string;
  quarter : option string;
  year : option Z;
  source : option string;
  pages : option Z
}.

Record AnalysisResult := {
  metadata : DocumentMetadata;
  recommendation : Recommendation;
  risks : list RiskItem;
  insights : list MarketInsight;
  key_metrics : option Metrics;
  quotes : list string;
  limitations : string
}.

(** *** Validation

    pydantic validates in its default (lax) mode.  A validator either
    yields the value or the list of all the errors found. *)

Inductive checked (A : Type) :=
| Valid (a : A)
| Invalid (errs : list verror).
Arguments Valid {A} a.
Arguments Invalid {A} errs.

Definition fail {A} (k : string) : checked A :=
  Invalid [{| loc := []; kind := k |}].

Definition at_loc {A} (l : string) (c : checked A) : checked A :=
  match c with
  | Valid a => Valid a
  | Invalid errs =>
      Invalid (map (fun e => {| loc := l :: loc e; kind := kind e |}) errs)
  end.

Definition both {A B} (a : checked A) (b : checked B) : checked (A * B) :=
  match a, b with
  | Valid x, Valid y => Valid (x, y)
  | Valid _, Invalid e => Invalid e
  | Invalid e, Valid _ => Invalid e
  | Invalid e1, Invalid e2 => Invalid (e1 ++ e2)
  end.

Definition cmap {A B} (f : A -> B) (c : checked A) : checked B :=
  match c with
  | Valid a => Valid (f a)
  | Invalid e => Invalid e
  end.

(** [str]: only a string is a string. *)
Definition val_str (v : value) : checked string :=
  match v with
  | VStr s => Valid s
  | _ => fail "string_type"
  end.

(** Signed decimal digits, the strings that lax mode reads as an [int]. *)
Definition str_as_int (s : string) : option Z :=
  let '(neg, r) :=
    match s with
    | String "-"%char r => (true, r)
    | String "+"%char r => (false, r)
    | _ => (false, s)
    end in
  match Json.take_digits r 0 0 with
  | (n, S _, EmptyString) => Some (if neg then - n else n)
  | _ => None
  end.

(** [int]: an integer; in lax mode also a bool, a float without fractional
    part and a string of digits. *)
Definition val_int (v : value) : checked Z :=
  match v with
  | VInt n => Valid n
  | VBool b => Valid (if b then 1 else 0)
  | VFloat m e =>
      if 0 <=? e then Valid (m * 10 ^ e)
      else if m mod 10 ^ (- e) =? 0 then Valid (m / 10 ^ (- e))
      else fail "int_from_float"
  | VStr s =>
      match str_as_int s with
      | Some n => Valid n
      | None => fail "int_parsing"
      end
  | _ => fail "int_type"
  end.

(** [float]: a number; in lax mode also a bool and a numeric string. *)
Definition val_float (v : value) : checked (Z * Z) :=
  match v with
  | VFloat m e => Valid (m, e)
  | VInt n => Valid (n, 0)
  | VBool b => Valid (if b then 1 else 0, 0)
  | VStr s =>
      match Json.parse_number s with
      | Some (VInt n, EmptyString) => Valid (n, 0)
      | Some (VFloat m e, EmptyString) => Valid (m, e)
      | _ => fail "float_parsing"
      end
  | _ => fail "float_type"
  end.

(** [conint(ge=lo, le=hi)] *)
Definition conint (lo hi : Z) (v : value) : checked Z :=
  match val_int v with
  | Valid n =>
      if n <? lo then fail "greater_than_equal"
      else if hi <? n then fail "less_than_equal"
      else Valid n
  | Invalid e => Invalid e
  end.

(** [Literal[...]] of strings: an exact, case-sensitive match. *)
Definition literal (allowed : list string) (v : value) : checked string :=
  match v with
  | VStr s => if existsb (String.eqb s) allowed then Valid s
              else fail "literal_error"
  | _ => fail "literal_error"
  end.

(** [Optional[T]] *)
Definition optional {A} (f : value -> checked A) (v : value)
  : checked (option A) :=
  match v with
  | VNone => Valid None
  | _ => cmap Some (f v)
  end.

Fixpoint each {A} (f : value -> checked A) (i : nat) (l : list value)
  : checked (list A) :=
  match l with
  | [] => Valid []
  | v :: r =>
      cmap (fun '(x, xs) => x :: xs)
           (both (at_loc (show_nat i) (f v)) (each f (S i) r))
  end.

(** [List[T]] *)
Definition list_of {A} (f : value -> checked A) (v : value)
  : checked (list A) :=
  match v with
  | VList l => each f 0 l
  | _ => fail "list_type"
  end.

(** A field without default: it is required. *)
Definition required {A} (f : value -> checked A) (k : string)
    (d : list (string * value)) : checked A :=
  match Json.dict_lookup k d with
  | Some v => at_loc k (f v)
  | None => Invalid [{| loc := [k]; kind := "missing" |}]
  end.

(** A field declared [= dflt]: the default stands in when the key is absent. *)
Definition defaulted {A} (f : value -> checked A) (k : string) (dflt : A)
    (d : list (string * value)) : checked A :=
  match Json.dict_lookup k d with
  | Some v => at_loc k (f v)
  | None => Valid dflt
  end.

(** A model reads an object; keys it does not declare are ignored. *)
Definition model {A} (fields : list (string * value) -> checked A) (v : value)
  : checked A :=
  match v with
  | VDict d => fields d
  | _ => fail "model_type"
  end.

Definition validate_Recommendation : value -> checked Recommendation :=
  model (fun d =>
    cmap (fun '(a, (r, c)) => {| action := a; rationale := r; confidence := c |})
      (both (required (literal ["buy"; "hold"; "sell"]) "action" d)
      (both (required val_str "rationale" d)
            (required (conint 0 100) "confidence" d)))).

Definition validate_RiskItem : value -> checked RiskItem :=
  model (fun d =>
    cmap (fun '(n, (s, (i, (l, m)))) =>
            {| name := n; severity := s; impact := i; likelihood := l;
               mitigation := m |})
      (both (required val_str "name" d)
      (both (required (literal ["low"; "medium"; "high"; "critical"]) "severity" d)
      (both (required val_str "impact" d)
      (both (required (literal ["low"; "medium"; "high"]) "likelihood" d)
            (required val_str "mitigation" d)))))).

Definition validate_MarketInsight : value -> checked MarketInsight :=
  model (fun d =>
    cmap (fun '(t, (i, e)) => {| topic := t; insight := i; evidence := e |})
      (both (required val_str "topic" d)
      (both (required val_str "insight" d)
            (required val_str "evidence" d)))).

Definition validate_Metrics : value -> checked Metrics :=
  model (fun d =>
    cmap (fun '(r, (g, (e, c))) =>
            {| revenue_yoy := r; gross_margin := g; ebitda_margin := e;
               guidance_change := c |})
      (both (defaulted (optional val_float) "revenue_yoy" None d)
      (both (defaulted (optional val_float) "gross_margin" None d)
      (both (defaulted (optional val_float) "ebitda_margin" None d)
            (defaulted (optional val_str) "guidance_change" None d))))).

Definition validate_DocumentMetadata : value -> checked DocumentMetadata :=
  model (fun d =>
    cmap (fun '(c, (q, (y, (s, p)))) =>
            {| company := c; quarter := q; year := y; source := s; pages := p |})
      (both (defaulted (optional val_str) "company" None d)
      (both (defaulted (optional val_str) "quarter" None d)
      (both (defaulted (optional val_int) "year" None d)
      (both (defaulted (optional val_str) "source" None d)
            (defaulted (optional val_int) "pages" None d)))))).

Definition validate_AnalysisResult : value -> checked AnalysisResult :=
  model (fun d =>
    cmap (fun '(m, (r, (k, (i, (km, (q, l)))))) =>
            {| metadata := m; recommendation := r; risks := k; insights := i;
               key_metrics := km; quotes := q; limitations := l |})
      (both (required validate_DocumentMetadata "metadata" d)
      (both (required validate_Recommendation "recommendation" d)
      (both (required (list_of validate_RiskItem) "risks" d)
      (both (required (list_of validate_MarketInsight) "insights" d)
      (both (defaulted (optional validate_Metrics) "key_metrics" None d)
      (both (required (list_of val_str) "quotes" d)
            (required val_str "limitations" d)))))))).

(** Raising [ValidationError] for model [title]. *)
Definition raise_invalid {A} (title : string) (c : checked A) : outcome A :=
  match c with
  | Valid a => Return a
  | Invalid errs => Raise (ValidationError title errs)
  end.

(** [AnalysisResult.model_validate_json(json_text)] *)
Definition model_validate_json (json_text : string) : outcome AnalysisResult :=
  match Json.loads json_text with
  | None =>
      Raise (ValidationError "AnalysisResult"
               [{| loc := []; kind := "json_invalid" |}])
  | Some v => raise_invalid "AnalysisResult" (validate_AnalysisResult v)
  end.

(** *** Serialisation: [json.loads(result.model_dump_json())] *)

Definition dump_opt {A} (f : A -> value) (o : option A) : value :=
  match o with
  | Some a => f a
  | None => VNone
  end.

Definition dump_float (x : Z * Z) : value := VFloat (fst x) (snd x).

Definition dump_Recommendation (r : Recommendation) : value :=
  VDict [("action", VStr (action r)); ("rationale", VStr (rationale r));
         ("confidence", VInt (confidence r))].

Definition dump_RiskItem (r : RiskItem) : value :=
  VDict [("name", VStr (name r)); ("severity", VStr (severity r));
         ("impact", VStr (impact r)); ("likelihood", VStr (likelihood r));
         ("mitigation", VStr (mitigation r))].

Definition dump_MarketInsight (m : MarketInsight) : value :=
  VDict [("topic", VStr (topic m)); ("insight", VStr (insight m));
         ("evidence", VStr (evidence m))].

Definition dump_Metrics (m : Metrics) : value :=
  VDict [("revenue_yoy", dump_opt dump_float (revenue_yoy m));
         ("gross_margin", dump_opt dump_float (gross_margin m));
         ("ebitda_margin", dump_opt dump_float (ebitda_margin m));
         ("guidance_change", dump_opt VStr (guidance_change m))].

Definition dump_DocumentMetadata (m : DocumentMetadata) : value :=
  VDict [("company", dump_opt VStr (company m));
         ("quarter", dump_opt VStr (quarter m));
         ("year", dump_opt VInt (year m));
         ("source", dump_opt VStr (source m));
         ("pages", dump_opt VInt (pages m))].

Definition model_dump (r : AnalysisResult) : list (string * value) :=
  [("metadata", dump_DocumentMetadata (metadata r));
   ("recommendation", dump_Recommendation (recommendation r));
   ("risks", VList (map dump_RiskItem (risks r)));
   ("insights", VList (map dump_MarketInsight (insights r)));
   ("key_metrics", dump_opt dump_Metrics (key_metrics r));
   ("quotes", VList (map VStr (quotes r)));
   ("limitations", VStr (limitations r))].

End Schema.

Import Schema.

#[global] Instance outcome_ret : MRet outcome := fun A a => Return a.
#[global] Instance outcome_bind : MBind outcome := fun A B f m =>
  match m with
  | Return a => f a
  | Raise e => Raise e
  end.

(** Keyword construction of the models, as in [DocumentMetadata(company=...)]:
    the arguments are validated like the fields of an object. *)
Definition DocumentMetadata_init (company quarter year source pages : value)
  : outcome DocumentMetadata :=
  raise_invalid "DocumentMetadata"
    (validate_DocumentMetadata
       (VDict [("company", company); ("quarter", quarter); ("year", year);
               ("source", source); ("pages", pages)])).

Definition Recommendation_init (action rationale confidence : value)
  : outcome Recommendation :=
  raise_invalid "Recommendation"
    (validate_Recommendation
       (VDict [("action", action); ("rationale", rationale);
               ("confidence", confidence)])).

Definition RiskItem_init (name severity impact likelihood mitigation : value)
  : outcome RiskItem :=
  raise_invalid "RiskItem"
    (validate_RiskItem
       (VDict [("name", name); ("severity", severity); ("impact", impact);
               ("likelihood", likelihood); ("mitigation", mitigation)])).

Definition MarketInsight_init (topic insight evidence : value)
  : outcome MarketInsight :=
  raise_invalid "MarketInsight"
    (validate_MarketInsight
       (VDict [("topic", topic); ("insight", insight); ("evidence", evidence)])).

Definition Metrics_init
    (revenue_yoy gross_margin ebitda_margin guidance_change : value)
  : outcome Metrics :=
  raise_invalid "Metrics"
    (validate_Metrics
       (VDict [("revenue_yoy", revenue_yoy); ("gross_margin", gross_margin);
               ("ebitda_margin", ebitda_margin);
               ("guidance_change", guidance_change)])).

(** ** [_mock_result] (task.py, lines 170-207) *)

Definition growth_keywords : list string :=
  ["increase"; "grew"; "up "; "growth"; "higher"].

Definition _mock_result (text : string) (meta : list (string * value))
  : outcome AnalysisResult :=
  let t := Py.lower text in
  let growth := existsb (fun k => Py.contains k t) growth_keywords in
  let margin := Py.contains "margin" t || Py.contains "bps" t in
  let rec := if growth && margin then "buy"
             else if growth then "hold" else "sell" in
  md ← DocumentMetadata_init
         (Json.or_ (Json.get "company" meta) (VStr "UnknownCo"))
         (Json.or_ (Json.get "quarter" meta) (VStr "Q?"))
         (Json.get "year" meta)
         (Json.or_ (Json.get "source" meta) (VStr "uploaded.pdf"))
         (Json.get "pages" meta);
  rc ← Recommendation_init
         (VStr rec)
         (VStr "Mock analysis using keywords (growth/margin).")
         (VInt 65);
  rk ← RiskItem_init
         (VStr "Data completeness")
         (VStr "medium")
         (VStr "Heuristic mock may miss context.")
         (VStr "medium")
         (VStr "Use real model when quota is available.");
  mi ← MarketInsight_init
         (VStr "Growth")
         (VStr (if growth then "Growth keywords detected."
                else "No clear growth signals detected."))
         (VStr (if growth then "increase/grew/up/higher" else "—"));
  km ← Metrics_init VNone VNone VNone VNone;
  Return {| metadata := md;
            recommendation := rc;
            risks := [rk];
            insights := [mi];
            key_metrics := Some km;
            quotes := [];
            limitations :=
              "This is a mock result generated without calling the model." |}.

(** ** The outside world

    The capabilities the code calls but does not implement: the process
    environment, the file system, the two PDF libraries, the OpenAI client
    and the optional CrewAI run. *)

(** What [page.extract_text()] does on one page. *)
Inductive page :=
| PageRaises (e : exn)
| PageText (t : option string).

(** What a PDF library does with a document: it fails as a whole (the
    import, opening the document, counting or walking its pages), or it
    hands out the pages. *)
Inductive pdf_document :=
| PdfRaises (e : exn)
| PdfPages (ps : list page).

(** What [client.chat.completions.create(...)] followed by
    [resp.choices[0].message.content] does. *)
Inductive completion :=
| CompletionRaises (e : exn)
| CompletionContent (content : option string).

(** The parts of the chat request that vary; the system prompt, the schema,
    the few-shot pair and the sampling parameters are constants. *)
Record chat_request := {
  req_model : string;
  req_meta : list (string * value);
  req_snippet : string
}.

Record World := {
  environ : gmap string string;
  read_file : string -> outcome string;
  pypdf : string -> pdf_document;
  pdfplumber : string -> pdf_document;
  OpenAI : option exn;                  (* [Some e]: [OpenAI()] raises [e] *)
  chat_completions_create : chat_request -> completion;
  crew_kickoff : string -> string -> option exn
}.

(** [os.getenv(key, default)] *)
Definition getenv (w : World) (key dflt : string) : string :=
  default dflt (environ w !! key).

(** ** [extract_text_from_pdf_bytes] (tools.py) *)

(** [page.extract_text() or ""] inside its own [try]: a page that fails
    contributes the empty string. *)
Definition page_chunk (p : page) : string :=
  match p with
  | PageText (Some t) => t
  | PageText None => ""
  | PageRaises _ => ""
  end.

(** [text.encode("utf-8", errors="replace").decode("utf-8")] changes lone
    surrogates only, which a string of bytes does not have. *)
Definition utf8_replace (text : string) : string := text.

Definition extraction_unavailable : exn :=
  RuntimeError
    ("PDF extraction requires pypdf (recommended) or pdfplumber. "
     +:+ "Install with: pip install pypdf pdfplumber").

Definition extract_text_from_pdf_bytes (w : World) (pdf_bytes : string)
  : outcome (list (string * value)) :=
  let finish (text : string) (pages : nat) :=
    Return [("text", VStr (utf8_replace text));
            ("pages", VInt (Z.of_nat pages))] in
  match pypdf w pdf_bytes with
  | PdfPages ps => finish (Py.join Py.nl (map page_chunk ps)) (length ps)
  | PdfRaises _ =>
      match pdfplumber w pdf_bytes with
      | PdfPages ps => finish (Py.join Py.nl (map page_chunk ps)) (length ps)
      | PdfRaises _ => Raise extraction_unavailable
      end
  end.

(** ** [_llm_analyze_financials] (task.py, lines 209-246) *)

Definition mock_llm (w : World) : bool :=
  String.eqb (getenv w "MOCK_LLM" "0") "1".

(** Lines 215-230 and 233: the request that is sent. *)
Definition chat_request_for (w : World) (text : string)
    (meta : list (string * value)) : chat_request :=
  let snippet :=
    if Py.len text <? 180000 then text else Py.slice text 0 180000 in
  {| req_model := getenv w "OPENAI_MODEL" "gpt-4o-mini";
     req_meta := meta;
     req_snippet := snippet |}.

Definition _llm_analyze_financials (w : World) (text : string)
    (meta : list (string * value)) : outcome AnalysisResult :=
  if mock_llm w then _mock_result text meta
  else
    match OpenAI w with
    | Some e => Raise e
    | None =>
        let attempt : outcome AnalysisResult :=
          match chat_completions_create w (chat_request_for w text meta) with
          | CompletionRaises e => Raise e
          | CompletionContent content =>
              let raw := default "" content in
              let json_text := _extract_json_str raw in
              model_validate_json json_text
          end in
        match attempt with
        | Return r => Return r
        | Raise e =>
            if mock_llm w then _mock_result text meta
            else Raise (RuntimeError ("Model call failed: " +:+ str e))
        end
    end.

(** ** [run_analysis] (task.py, lines 248-276) *)

Definition run_analysis (w : World) (query file_path : string)
  : outcome (list (string * value)) :=
  pdf_bytes ← read_file w file_path;
  ext ← extract_text_from_pdf_bytes w pdf_bytes;
  let text := match Json.get "text" ext with VStr t => t | _ => "" end in
  let meta := [("company", VNone); ("quarter", VNone); ("year", VNone);
               ("source", VStr file_path); ("pages", Json.get "pages" ext)] in
  _ ← (if String.eqb (getenv w "CREWAI_ENABLED" "0") "1"
       then match crew_kickoff w query (Py.slice text 0 180000) with
            | Some e => Raise e
            | None => Return tt
            end
       else Return tt);
  result ← _llm_analyze_financials w text meta;
  Return (model_dump result).

(** ** The relations (models.py) *)

Module Job.
Record t := {
  id : string;
  user_id : option string;
  created_at : Z;
  status : string;                (* pending|done|error *)
  error : option string;
  file_path : option string;
  query : option string
}.
End Job.

(** The surrogate key [id] of an analysis, a fresh [uuid4], is left out. *)
Module Analysis.
Record t := {
  job_id : string;                (* unique *)
  result_json : list (string * value);
  company : option string;
  quarter : option string;
  year : option Z;
  recommendation_action : option string;
  confidence : option Z;
  pages : option Z
}.
End Analysis.

(** The committed content of the database: [jobs] by primary key, and the
    rows of [analyses]. *)
Record Store := {
  jobs : gmap string Job.t;
  analyses : list Analysis.t
}.

(** ** Sessions and [session_scope] (db.py) *)

(** A session holds what it has not written yet: the loaded jobs whose
    attributes were assigned, and the new analyses that were added. *)
Record Session := {
  connection : Store;
  dirty : gmap string Job.t;
  new : list Analysis.t
}.

Definition SessionLocal (db : Store) : Session :=
  {| connection := db; dirty := ∅; new := [] |}.

(** [session.get(Job, job_id)] *)
Definition session_get_job (s : Session) (job_id : string) : option Job.t :=
  match dirty s !! job_id with
  | Some j => Some j
  | None => jobs (connection s) !! job_id
  end.

(** Assigning attributes of the job loaded under [job_id]; [session.add(job)]
    on such an object changes nothing more. *)
Definition session_set_job (s : Session) (job_id : string) (j : Job.t)
  : Session :=
  {| connection := connection s; dirty := <[job_id := j]> (dirty s);
     new := new s |}.

(** [session.add(analysis)] *)
Definition session_add_analysis (s : Session) (a : Analysis.t) : Session :=
  {| connection := connection s; dirty := dirty s; new := new s ++ [a] |}.

Definition has_analysis (job_id : string) (rows : list Analysis.t) : bool :=
  existsb (fun a => String.eqb (Analysis.job_id a) job_id) rows.

(** INSERT of the new rows, one by one, under the unique index on
    [analyses.job_id].  The message of the error is SQLite's, without the
    statement that SQLAlchemy appends to it. *)
Fixpoint insert_analyses (rows new_rows : list Analysis.t)
  : outcome (list Analysis.t) :=
  match new_rows with
  | [] => Return rows
  | a :: r =>
      if has_analysis (Analysis.job_id a) rows
      then Raise (IntegrityError "UNIQUE constraint failed: analyses.job_id")
      else insert_analyses (rows ++ [a]) r
  end.

(** [session.commit()]: the pending updates and inserts are flushed and
    made durable together, or an exception is raised. *)
Definition commit (s : Session) : outcome Store :=
  rows ← insert_analyses (analyses (connection s)) (new s);
  Return {| jobs := dirty s ∪ jobs (connection s); analyses := rows |}.

(** [with session_scope() as session: body].  The body ends by returning or
    by raising; either way the session is closed afterwards. *)
Definition session_scope {A} (body : Session -> outcome A * Session)
    (db : Store) : outcome A * Store :=
  let session := SessionLocal db in
  match body session with
  | (Return a, session) =>
      match commit session with
      | Return db' => (Return a, db')
      | Raise e => (Raise e, db)              (* rollback(); raise *)
      end
  | (Raise e, _) => (Raise e, db)             (* rollback(); raise *)
  end.

(** ** [process_pdf_job] (tasks_worker.py) *)

(** The scalar columns are typed; [as_str] and [as_int] read a value of the
    result dictionary into them.  On the dump of a validated result they
    lose nothing (lemma [new_analysis_fields]). *)
Definition as_str (v : value) : option string :=
  match v with VStr s => Some s | _ => None end.

Definition as_int (v : value) : option Z :=
  match v with VInt n => Some n | _ => None end.

(** [(result.get(k) or {}).get(f)]; in a result dictionary the value under
    [k] is an object or [None]. *)
Definition sub_get (result : list (string * value)) (k f : string) : value :=
  match Json.or_ (Json.get k result) (VDict []) with
  | VDict d => Json.get f d
  | _ => VNone
  end.

(** Lines 18-27: the row that stores the result. *)
Definition new_analysis (job_id : string) (result : list (string * value))
  : Analysis.t :=
  {| Analysis.job_id := job_id;
     Analysis.result_json := result;
     Analysis.company := as_str (sub_get result "metadata" "company");
     Analysis.quarter := as_str (sub_get result "metadata" "quarter");
     Analysis.year := as_int (sub_get result "metadata" "year");
     Analysis.recommendation_action :=
       as_str (sub_get result "recommendation" "action");
     Analysis.confidence :=
       as_int (sub_get result "recommendation" "confidence");
     Analysis.pages := as_int (sub_get result "metadata" "pages") |}.

(** [job.status = status; job.error = error] *)
Definition set_status (job : Job.t) (status : string) (error : option string)
  : Job.t :=
  {| Job.id := Job.id job; Job.user_id := Job.user_id job;
     Job.created_at := Job.created_at job;
     Job.status := status; Job.error := error;
     Job.file_path := Job.file_path job; Job.query := Job.query job |}.

Definition process_pdf_job (w : World) (job_id file_path query : string)
    (user_id : option string) : Store -> outcome value * Store :=
  session_scope (fun session =>
    match session_get_job session job_id with
    | None =>
        (Return (VDict [("error", VStr ("Job " +:+ job_id +:+ " not found"))]),
         session)
    | Some job =>
        match run_analysis w query file_path with
        | Return result =>
            let analysis := new_analysis job_id result in
            let session := session_add_analysis session analysis in
            let session := session_set_job session job_id
                             (set_status job "done" None) in
            (Return (VDict [("ok", VBool true)]), session)
        | Raise e =>
            let session := session_set_job session job_id
                             (set_status job "error" (Some (str e))) in
            (Return (VDict [("error", VStr (str e))]), session)
        end
    end).

(** ** The claims' vocabulary

    Definitions that follow the words of the specification; the theorems
    compare them with the code above. *)

(** [k] occurs in [t]. *)
Definition occurs_in (k t : string) : Prop :=
  exists a b, t = a +:+ k +:+ b.



(** The metadata hints are of the declared types: a string or [None] for
    [company], [quarter] and [source], an integer or [None] for [year] and
    [pages].  An absent key reads as [None]. *)
Definition is_str_or_none (v : value) : bool :=
  match v with VNone | VStr _ => true | _ => false end.

Definition is_int_or_none (v : value) : bool :=
  match v with VNone | VInt _ => true | _ => false end.

Definition hints_typed (meta : list (string * value)) : bool :=
  is_str_or_none (Json.get "company" meta)
  && is_str_or_none (Json.get "quarter" meta)
  && is_int_or_none (Json.get "year" meta)
  && is_str_or_none (Json.get "source" meta)
  && is_int_or_none (Json.get "pages" meta).

(** The hint under [k], or [dflt] when there is none (or an empty one). *)
Definition hint_or (k dflt : string) (meta : list (string * value)) : string :=
  match Json.get k meta with
  | VStr s => if String.eqb s "" then dflt else s
  | _ => dflt
  end.

(** The walk over the characters of a text: brace depth, whether the walk
    is inside a string literal, and whether the previous character was an
    escaping backslash. *)
Record walk_state := {
  w_depth : Z;
  w_in_str : bool;
  w_esc : bool
}.

Definition walk_step (st : walk_state) (ch : ascii) : walk_state :=
  if w_in_str st then
    if w_esc st then
      {| w_depth := w_depth st; w_in_str := true; w_esc := false |}
    else if Ascii.eqb ch "\"%char then
      {| w_depth := w_depth st; w_in_str := true; w_esc := true |}
    else if Ascii.eqb ch Py.dquote then
      {| w_depth := w_depth st; w_in_str := false; w_esc := false |}
    else st
  else
    if Ascii.eqb ch Py.dquote then
      {| w_depth := w_depth st; w_in_str := true; w_esc := w_esc st |}
    else if Ascii.eqb ch "{"%char then
      {| w_depth := w_depth st + 1; w_in_str := false; w_esc := w_esc st |}
    else if Ascii.eqb ch "}"%char then
      {| w_depth := w_depth st - 1; w_in_str := false; w_esc := w_esc st |}
    else st.

Fixpoint walk (st : walk_state) (s : string) : walk_state :=
  match s with
  | EmptyString => st
  | String ch r => walk (walk_step st ch) r
  end.

Definition walk_init : walk_state :=
  {| w_depth := 0; w_in_str := false; w_esc := false |}.

(** The depth is zero after [p], and after no shorter part of it. *)
Definition first_zero (st : walk_state) (p : string) : Prop :=
  w_depth (walk st p) = 0
  /\ forall p1 p2, p = p1 +:+ p2 -> p1 <> "" -> p2 <> "" ->
       w_depth (walk st p1) <> 0.

(** [obj] runs from an opening brace to the brace that closes it: the depth
    is back at zero at the end of [obj], and at no earlier point. *)
Definition balanced_object (obj : string) : Prop :=
  Py.startswith "{" obj = true
  /\ w_depth (walk walk_init obj) = 0
  /\ forall p q, obj = p +:+ q -> p <> "" -> q <> "" ->
       w_depth (walk walk_init p) <> 0.

(** Validation fails. *)
Definition invalid {A} (c : checked A) : Prop := exists errs, c = Invalid errs.



(** How many rows of [analyses] belong to a job. *)
Definition count_analyses (job_id : string) (rows : list Analysis.t) : nat :=
  length (filter (fun a => Analysis.job_id a = job_id) rows).

(** ** Sample inputs *)

Definition sample_job (status : string) (error : option string) : Job.t :=
  {| Job.id := "j1"; Job.user_id := None; Job.created_at := 0;
     Job.status := status; Job.error := error;
     Job.file_path := Some "data/financial_document_1.pdf";
     Job.query := Some "Analyze this financial document" |}.

Definition mock_env : gmap string string := {["MOCK_LLM" := "1"]}.

Definition reply_without_source : string :=
  Py.lit ("{'metadata': {'company': 'ACME'}, "
          +:+ "'recommendation': {'action': 'hold', 'rationale': 'flat', "
          +:+ "'confidence': 50}, "
          +:+ "'risks': [], 'insights': [], 'quotes': [], "
          +:+ "'limitations': 'none'}").




(** A world in which every file is a one-page PDF that pypdf reads. *)
Definition sample_world (env : gmap string string) (c : completion) : World :=
  {| environ := env;
     read_file := fun _ => Return "%PDF-1.7";
     pypdf := fun _ =>
       PdfPages [PageText (Some "Revenue grew 15% with margin improvement")];
     pdfplumber := fun _ => PdfRaises (Exception "No module named pdfplumber");
     OpenAI := None;
     chat_completions_create := fun _ => c;
     crew_kickoff := fun _ _ => None |}.


(** A store with one pending job, and the stores that a first delivery of
    the task leaves behind: after a successful run in mock mode, and after
    a run that failed because the upload was gone. *)
Definition store_pending : Store :=
  {| jobs := {["j1" := sample_job "pending" None]}; analyses := [] |}.




(** ** [get_result] (main.py 96-106) *)

(** An [HTTPException] is an [Exception]; it is kept with the text that
    [str] gives it, the status code and the detail. *)
Definition HTTPException (status_code : nat) (detail : string) : exn :=
  Exception (show_nat status_code +:+ ": " +:+ detail).

(** What [one_or_none()] raises when the query has several rows. *)
Definition MultipleResultsFound : exn :=
  Exception "Multiple rows were found when one or none was required".

(** [session.query(Analysis).filter_by(job_id=job_id).one_or_none()].  The
    query reads the database; the session has nothing pending here. *)
Definition analysis_one_or_none (session : Session) (job_id : string)
  : outcome (option Analysis.t) :=
  match filter (fun a => Analysis.job_id a = job_id)
               (analyses (connection session)) with
  | [] => Return None
  | [a] => Return (Some a)
  | _ => Raise MultipleResultsFound
  end.

Definition get_result (job_id : string) : Store -> outcome value * Store :=
  session_scope (fun session =>
    match session_get_job session job_id with
    | None => (Raise (HTTPException 404 "Job not found."), session)
    | Some job =>
        if negb (String.eqb (Job.status job) "done") then
          (Return (VDict [("job_id", VStr (Job.id job));
                          ("status", VStr (Job.status job));
                          ("error", dump_opt VStr (Job.error job))]),
           session)
        else
          match analysis_one_or_none session job_id with
          | Raise e => (Raise e, session)
          | Return analysis =>
              let result_json :=
                match analysis with
                | Some a => Some (Analysis.result_json a)
                | None => None
                end in
              (Return (VDict [("job_id", VStr (Job.id job));
                              ("status", VStr "done");
                              ("result", dump_opt VDict result_json)]),
               session)
          end
    end).

(** ** [_load_dotenv_if_present] (main.py 13-24, celery_app.py 8-19) *)

Module Dotenv.

(** The line boundaries of [str.splitlines] in ASCII: LF, VT, FF, CR, FS,
    GS and RS, with CR LF counting as one. *)
Definition is_linebreak (c : ascii) : bool :=
  match c with
  | "010" | "011" | "012" | "013" | "028" | "029" | "030" => true
  | _ => false
  end%char.

(** [cur] holds the characters of the line that is being read. *)
Fixpoint splitlines_from (cur s : string) : list string :=
  match s with
  | EmptyString => match cur with EmptyString => [] | _ => [cur] end
  | String c r =>
      if is_linebreak c then
        cur :: (if Ascii.eqb c "013"%char then
                  match r with
                  | String c2 r' =>
                      if Ascii.eqb c2 "010"%char then splitlines_from "" r'
                      else splitlines_from "" r
                  | EmptyString => splitlines_from "" r
                  end
                else splitlines_from "" r)
      else splitlines_from (cur +:+ String c "") r
  end.

(** [s.splitlines()] *)
Definition splitlines (s : string) : list string := splitlines_from "" s.

(** [s.endswith(p)] *)
Definition endswith (p s : string) : bool :=
  (String.length p <=? String.length s)%nat
  && String.eqb (String.substring (String.length s - String.length p)
                   (String.length p) s) p.

(** [s.split(sep, 1)] for a separator that occurs in [s]: what precedes
    and what follows its first occurrence. *)
Fixpoint split_once (sep : ascii) (s : string) : string * string :=
  match s with
  | EmptyString => (EmptyString, EmptyString)
  | String c r =>
      if Ascii.eqb c sep then (EmptyString, r)
      else let '(a, b) := split_once sep r in (String c a, b)
  end.

(** Lines 22-23: a value between two double quotes or two apostrophes. *)
Definition quoted (v : string) : bool :=
  (Py.startswith (String Py.dquote "") v && endswith (String Py.dquote "") v)
  || (Py.startswith "'" v && endswith "'" v).

(** [v[1:-1]] *)
Definition strip_ends (v : string) : string :=
  String.substring 1 (String.length v - 2) v.

(** Lines 17-23: the name and the value that a line assigns, [None] for a
    line that the loop skips. *)
Definition parse_line (line : string) : option (string * string) :=
  let line := Py.strip line in
  if String.eqb line "" || Py.startswith "#" line
     || negb (Py.contains "=" line)
  then None
  else
    let '(k, v) := split_once "="%char line in
    let k := Py.strip k in
    let v := Py.strip v in
    let v := if quoted v then strip_ends v else v in
    Some (k, v).

(** Why [os.environ] refuses a new variable. *)
Inductive putenv_error :=
| EmbeddedNull      (* a NUL character in the name or in the value *)
| IllegalName.      (* the empty name *)

Definition has_nul (s : string) : bool := Py.contains (String "000"%char "") s.

(** [os.environ.setdefault(k, v)]: a variable that exists is left alone;
    a new one is put into the environment, which raises for a name or
    value that the environment cannot hold. *)
Definition setdefault (env : gmap string string) (k v : string)
  : gmap string string + putenv_error :=
  match env !! k with
  | Some _ => inl env
  | None =>
      if has_nul k || has_nul v then inr EmbeddedNull
      else if String.eqb k "" then inr IllegalName
      else inl (<[k := v]> env)
  end.

(** The loop over the lines.  The result is the environment when the loop
    ends, and the error if it ended by raising. *)
Fixpoint load_lines (lines : list string) (env : gmap string string)
  : gmap string string * option putenv_error :=
  match lines with
  | [] => (env, None)
  | line :: rest =>
      match parse_line line with
      | None => load_lines rest env
      | Some (k, v) =>
          match setdefault env k v with
          | inl env' => load_lines rest env'
          | inr e => (env, Some e)
          end
      end
  end.

(** [dotenv] is the text of the file [.env], [None] when there is no such
    file. *)
Definition _load_dotenv_if_present (dotenv : option string)
    (env : gmap string string) : gmap string string * option putenv_error :=
  match dotenv with
  | None => (env, None)
  | Some text => load_lines (splitlines text) env
  end.

(** A name that a line can assign: not empty, without white space around
    it, without "=", and not starting a comment. *)
Definition name_ok (k : string) : Prop :=
  k <> "" /\ Py.strip k = k /\ Py.contains "=" k = false
  /\ Py.startswith "#" k = false.

Definition sample_dotenv : string :=
  "# local settings" +:+ Py.nl
  +:+ "MOCK_LLM=1" +:+ Py.nl
  +:+ Py.nl
  +:+ "OPENAI_MODEL = 'gpt-4o'" +:+ Py.nl
  +:+ "MOCK_LLM=0" +:+ Py.nl
  +:+ "not an assignment" +:+ Py.nl.

End Dotenv.

(** ** Further vocabulary *)


(** A store is consistent when every analysis belongs to a job of the
    store, no job has two analyses, and a pending job has none. *)
Definition store_ok (db : Store) : Prop :=
  (forall a, In a (analyses db) -> is_Some (jobs db !! Analysis.job_id a))
  /\ (forall j, (count_analyses j (analyses db) <= 1)%nat)
  /\ (forall j job, jobs db !! j = Some job -> Job.status job = "pending" ->
                    has_analysis j (analyses db) = false).

(** One delivery of the task by the queue: the world it runs in and the
    arguments of the message. *)
Record delivery := {
  d_world : World;
  d_job_id : string;
  d_file_path : string;
  d_query : string;
  d_user_id : option string
}.

Definition deliver (db : Store) (d : delivery) : Store :=
  snd (process_pdf_job (d_world d) (d_job_id d) (d_file_path d) (d_query d)
         (d_user_id d) db).

(** Any number of deliveries, one after the other. *)
Definition deliver_all (ds : list delivery) (db : Store) : Store :=
  fold_left deliver ds db.

Definition sample_delivery : delivery :=
  {| d_world := sample_world mock_env (CompletionContent None);
     d_job_id := "j1";
     d_file_path := "data/financial_document_1.pdf";
     d_query := "Analyze";
     d_user_id := None |}.

(** The constraints that the schema puts on a result: the literals of a
    recommendation and of a risk item, and the range of the confidence. *)
Definition Recommendation_ok (r : Recommendation) : Prop :=
  In (action r) ["buy"; "hold"; "sell"] /\ 0 <= confidence r <= 100.

Definition RiskItem_ok (k : RiskItem) : Prop :=
  In (severity k) ["low"; "medium"; "high"; "critical"]
  /\ In (likelihood k) ["low"; "medium"; "high"].

Definition AnalysisResult_ok (r : AnalysisResult) : Prop :=
  Recommendation_ok (recommendation r) /\ Forall RiskItem_ok (risks r).

Definition is_nl (c : ascii) : bool := Ascii.eqb c "010".

(** All characters of a text satisfy [p]. *)
Fixpoint all_chars (p : ascii -> bool) (s : string) : bool :=
  match s with
  | EmptyString => true
  | String c r => p c && all_chars p r
  end.

(** The recommendations in their order, from "sell" up to "buy". *)
Definition action_rank (a : string) : nat :=
  if String.eqb a "buy" then 2 else if String.eqb a "hold" then 1 else 0.

(** A text of ASCII characters.  On such a text the string methods above
    are Python's: a character is a byte, and there is no white space or
    line boundary besides the ASCII ones. *)
Definition is_ascii (c : ascii) : bool :=
  match c with Ascii _ _ _ _ _ _ _ b7 => negb b7 end.

Definition ascii_text (s : string) : Prop := all_chars is_ascii s = true.

(** A result as a model might return it. *)
Definition sample_result : AnalysisResult :=
  {| metadata := {| company := Some "ACME"; quarter := Some "Q2";
                    year := Some 2025; source := None; pages := Some 12 |};
     recommendation := {| action := "hold"; rationale := "Flat guidance.";
                          confidence := 72 |};
     risks := [{| name := "Margin pressure"; severity := "medium";
                  impact := "Profitability"; likelihood := "high";
                  mitigation := "Pricing" |}];
     insights := [{| topic := "Growth"; insight := "Double-digit";
                     evidence := "12% YoY" |}];
     key_metrics := Some {| revenue_yoy := Some (120, -1); gross_margin := None;
                            ebitda_margin := None;
                            guidance_change := Some "Flat" |};
     quotes := ["Revenue grew 12% YoY"];
     limitations := "Excerpt only." |}.

(** ** [health] (main.py 38-46) *)

Definition health (w : World) : list (string * value) :=
  [("status", VStr "ok");
   ("mock", VBool (String.eqb (getenv w "MOCK_LLM" "0") "1"));
   ("crewai", VBool (String.eqb (getenv w "CREWAI_ENABLED" "0") "1"));
   ("db", VStr (getenv w "DB_URL" "sqlite:///./finanalyzer.db"));
   ("broker", VStr (getenv w "REDIS_URL" "redis://localhost:6379/0"))].

(** The world with another model behind it, and with another crew. *)
Definition with_model (w : World) (ctor : option exn)
    (create : chat_request -> completion) : World :=
  {| environ := environ w;
     read_file := read_file w;
     pypdf := pypdf w;
     pdfplumber := pdfplumber w;
     OpenAI := ctor;
     chat_completions_create := create;
     crew_kickoff := crew_kickoff w |}.

Definition with_crew (w : World) (kickoff : string -> string -> option exn)
  : World :=
  {| environ := environ w;
     read_file := read_file w;
     pypdf := pypdf w;
     pdfplumber := pdfplumber w;
     OpenAI := OpenAI w;
     chat_completions_create := chat_completions_create w;
     crew_kickoff := kickoff |}.

(** ** [analyze_financial_document] (main.py 48-94) *)

Module User.
Record t := {
  id : string;
  email : string;                 (* unique *)
  name : option string
}.
End User.

(** The database with its three relations: the rows of [users], and the
    two relations that the task works on. *)
Record Database := {
  db_users : list User.t;
  db_store : Store
}.

(** A message to the queue: the keyword arguments of [process_pdf_job]. *)
Record message := {
  m_job_id : string;
  m_file_path : string;
  m_query : string;
  m_user_id : option string
}.

(** What the service keeps between requests: the database, the files under
    its working directory by path, and the messages that were sent to the
    broker, oldest first. *)
Record Service := {
  database : Database;
  files : gmap string string;
  queue : list message
}.

(** What one request meets outside the program: the outcome of [mkdir], the
    value that [uuid4] returns at each of its three places, the clock, the
    outcome of reading the upload, the outcome of writing the file (when it
    fails, the exception and what it has left at the path) and the outcome
    of sending to the broker. *)
Record Effects := {
  mkdir : option exn;
  file_uuid : string;
  user_uuid : string;
  job_uuid : string;
  utcnow : Z;
  file_read : outcome string;
  write_bytes : option (exn * option string);
  send : option exn
}.

Definition default_query : string :=
  "Analyze this financial document for investment insights".

(** [(query or "").strip() or "Analyze this ..."] *)
Definition normalize_query (query : string) : string :=
  let q := Py.strip query in
  if String.eqb q "" then default_query else q.

(** [session.query(User).filter_by(email=email).one_or_none()] *)
Definition user_one_or_none (email : string) (db : Database)
  : outcome (option User.t) :=
  match filter (fun u => User.email u = email) (db_users db) with
  | [] => Return None
  | [u] => Return (Some u)
  | _ => Raise MultipleResultsFound
  end.

(** [session.add(user); session.flush()]: the INSERT, under the primary key
    and the unique index on [users.email]. *)
Definition flush_user (u : User.t) (db : Database) : outcome Database :=
  if existsb (fun x => String.eqb (User.id x) (User.id u)) (db_users db)
  then Raise (IntegrityError "UNIQUE constraint failed: users.id")
  else if existsb (fun x => String.eqb (User.email x) (User.email u))
            (db_users db)
  then Raise (IntegrityError "UNIQUE constraint failed: users.email")
  else Return {| db_users := db_users db ++ [u]; db_store := db_store db |}.

(** [session.add(job); session.flush()]: the INSERT, under the primary
    key. *)
Definition flush_job (j : Job.t) (db : Database) : outcome Database :=
  match jobs (db_store db) !! Job.id j with
  | Some _ => Raise (IntegrityError "UNIQUE constraint failed: jobs.id")
  | None =>
      Return {| db_users := db_users db;
                db_store := {| jobs := <[Job.id j := j]> (jobs (db_store db));
                               analyses := analyses (db_store db) |} |}
  end.

(** [with session_scope() as session: body] for a body that flushes every
    row it adds: what the body threads is the content of the open
    transaction, which is committed when the body returns and rolled back
    when it raises. *)
Definition session_scope_flushed {A}
    (body : Database -> outcome (A * Database)) (db : Database)
  : outcome A * Database :=
  match body db with
  | Return (a, db') => (Return a, db')
  | Raise e => (Raise e, db)                  (* rollback(); raise *)
  end.

(** Lines 64-87, the body of the [with] block; it leaves [job_id] and
    [user_id] behind. *)
Definition create_job (fx : Effects) (file_path query : string)
    (email name : option string) (db : Database)
  : outcome ((string * option string) * Database) :=
  '(user_id, db) ←
    match email with
    | Some e =>
        if String.eqb e "" then Return (None, db)
        else
          user ← user_one_or_none e db;
          match user with
          | Some u => Return (Some (User.id u), db)
          | None =>
              let u := {| User.id := user_uuid fx; User.email := e;
                          User.name := name |} in
              db ← flush_user u db;
              Return (Some (User.id u), db)
          end
    | None => Return (None, db)
    end;
  let job := {| Job.id := job_uuid fx; Job.user_id := user_id;
                Job.created_at := utcnow fx; Job.status := "pending";
                Job.error := None; Job.file_path := Some file_path;
                Job.query := Some query |} in
  db ← flush_job job db;
  Return ((Job.id job, user_id), db).

(** The world of a process whose working directory holds [fs]. *)
Definition world_on (w : World) (fs : gmap string string) : World :=
  {| environ := environ w;
     read_file := fun path =>
       match fs !! path with
       | Some content => Return content
       | None =>
           Raise (OSError ("[Errno 2] No such file or directory: " +:+ path))
       end;
     pypdf := pypdf w;
     pdfplumber := pdfplumber w;
     OpenAI := OpenAI w;
     chat_completions_create := chat_completions_create w;
     crew_kickoff := crew_kickoff w |}.

(** [task_always_eager] (celery_app.py 29) *)
Definition task_always_eager (w : World) : bool :=
  String.eqb (getenv w "CELERY_EAGER" "0") "1".

(** [process_pdf_job.delay(...)].  An eager task runs at once, in the
    process of the request, and what it raises is kept in the result object
    that [delay] returns; otherwise the message goes to the broker. *)
Definition delay (w : World) (fx : Effects) (m : message) (sv : Service)
  : outcome unit * Service :=
  if task_always_eager w then
    let run := process_pdf_job (world_on w (files sv)) (m_job_id m)
                 (m_file_path m) (m_query m) (m_user_id m)
                 (db_store (database sv)) in
    (Return tt,
     {| database := {| db_users := db_users (database sv);
                       db_store := snd run |};
        files := files sv; queue := queue sv |})
  else
    match send fx with
    | Some e => (Raise e, sv)
    | None =>
        (Return tt,
         {| database := database sv; files := files sv;
            queue := queue sv ++ [m] |})
    end.

Definition upload_path (fx : Effects) : string :=
  "data/financial_document_" +:+ file_uuid fx +:+ ".pdf".

Definition processing_error (e : exn) : exn :=
  HTTPException 500 ("Error processing financial document: " +:+ str e).

Definition analyze_financial_document (w : World) (fx : Effects)
    (query : string) (email name : option string) (sv : Service)
  : outcome value * Service :=
  match mkdir fx with
  | Some e => (Raise e, sv)
  | None =>
      let file_path := upload_path fx in
      let attempt : outcome value * Service :=
        match file_read fx with
        | Raise e => (Raise e, sv)
        | Return content =>
            match write_bytes fx with
            | Some (e, remains) =>
                (Raise e,
                 {| database := database sv;
                    files := match remains with
                             | Some part => <[file_path := part]> (files sv)
                             | None => files sv
                             end;
                    queue := queue sv |})
            | None =>
                let sv := {| database := database sv;
                             files := <[file_path := content]> (files sv);
                             queue := queue sv |} in
                let query := normalize_query query in
                match session_scope_flushed
                        (create_job fx file_path query email name)
                        (database sv) with
                | (Raise e, _) => (Raise e, sv)
                | (Return (job_id, user_id), db) =>
                    let sv := {| database := db; files := files sv;
                                 queue := queue sv |} in
                    match delay w fx
                            {| m_job_id := job_id; m_file_path := file_path;
                               m_query := query; m_user_id := user_id |}
                            sv with
                    | (Raise e, sv) => (Raise e, sv)
                    | (Return _, sv) =>
                        (Return (VDict [("job_id", VStr job_id);
                                        ("status", VStr "pending")]), sv)
                    end
                end
            end
        end in
      match attempt with
      | (Raise e, sv) => (Raise (processing_error e), sv)
      | (Return v, sv) => (Return v, sv)
      end
  end.

(** The delivery of a message in the world of a worker. *)
Definition delivery_of (w : World) (m : message) : delivery :=
  {| d_world := w; d_job_id := m_job_id m; d_file_path := m_file_path m;
     d_query := m_query m; d_user_id := m_user_id m |}.

(** No two users share an address, and no two share an id. *)
Definition users_ok (db : Database) : Prop :=
  NoDup (map User.email (db_users db)) /\ NoDup (map User.id (db_users db)).

(** The database is consistent: its users are, its store is, and a job
    that names a user names one of the relation. *)
Definition database_ok (db : Database) : Prop :=
  users_ok db /\ store_ok (db_store db)
  /\ forall j job uid,
       jobs (db_store db) !! j = Some job -> Job.user_id job = Some uid ->
       In uid (map User.id (db_users db)).

Definition sample_effects : Effects :=
  {| mkdir := None;
     file_uuid := "8b5c1f0e-0c62-4c58-9d0e-6c2f3b1a7d11";
     user_uuid := "1f6d2a3b-77aa-4e0c-b0f1-0a1b2c3d4e5f";
     job_uuid := "c0ffee00-1234-4abc-8def-001122334455";
     utcnow := 1762214400;
     file_read := Return "%PDF-1.7";
     write_bytes := None;
     send := None |}.

(** The same request when the broker cannot be reached. *)
Definition effects_without_broker : Effects :=
  {| mkdir := None;
     file_uuid := file_uuid sample_effects;
     user_uuid := user_uuid sample_effects;
     job_uuid := job_uuid sample_effects;
     utcnow := utcnow sample_effects;
     file_read := Return "%PDF-1.7";
     write_bytes := None;
     send := Some (Exception "Error 111 connecting to localhost:6379.") |}.

Definition empty_service : Service :=
  {| database := {| db_users := [];
                    db_store := {| jobs := ∅; analyses := [] |} |};
     files := ∅; queue := [] |}.

(** * Theorems *)

(** ** Strings *)

Section Strings.

Implicit Types a b c s p : string.

Lemma str_app_nil_l s : "" +:+ s = s.
Proof. reflexivity. Qed.

Lemma str_app_cons ch a b : String ch a +:+ b = String ch (a +:+ b).
Proof. reflexivity. Qed.

Lemma str_app_nil_r s : s +:+ "" = s.
Proof. induction s as [|ch s IH]; [done|]. by rewrite str_app_cons, IH. Qed.

Lemma str_app_assoc a b c : (a +:+ b) +:+ c = a +:+ (b +:+ c).
Proof.
  induction a as [|ch a IH]; [done|]. by rewrite !str_app_cons, IH.
Qed.

Lemma str_length_app a b :
  String.length (a +:+ b) = (String.length a + String.length b)%nat.
Proof.
  induction a as [|ch a IH]; [done|]. rewrite str_app_cons. simpl. by rewrite IH.
Qed.

Lemma str_app_eq_nil a b : a +:+ b = "" -> a = "" /\ b = "".
Proof. destruct a; [done|]. rewrite str_app_cons. discriminate. Qed.


Lemma substring_prefix a b :
  String.substring 0 (String.length a) (a +:+ b) = a.
Proof.
  induction a as [|ch a IH].
  - simpl. by destruct b.
  - rewrite str_app_cons. simpl. by rewrite IH.
Qed.

Lemma substring_skip a b n :
  String.substring (String.length a) n (a +:+ b) = String.substring 0 n b.
Proof. induction a as [|ch a IH]; [done|]. rewrite str_app_cons. by simpl. Qed.

Lemma startswith_spec p s :
  Py.startswith p s = true <-> exists b, s = p +:+ b.
Proof.
  revert s. induction p as [|ch p IH]; intros s; simpl.
  - split; [intros _; by exists s | done].
  - destruct s as [|ch' s].
    + split; [done | intros [b Hb]; rewrite str_app_cons in Hb; discriminate].
    + rewrite andb_true_iff, Ascii.eqb_eq, IH. split.
      * intros [-> [b ->]]. by exists b.
      * intros [b Hb]. rewrite str_app_cons in Hb. injection Hb as -> ->. eauto.
Qed.

Lemma find_from_Some sub s i j :
  Py.find_from sub s i = Some j ->
  exists a b, s = a +:+ sub +:+ b /\ j = (i + String.length a)%nat.
Proof.
  revert i. induction s as [|ch s IH]; intros i; simpl.
  - destruct (Py.startswith sub "") eqn:E; [|done].
    intros [= <-]. apply startswith_spec in E as [b Hb].
    exists "", b. split; [done | simpl; lia].
  - destruct (Py.startswith sub (String ch s)) eqn:E.
    + intros [= <-]. apply startswith_spec in E as [b Hb].
      exists "", b. split; [done | simpl; lia].
    + intros H. apply IH in H as (a & b & -> & ->).
      exists (String ch a), b. split; [done | simpl; lia].
Qed.

Lemma find_from_None sub s i :
  Py.find_from sub s i = None -> forall a b, s <> a +:+ sub +:+ b.
Proof.
  revert i. induction s as [|ch s IH]; intros i; simpl.
  - destruct (Py.startswith sub "") eqn:E; [done|]. intros _ a b Hs.
    symmetry in Hs. apply str_app_eq_nil in Hs as [-> Hs]. simpl in Hs.
    assert (Py.startswith sub "" = true); [|congruence].
    apply startswith_spec. by exists b.
  - destruct (Py.startswith sub (String ch s)) eqn:E; [done|].
    intros H a b Hs. destruct a as [|ch' a].
    + assert (Py.startswith sub (String ch s) = true); [|congruence].
      apply startswith_spec. by exists b.
    + rewrite str_app_cons in Hs. injection Hs as -> ->. by eapply IH.
Qed.

(** [sub in s] holds exactly when [sub] occurs in [s]. *)
Lemma contains_spec sub s : Py.contains sub s = true <-> occurs_in sub s.
Proof.
  unfold Py.contains, occurs_in.
  destruct (Py.find_from sub s 0) as [j|] eqn:E.
  - apply find_from_Some in E as (a & b & -> & _). split; eauto.
  - split; [done|]. intros (a & b & ->). by eapply find_from_None in E.
Qed.

Lemma contains_false sub s :
  Py.contains sub s = false <-> ~ occurs_in sub s.
Proof. rewrite <- contains_spec. by destruct (Py.contains sub s). Qed.

End Strings.

(** ** [_extract_json_str] *)

Section Extract.

Implicit Types a b s p q obj : string.

Lemma walk_app st a b : walk st (a +:+ b) = walk (walk st a) b.
Proof.
  revert st. induction a as [|ch a IH]; intros st; [done|].
  rewrite str_app_cons. simpl. apply IH.
Qed.

Lemma walk_step_depth st ch : w_depth st - 1 <= w_depth (walk_step st ch).
Proof.
  unfold walk_step.
  repeat match goal with |- context [if ?c then _ else _] => destruct c end;
    simpl; lia.
Qed.

Lemma walk_step_zero st ch :
  1 <= w_depth st -> w_depth (walk_step st ch) = 0 ->
  w_in_str st = false /\ ch = "}"%char.
Proof.
  unfold walk_step. intros Hd.
  destruct (w_in_str st).
  - repeat match goal with |- context [if ?c then _ else _] => destruct c end;
      simpl; lia.
  - destruct (Ascii.eqb ch Py.dquote); [simpl; lia|].
    destruct (Ascii.eqb ch "{"); [simpl; lia|].
    destruct (Ascii.eqb_spec ch "}"); [done|lia].
Qed.

(** One turn of the loop is one step of the walk, with a return when a
    closing brace outside a string literal brings the depth to zero. *)
Lemma scan_loop_step ch r i st :
  scan_loop (String ch r) i (w_depth st) (w_in_str st) (w_esc st) =
  let st' := walk_step st ch in
  if negb (w_in_str st) && Ascii.eqb ch "}" && (w_depth st' =? 0) then Some i
  else scan_loop r (i + 1) (w_depth st') (w_in_str st') (w_esc st').
Proof.
  destruct st as [d ins esc]. unfold walk_step. simpl.
  destruct ins; simpl.
  - destruct esc; [done|].
    destruct (Ascii.eqb ch "\"); [done|]. by destruct (Ascii.eqb ch Py.dquote).
  - destruct (Ascii.eqb_spec ch Py.dquote) as [->|]; [done|].
    destruct (Ascii.eqb_spec ch "{") as [->|]; [done|].
    destruct (Ascii.eqb ch "}"); [|done]. simpl. by destruct (d - 1 =? 0).
Qed.

Lemma first_zero_tail st ch p :
  p <> "" -> first_zero st (String ch p) -> first_zero (walk_step st ch) p.
Proof.
  intros Hp [Hz Hmin]. split; [done|]. intros p1 p2 -> H1 H2.
  apply (Hmin (String ch p1) p2); done.
Qed.

Lemma scan_complete p : forall q i st,
  1 <= w_depth st -> p <> "" -> first_zero st p ->
  scan_loop (p +:+ q) i (w_depth st) (w_in_str st) (w_esc st)
    = Some (i + Py.len p - 1)
  /\ exists a, p = a +:+ "}".
Proof.
  induction p as [|ch p IH]; intros q i st Hd Hne Hfz; [done|].
  rewrite str_app_cons, scan_loop_step. cbv zeta.
  destruct p as [|ch' p'].
  - destruct Hfz as [Hz _]. simpl in Hz.
    destruct (walk_step_zero st ch Hd Hz) as [-> ->].
    rewrite Hz. simpl. split; [f_equal; unfold Py.len; simpl; lia|].
    by exists "".
  - assert (w_depth (walk_step st ch) <> 0) as Hnz.
    { destruct Hfz as [_ Hmin]. by apply (Hmin (String ch "") (String ch' p')). }
    pose proof (walk_step_depth st ch) as Hge.
    replace (w_depth (walk_step st ch) =? 0) with false
      by (symmetry; apply Z.eqb_neq; done).
    rewrite andb_false_r.
    destruct (IH q (i + 1) (walk_step st ch)) as [-> [a ->]];
      [lia | done | by apply first_zero_tail |].
    split.
    + f_equal. unfold Py.len. simpl String.length. lia.
    + by exists (String ch a).
Qed.

Lemma scan_sound rest : forall i st j,
  1 <= w_depth st ->
  scan_loop rest i (w_depth st) (w_in_str st) (w_esc st) = Some j ->
  exists p q, rest = p +:+ q /\ p <> "" /\ j = i + Py.len p - 1
    /\ first_zero st p /\ exists a, p = a +:+ "}".
Proof.
  induction rest as [|ch r IH]; intros i st j Hd; [done|].
  rewrite scan_loop_step. cbv zeta.
  pose proof (walk_step_depth st ch) as Hge.
  destruct (negb (w_in_str st) && Ascii.eqb ch "}"
            && (w_depth (walk_step st ch) =? 0)) eqn:E.
  - intros [= <-]. apply andb_true_iff in E as [E Hz].
    apply andb_true_iff in E as [_ Hc].
    apply Z.eqb_eq in Hz. apply Ascii.eqb_eq in Hc. subst ch.
    exists "}", r. repeat split; try done.
    + unfold Py.len. simpl. lia.
    + intros [|c1 p1] p2; [done|]. rewrite str_app_cons.
      intros [= <- Hp] _ Hp2. symmetry in Hp.
      apply str_app_eq_nil in Hp as [_ ->]. done.
    + by exists "".
  - intros H.
    assert (w_depth (walk_step st ch) <> 0) as Hnz.
    { intros Hz. destruct (walk_step_zero st ch Hd Hz) as [Hi ->].
      rewrite Hi, Hz in E. done. }
    apply IH in H as (p & q & -> & Hp & -> & [Hz Hmin] & [a ->]); [|lia].
    exists (String ch (a +:+ "}")), q. repeat split; try done.
    + unfold Py.len. simpl String.length. lia.
    + intros [|c1 p1] p2; [done|]. rewrite str_app_cons.
      intros [= <- Hp12] _ Hp2. destruct p1 as [|c2 p1]; [done|].
      simpl. by apply (Hmin (String c2 p1) p2).
    + by exists (String ch a).
Qed.

Lemma find_char_first c s : forall i j,
  Py.find_from (String c "") s i = Some j ->
  exists a b, s = a +:+ String c b /\ j = (i + String.length a)%nat
    /\ Py.contains (String c "") a = false.
Proof.
  induction s as [|ch s IH]; intros i j; simpl; [done|].
  destruct (Ascii.eqb_spec c ch) as [<-|Hne]; simpl.
  - intros [= <-]. exists "", s. split; [done|]. split; [simpl; lia|done].
  - intros H. apply IH in H as (a & b & -> & -> & Ha).
    exists (String ch a), b. split; [done|]. split; [simpl; lia|].
    apply contains_false. intros (x & y & Hxy).
    apply contains_false in Ha. apply Ha. destruct x as [|cx x].
    + rewrite str_app_nil_l, str_app_cons in Hxy. by injection Hxy as ->.
    + rewrite str_app_cons in Hxy. injection Hxy as -> ->. by exists x, y.
Qed.


Lemma lstrip_with_id f ch s :
  f ch = false -> Py.lstrip_with f (String ch s) = String ch s.
Proof. intros H. simpl. by rewrite H. Qed.

Lemma rstrip_with_id f a ch :
  f ch = false -> Py.rstrip_with f (a +:+ String ch "") = a +:+ String ch "".
Proof.
  intros H. induction a as [|c a IH].
  - rewrite str_app_nil_l. simpl. by rewrite H.
  - rewrite str_app_cons. simpl. rewrite IH. by destruct a.
Qed.

(** A text from an opening to a closing brace is left alone by the three
    strips of line 81. *)
Lemma strips_braced s a :
  Py.startswith "{" s = true -> s = a +:+ "}" ->
  Py.strip (Py.strip_chars "`" (Py.strip s)) = s.
Proof.
  intros Hs Ha. apply startswith_spec in Hs as [b Hb].
  assert (forall f, f "{"%char = false -> f "}"%char = false ->
                    Py.strip_with f s = s) as Hid.
  { intros f H1 H2. unfold Py.strip_with.
    assert (Py.lstrip_with f s = s) as ->.
    { rewrite Hb. by apply lstrip_with_id. }
    rewrite Ha. by apply rstrip_with_id. }
  unfold Py.strip, Py.strip_chars. by rewrite !Hid.
Qed.

Lemma slice_middle a b c :
  Py.slice (a +:+ b +:+ c) (Py.len a) (Py.len a + Py.len b) = b.
Proof.
  unfold Py.slice, Py.len.
  replace (Z.to_nat (Z.of_nat (String.length a))) with (String.length a) by lia.
  replace (Z.to_nat _) with (String.length b) by lia.
  rewrite substring_skip. apply substring_prefix.
Qed.

Lemma slice_suffix a b :
  Py.slice (a +:+ b) (Py.len a) (Py.len (a +:+ b)) = b.
Proof.
  replace (Py.len (a +:+ b)) with (Py.len a + Py.len b)
    by (unfold Py.len; rewrite str_length_app; lia).
  rewrite <- (str_app_nil_r b) at 1. apply slice_middle.
Qed.

Lemma balanced_first_zero obj :
  balanced_object obj <->
  exists p, obj = String "{" p /\ p <> ""
    /\ first_zero {| w_depth := 1; w_in_str := false; w_esc := false |} p.
Proof.
  split.
  - intros (Hs & Hz & Hmin). apply startswith_spec in Hs as [p ->].
    exists p. split; [done|]. assert (p <> "") as Hp.
    { intros ->. simpl in Hz. done. }
    split; [done|]. split; [done|]. intros p1 p2 -> H1 H2.
    by apply (Hmin (String "{" p1) p2).
  - intros (p & -> & Hp & Hz & Hmin). split; [done|]. split; [done|].
    intros [|c1 p1] p2; [done|]. rewrite str_app_cons.
    intros [= <- ->] _ H2. destruct p1 as [|c2 p1]; [simpl; lia|].
    by apply (Hmin (String c2 p1) p2).
Qed.



(** Whatever the text, the extraction yields the prepared text itself or a
    balanced object that starts at its first brace. *)
Lemma extract_cases input :
  _extract_json_str input = unfence input
  \/ exists pre post,
       unfence input = pre +:+ _extract_json_str input +:+ post
       /\ Py.contains "{" pre = false
       /\ balanced_object (_extract_json_str input).
Proof.
  unfold _extract_json_str. cbv zeta. set (s := unfence input).
  unfold Py.find. destruct (Py.find_from "{" s 0) as [j|] eqn:Ef; [|by left].
  apply find_char_first in Ef as (pre & rest & Hs & -> & Hpre).
  simpl Nat.add. fold (Py.len pre).
  replace (Py.len pre =? -1) with false
    by (symmetry; apply Z.eqb_neq; unfold Py.len; lia).
  rewrite Hs, slice_suffix. rewrite <- Hs.
  rewrite (scan_loop_step "{" _ _ walk_init). cbv zeta. simpl negb.
  change (walk_step walk_init "{")
    with {| w_depth := 1; w_in_str := false; w_esc := false |}.
  simpl andb. cbv iota.
  destruct (scan_loop rest _ _ _ _) as [i|] eqn:Es; [|by left]. right.
  apply (scan_sound rest _
           {| w_depth := 1; w_in_str := false; w_esc := false |})
    in Es as (p & q & -> & Hp & -> & Hfz & [a Ha]); [|simpl; lia].
  replace (Py.len pre + 1 + Py.len p - 1 + 1)
    with (Py.len pre + Py.len (String "{" p))
    by (unfold Py.len; simpl String.length; lia).
  assert (s = pre +:+ String "{" p +:+ q) as Hs'.
  { by rewrite Hs, !str_app_cons. }
  assert (Py.slice s (Py.len pre) (Py.len pre + Py.len (String "{" p))
          = String "{" p) as ->.
  { rewrite Hs'. apply slice_middle. }
  rewrite (strips_braced _ (String "{" a)); [|done|by rewrite Ha].
  exists pre, q. split; [done|]. split; [done|].
  apply balanced_first_zero. by exists p.
Qed.

End Extract.

(** ** The mock analysis *)

Section Mock.

Implicit Types text t k : string.
Implicit Types meta : list (string * value).

Lemma lower_app a b : Py.lower (a +:+ b) = Py.lower a +:+ Py.lower b.
Proof.
  induction a as [|ch a IH]; [done|].
  rewrite str_app_cons. simpl. by rewrite IH, str_app_cons.
Qed.

Lemma occurs_in_lower k text :
  occurs_in k text -> occurs_in (Py.lower k) (Py.lower text).
Proof.
  intros (a & b & ->). exists (Py.lower a), (Py.lower b).
  by rewrite !lower_app.
Qed.




Lemma str_hint_valid k d v :
  is_str_or_none v = true ->
  at_loc k (optional val_str (Json.or_ v (VStr d)))
  = Valid (Some match v with
                | VStr s => if String.eqb s "" then d else s
                | _ => d
                end).
Proof.
  destruct v as [| | | |s| |]; try done. intros _.
  unfold Json.or_. simpl. by destruct (String.eqb s "").
Qed.

Lemma int_hint_valid k v :
  is_int_or_none v = true ->
  at_loc k (optional val_int v) = Valid (as_int v).
Proof. by destruct v. Qed.

(** On typed hints the mock analysis returns, and this is its result. *)
Lemma mock_result_typed text meta :
  hints_typed meta = true ->
  let t := Py.lower text in
  let growth := existsb (fun k => Py.contains k t) growth_keywords in
  let margin := Py.contains "margin" t || Py.contains "bps" t in
  _mock_result text meta =
  Return
    {| metadata :=
         {| company := Some (hint_or "company" "UnknownCo" meta);
            quarter := Some (hint_or "quarter" "Q?" meta);
            year := as_int (Json.get "year" meta);
            source := Some (hint_or "source" "uploaded.pdf" meta);
            pages := as_int (Json.get "pages" meta) |};
       recommendation :=
         {| action := if growth && margin then "buy"
                      else if growth then "hold" else "sell";
            rationale := "Mock analysis using keywords (growth/margin).";
            confidence := 65 |};
       risks :=
         [{| name := "Data completeness"; severity := "medium";
             impact := "Heuristic mock may miss context.";
             likelihood := "medium";
             mitigation := "Use real model when quota is available." |}];
       insights :=
         [{| topic := "Growth";
             insight := if growth then "Growth keywords detected."
                        else "No clear growth signals detected.";
             evidence := if growth then "increase/grew/up/higher" else "—" |}];
       key_metrics :=
         Some {| revenue_yoy := None; gross_margin := None;
                 ebitda_margin := None; guidance_change := None |};
       quotes := [];
       limitations :=
         "This is a mock result generated without calling the model." |}.
Proof.
  unfold hints_typed. rewrite !andb_true_iff.
  intros [[[[Hc Hq] Hy] Hs] Hp]. cbv zeta. unfold _mock_result. cbv zeta.
  set (growth := existsb _ growth_keywords).
  set (margin := Py.contains "margin" _ || Py.contains "bps" _).
  assert (DocumentMetadata_init
            (Json.or_ (Json.get "company" meta) (VStr "UnknownCo"))
            (Json.or_ (Json.get "quarter" meta) (VStr "Q?"))
            (Json.get "year" meta)
            (Json.or_ (Json.get "source" meta) (VStr "uploaded.pdf"))
            (Json.get "pages" meta)
          = Return {| company := Some (hint_or "company" "UnknownCo" meta);
                      quarter := Some (hint_or "quarter" "Q?" meta);
                      year := as_int (Json.get "year" meta);
                      source := Some (hint_or "source" "uploaded.pdf" meta);
                      pages := as_int (Json.get "pages" meta) |}) as ->.
  { unfold DocumentMetadata_init, validate_DocumentMetadata, model, defaulted.
    cbn [Json.dict_lookup String.eqb Ascii.eqb Bool.eqb].
    rewrite !str_hint_valid, !int_hint_valid by done. done. }
  by destruct growth, margin.
Qed.

Lemma or_default_not_none k c d o :
  at_loc k (optional val_str (Json.or_ c (VStr d))) = Valid o -> o <> None.
Proof.
  unfold Json.or_. destruct (Json.truthy c) eqn:E.
  - destruct c; try done. simpl. by intros [= <-].
  - simpl. by intros [= <-].
Qed.

(** Whenever the metadata of the mock analysis validates, the three
    defaulted fields are set. *)
Lemma mock_metadata_not_none meta md :
  DocumentMetadata_init
    (Json.or_ (Json.get "company" meta) (VStr "UnknownCo"))
    (Json.or_ (Json.get "quarter" meta) (VStr "Q?"))
    (Json.get "year" meta)
    (Json.or_ (Json.get "source" meta) (VStr "uploaded.pdf"))
    (Json.get "pages" meta) = Return md ->
  company md <> None /\ quarter md <> None /\ source md <> None.
Proof.
  unfold DocumentMetadata_init, validate_DocumentMetadata, model, defaulted.
  cbn [Json.dict_lookup String.eqb Ascii.eqb Bool.eqb].
  destruct (at_loc "company" _) as [c|] eqn:Ec;
    destruct (at_loc "quarter" _) as [q|] eqn:Eq;
    destruct (at_loc "year" _) as [y|] eqn:Ey;
    destruct (at_loc "source" _) as [sr|] eqn:Es;
    destruct (at_loc "pages" _) as [pg|] eqn:Ep; try done.
  simpl. intros [= <-]. simpl.
  split; [|split]; eapply or_default_not_none; eassumption.
Qed.

End Mock.

(** ** Claims on the contract validator and the mock analysis *)






(** C10.  On typed hints the mock analysis returns a result in which
    company, quarter and source are never null: each is the hint, or the
    default "UnknownCo", "Q?" and "uploaded.pdf" when the hint is absent,
    null or empty.  The result has one risk item, one insight item and no
    quotes.  Whenever the mock analysis returns at all, on any hints, these
    three fields are not null and the three lists have these lengths. *)
Theorem mock_defaults (text : string) (meta : list (string * value)) :
  (hints_typed meta = true ->
   exists r,
     _mock_result text meta = Return r
     /\ company (metadata r) = Some (hint_or "company" "UnknownCo" meta)
     /\ quarter (metadata r) = Some (hint_or "quarter" "Q?" meta)
     /\ source (metadata r) = Some (hint_or "source" "uploaded.pdf" meta)
     /\ (Json.get "company" meta = VNone ->
         company (metadata r) = Some "UnknownCo")
     /\ (Json.get "quarter" meta = VNone -> quarter (metadata r) = Some "Q?")
     /\ (Json.get "source" meta = VNone ->
         source (metadata r) = Some "uploaded.pdf"))
  /\ (forall r,
        _mock_result text meta = Return r ->
        company (metadata r) <> None /\ quarter (metadata r) <> None
        /\ source (metadata r) <> None
        /\ length (risks r) = 1%nat /\ length (insights r) = 1%nat
        /\ quotes r = []).
Proof.
  split.
  - intros Hm. eexists. split; [by apply mock_result_typed|]. simpl.
    unfold hint_or. repeat split; try done; by intros ->.
  - intros r. unfold _mock_result. cbv zeta.
    destruct (DocumentMetadata_init _ _ _ _ _) as [md|e] eqn:Emd; [|done].
    apply mock_metadata_not_none in Emd as (Hc & Hq & Hs).
    destruct (existsb _ growth_keywords);
      destruct (Py.contains "margin" _ || Py.contains "bps" _);
      cbv; intros [= <-]; done.
Qed.

Lemma mock_defaults_witness :
  hints_typed [("company", VNone); ("source", VStr "q2.pdf")] = true
  /\ exists r,
       _mock_result "flat quarter" [("company", VNone); ("source", VStr "q2.pdf")]
         = Return r
       /\ company (metadata r) = Some "UnknownCo"
       /\ quarter (metadata r) = Some "Q?"
       /\ source (metadata r) = Some "q2.pdf".
Proof.
  split; [reflexivity|].
  destruct (mock_defaults "flat quarter"
              [("company", VNone); ("source", VStr "q2.pdf")])
    as [H _].
  destruct (H eq_refl) as (r & Hr & _ & _ & Hs & Hc & Hq & _).
  exists r. split; [exact Hr|]. split; [exact (Hc eq_refl)|].
  split; [exact (Hq eq_refl) | exact Hs].
Defined.

(** ** The text-extraction adapter *)

(** C9.  [extract_text_from_pdf_bytes] returns, for any document bytes and
    any behaviour of the two PDF libraries, either a dictionary whose text
    is a string and whose page count is an integer that is not negative,
    or it raises the extraction error, and it raises only when pypdf and
    pdfplumber both fail as a whole.  A page whose extraction fails
    contributes the empty string, and the pages around it are kept. *)
Theorem extract_text_total (w : World) (pdf_bytes : string) :
  match extract_text_from_pdf_bytes w pdf_bytes with
  | Return ext =>
      exists ps,
        (pypdf w pdf_bytes = PdfPages ps
         \/ (exists e, pypdf w pdf_bytes = PdfRaises e)
            /\ pdfplumber w pdf_bytes = PdfPages ps)
        /\ Json.get "text" ext = VStr (Py.join Py.nl (map page_chunk ps))
        /\ Json.get "pages" ext = VInt (Z.of_nat (length ps))
        /\ 0 <= Z.of_nat (length ps)
  | Raise e =>
      e = extraction_unavailable
      /\ (exists e1, pypdf w pdf_bytes = PdfRaises e1)
      /\ (exists e2, pdfplumber w pdf_bytes = PdfRaises e2)
  end
  /\ forall before after e,
       map page_chunk (before ++ PageRaises e :: after)
       = map page_chunk before ++ "" :: map page_chunk after.
Proof.
  split.
  - unfold extract_text_from_pdf_bytes.
    destruct (pypdf w pdf_bytes) as [e1|ps] eqn:E1.
    + destruct (pdfplumber w pdf_bytes) as [e2|ps] eqn:E2.
      * split; [done|]. split; eauto.
      * exists ps. split; [right; eauto|]. repeat split; try done. lia.
    + exists ps. split; [by left|]. repeat split; try done. lia.
  - intros before after e. by rewrite map_app.
Qed.

(** ** The schema *)

Section SchemaFacts.

Lemma invalid_both_l {A B} (a : checked A) (b : checked B) :
  invalid a -> invalid (both a b).
Proof. intros [e ->]. destruct b; simpl; by eexists. Qed.


Lemma invalid_cmap {A B} (f : A -> B) (c : checked A) :
  invalid c -> invalid (cmap f c).
Proof. intros [e ->]. by eexists. Qed.



Lemma both_valid {A B} (a : checked A) (b : checked B) x y :
  both a b = Valid (x, y) -> a = Valid x /\ b = Valid y.
Proof. destruct a, b; simpl; try done. by intros [= -> ->]. Qed.

Lemma cmap_valid {A B} (f : A -> B) (c : checked A) y :
  cmap f c = Valid y -> exists x, c = Valid x /\ f x = y.
Proof. destruct c; simpl; [|done]. intros [= <-]. eauto. Qed.

Lemma at_loc_valid {A} k (c : checked A) x : at_loc k c = Valid x -> c = Valid x.
Proof. by destruct c. Qed.

Lemma required_valid {A} (f : value -> checked A) k d x :
  required f k d = Valid x ->
  exists v, Json.dict_lookup k d = Some v /\ f v = Valid x.
Proof.
  unfold required. destruct (Json.dict_lookup k d) as [v|]; [|done].
  intros H. apply at_loc_valid in H. eauto.
Qed.

Lemma conint_valid lo hi v n :
  conint lo hi v = Valid n -> val_int v = Valid n /\ lo <= n <= hi.
Proof.
  unfold conint. destruct (val_int v) as [m|]; [|done].
  destruct (m <? lo) eqn:E1; [done|]. destruct (hi <? m) eqn:E2; [done|].
  intros [= <-]. split; [done|]. lia.
Qed.

Lemma literal_valid allowed v s :
  literal allowed v = Valid s -> v = VStr s /\ In s allowed.
Proof.
  destruct v as [| | | |s'| |]; try done. simpl.
  destruct (existsb (String.eqb s') allowed) eqn:E; [|done].
  intros [= <-]. split; [done|].
  apply existsb_exists in E as (x & Hx & Heq).
  apply String.eqb_eq in Heq. by subst.
Qed.

(** A validated recommendation satisfies the constraints of the schema. *)
Lemma recommendation_valid v r :
  validate_Recommendation v = Valid r ->
  0 <= confidence r <= 100 /\ In (action r) ["buy"; "hold"; "sell"].
Proof.
  unfold validate_Recommendation, model. destruct v as [| | | | | |d]; try done.
  intros H. apply cmap_valid in H as ([a [t c]] & H & <-).
  apply both_valid in H as [Ha H]. apply both_valid in H as [_ Hc].
  apply required_valid in Ha as (va & _ & Ha).
  apply required_valid in Hc as (vc & _ & Hc).
  apply literal_valid in Ha as [_ Ha]. apply conint_valid in Hc as [_ Hc].
  done.
Qed.









Lemma dict_lookup_set_eq k v d :
  Json.dict_lookup k (Json.dict_set k v d) = Some v.
Proof.
  induction d as [|[k' v'] d IH]; simpl.
  - by rewrite String.eqb_refl.
  - destruct (String.eqb k k') eqn:E; simpl; rewrite ?String.eqb_refl, ?E; done.
Qed.

Lemma dict_lookup_set_ne k k' v d :
  k <> k' -> Json.dict_lookup k (Json.dict_set k' v d) = Json.dict_lookup k d.
Proof.
  intros Hne. induction d as [|[k0 v0] d IH]; simpl.
  - by apply String.eqb_neq in Hne as ->.
  - destruct (String.eqb_spec k' k0) as [->|H0]; simpl.
    + by apply String.eqb_neq in Hne as ->.
    + by rewrite IH.
Qed.

Lemma defaulted_set_eq {A} (f : value -> checked A) k dflt v d :
  defaulted f k dflt (Json.dict_set k v d) = at_loc k (f v).
Proof. unfold defaulted. by rewrite dict_lookup_set_eq. Qed.

Lemma defaulted_set_ne {A} (f : value -> checked A) k k' dflt v d :
  k <> k' -> defaulted f k dflt (Json.dict_set k' v d) = defaulted f k dflt d.
Proof. intros H. unfold defaulted. by rewrite dict_lookup_set_ne. Qed.

Lemma defaulted_none {A} (f : value -> checked A) k d :
  Json.get k d = VNone -> defaulted (optional f) k None d = Valid None.
Proof.
  unfold defaulted, Json.get. destruct (Json.dict_lookup k d); [|done].
  simpl. by intros ->.
Qed.

End SchemaFacts.

(** C6 (as amended).  The metadata object is required, but none of its
    five fields is: company, quarter, year, source and pages may each be
    absent or null, and the field of the validated result is then [None].
    In particular a metadata object that validates keeps validating when
    its source is replaced by null, and a model reply without any source
    is accepted. *)
Theorem metadata_fields_optional :
  (forall d,
     (forall k, In k ["company"; "quarter"; "year"; "source"; "pages"] ->
                Json.get k d = VNone) ->
     validate_DocumentMetadata (VDict d)
     = Valid {| company := None; quarter := None; year := None;
                source := None; pages := None |})
  /\ (forall d m,
        validate_DocumentMetadata (VDict d) = Valid m ->
        Json.get "source" d = VNone -> source m = None)
  /\ (forall d m,
        validate_DocumentMetadata (VDict d) = Valid m ->
        validate_DocumentMetadata (VDict (Json.dict_set "source" VNone d))
        = Valid {| company := company m; quarter := quarter m;
                   year := year m; source := None; pages := pages m |})
  /\ (forall d,
        Json.dict_lookup "metadata" d = None ->
        invalid (validate_AnalysisResult (VDict d)))
  /\ (exists r,
        model_validate_json reply_without_source = Return r
        /\ company (metadata r) = Some "ACME"
        /\ source (metadata r) = None).
Proof.
  split; [|split; [|split; [|split]]].
  - intros d H. unfold validate_DocumentMetadata, model.
    rewrite !defaulted_none by (apply H; simpl; tauto). done.
  - intros d m H Hs. unfold validate_DocumentMetadata, model in H.
    rewrite (defaulted_none _ "source") in H by done.
    destruct (defaulted (optional val_str) "company" None d);
      destruct (defaulted (optional val_str) "quarter" None d);
      destruct (defaulted (optional val_int) "year" None d);
      destruct (defaulted (optional val_int) "pages" None d);
      simpl in H; try done.
    by injection H as <-.
  - intros d m H. unfold validate_DocumentMetadata, model in *.
    rewrite defaulted_set_eq, !defaulted_set_ne by done.
    destruct (defaulted (optional val_str) "company" None d);
      destruct (defaulted (optional val_str) "quarter" None d);
      destruct (defaulted (optional val_int) "year" None d);
      destruct (defaulted (optional val_str) "source" None d);
      destruct (defaulted (optional val_int) "pages" None d);
      simpl in H; try done.
    by injection H as <-.
  - intros d H. unfold validate_AnalysisResult, model.
    apply invalid_cmap, invalid_both_l. unfold required. rewrite H.
    by eexists.
  - eexists. split; [vm_compute; reflexivity|]. done.
Qed.

Lemma metadata_fields_optional_witness :
  validate_DocumentMetadata
    (VDict [("source", VStr "q2.pdf"); ("year", VInt 2025)])
  = Valid {| company := None; quarter := None; year := Some 2025;
             source := Some "q2.pdf"; pages := None |}
  /\ validate_DocumentMetadata
       (VDict (Json.dict_set "source" VNone
                 [("source", VStr "q2.pdf"); ("year", VInt 2025)]))
     = Valid {| company := None; quarter := None; year := Some 2025;
                source := None; pages := None |}.
Proof.
  split; [reflexivity|].
  destruct metadata_fields_optional as (_ & _ & H & _).
  exact (H [("source", VStr "q2.pdf"); ("year", VInt 2025)]
           {| company := None; quarter := None; year := Some 2025;
              source := Some "q2.pdf"; pages := None |} eq_refl).
Defined.

(** C6 fails as stated: this reply has a metadata object without source,
    and it validates. *)
Lemma source_not_required :
  (exists d md,
     Json.loads reply_without_source = Some (VDict d)
     /\ Json.dict_lookup "metadata" d = Some (VDict md)
     /\ Json.dict_lookup "source" md = None)
  /\ exists r, model_validate_json reply_without_source = Return r.
Proof.
  split.
  - eexists _, _. split; [vm_compute; reflexivity|]. split; reflexivity.
  - eexists. vm_compute. reflexivity.
Qed.

(** ** The analysis engine *)

Section Engine.

Variable w : World.
Variables (text : string) (meta : list (string * value)).



Lemma live_returns r :
  mock_llm w = false ->
  _llm_analyze_financials w text meta = Return r ->
  exists content,
    chat_completions_create w (chat_request_for w text meta)
      = CompletionContent content
    /\ model_validate_json (_extract_json_str (default "" content)) = Return r.
Proof.
  intros Hm. unfold _llm_analyze_financials. rewrite Hm.
  destruct (OpenAI w); [done|].
  destruct (chat_completions_create w _) as [e|content]; [done|].
  destruct (model_validate_json _) as [r'|e] eqn:E; [|done].
  intros [= <-]. eauto.
Qed.

End Engine.







(** ** The job store and the task *)

Section Store.

Implicit Types db : Store.
Implicit Types rows : list Analysis.t.


Lemma store_eq db (js : gmap string Job.t) rows :
  js = jobs db -> rows = analyses db ->
  {| jobs := js; analyses := rows |} = db.
Proof. intros -> ->. by destruct db. Qed.

Lemma has_analysis_count job_id rows :
  has_analysis job_id rows = false -> count_analyses job_id rows = 0%nat.
Proof.
  unfold count_analyses. induction rows as [|a rows IH]; [done|]. simpl.
  destruct (String.eqb_spec (Analysis.job_id a) job_id) as [He|Hne]; [done|].
  simpl. intros H. rewrite filter_cons_False by done. by apply IH.
Qed.

Lemma count_analyses_snoc j rows a :
  count_analyses j (rows ++ [a])
  = (count_analyses j rows + if decide (Analysis.job_id a = j) then 1 else 0)%nat.
Proof.
  unfold count_analyses. rewrite filter_app, length_app. f_equal.
  rewrite filter_cons. by destruct (decide _).
Qed.

(** The four ways in which an invocation of the task can go. *)
Lemma process_pdf_job_cases w job_id fp q uid db :
  (jobs db !! job_id = None
   /\ process_pdf_job w job_id fp q uid db
      = (Return (VDict [("error", VStr ("Job " +:+ job_id +:+ " not found"))]),
         db))
  \/ (exists job e,
        jobs db !! job_id = Some job /\ run_analysis w q fp = Raise e
        /\ process_pdf_job w job_id fp q uid db
           = (Return (VDict [("error", VStr (str e))]),
              {| jobs := <[job_id := set_status job "error" (Some (str e))]>
                           (jobs db);
                 analyses := analyses db |}))
  \/ (exists job result,
        jobs db !! job_id = Some job /\ run_analysis w q fp = Return result
        /\ has_analysis job_id (analyses db) = false
        /\ process_pdf_job w job_id fp q uid db
           = (Return (VDict [("ok", VBool true)]),
              {| jobs := <[job_id := set_status job "done" None]> (jobs db);
                 analyses := analyses db ++ [new_analysis job_id result] |}))
  \/ (exists job result,
        jobs db !! job_id = Some job /\ run_analysis w q fp = Return result
        /\ has_analysis job_id (analyses db) = true
        /\ process_pdf_job w job_id fp q uid db
           = (Raise (IntegrityError "UNIQUE constraint failed: analyses.job_id"),
              db)).
Proof.
  unfold process_pdf_job, session_scope, session_get_job. simpl.
  rewrite lookup_empty.
  destruct (jobs db !! job_id) as [job|] eqn:Ej.
  - right. destruct (run_analysis w q fp) as [result|e] eqn:Er.
    + right. unfold commit. simpl.
      destruct (has_analysis job_id (analyses db)) eqn:Eh.
      * right. exists job, result. done.
      * left. exists job, result. repeat split; try done. simpl.
        by rewrite insert_empty, <- insert_union_singleton_l.
    + left. exists job, e. repeat split; try done. unfold commit. simpl.
      by rewrite insert_empty, <- insert_union_singleton_l.
  - left. split; [done|]. unfold commit. simpl. f_equal.
    apply store_eq; [|done]. by rewrite (left_id_L ∅ (∪)).
Qed.


(** In mock mode the pipeline returns as soon as the upload can be read and
    one of the PDF libraries opens it: the hints that [run_analysis] builds
    are typed. *)
Lemma run_analysis_mock_returns w q fp b :
  mock_llm w = true -> getenv w "CREWAI_ENABLED" "0" <> "1" ->
  read_file w fp = Return b ->
  (exists ps, pypdf w b = PdfPages ps \/ pdfplumber w b = PdfPages ps) ->
  exists r, run_analysis w q fp = Return (model_dump r)
            /\ source (metadata r)
               = Some (if String.eqb fp "" then "uploaded.pdf" else fp)
            /\ confidence (recommendation r) = 65.
Proof.
  intros Hm Hc Hf Hp. unfold run_analysis. rewrite Hf. simpl.
  assert (exists ext n, extract_text_from_pdf_bytes w b = Return ext
                        /\ Json.get "pages" ext = VInt n) as (ext & n & -> & Hn).
  { unfold extract_text_from_pdf_bytes.
    destruct (pypdf w b) as [e1|ps1] eqn:E1; [|by eexists _, _].
    destruct (pdfplumber w b) as [e2|ps2] eqn:E2; [|by eexists _, _].
    by destruct Hp as [ps [?|?]]. }
  simpl. apply String.eqb_neq in Hc. rewrite Hc. simpl.
  unfold _llm_analyze_financials. rewrite Hm, Hn.
  rewrite mock_result_typed by reflexivity. simpl.
  eexists. split; [reflexivity|]. split; [|done]. simpl.
  unfold hint_or. simpl. done.
Qed.

(** The scalar columns of the row are the fields of the result. *)
Lemma new_analysis_fields job_id r :
  let a := new_analysis job_id (model_dump r) in
  Analysis.job_id a = job_id
  /\ Analysis.result_json a = model_dump r
  /\ Analysis.company a = company (metadata r)
  /\ Analysis.quarter a = quarter (metadata r)
  /\ Analysis.year a = year (metadata r)
  /\ Analysis.recommendation_action a = Some (action (recommendation r))
  /\ Analysis.confidence a = Some (confidence (recommendation r))
  /\ Analysis.pages a = pages (metadata r).
Proof.
  cbv zeta. unfold new_analysis, sub_get. simpl.
  destruct (company (metadata r)), (quarter (metadata r)), (year (metadata r)),
    (pages (metadata r)); done.
Qed.

End Store.









(** * Further properties of the code *)

(** ** [_extract_json_str] *)

Section ExtractMore.

Implicit Types s t a b : string.


Lemma occurs_in_trans s t u : occurs_in s t -> occurs_in t u -> occurs_in s u.
Proof.
  intros (a & b & ->) (c & d & ->). exists (c +:+ a), (b +:+ d).
  by rewrite !str_app_assoc.
Qed.

Lemma lstrip_with_suffix f s : exists a, s = a +:+ Py.lstrip_with f s.
Proof.
  induction s as [|c s [a IH]]; simpl; [by exists ""|].
  destruct (f c); [|by exists ""]. exists (String c a).
  by rewrite str_app_cons, <- IH.
Qed.

Lemma rstrip_with_prefix f s : exists b, s = Py.rstrip_with f s +:+ b.
Proof.
  induction s as [|c s [b IH]]; simpl; [by exists ""|].
  destruct (Py.rstrip_with f s) as [|c' r] eqn:E.
  - destruct (f c).
    + by exists (String c s).
    + exists s. by rewrite str_app_cons, str_app_nil_l.
  - exists b. by rewrite str_app_cons, <- IH.
Qed.

Lemma strip_with_occurs f s : occurs_in (Py.strip_with f s) s.
Proof.
  unfold Py.strip_with.
  destruct (lstrip_with_suffix f s) as [a Ha].
  destruct (rstrip_with_prefix f (Py.lstrip_with f s)) as [b Hb].
  exists a, b. by rewrite <- Hb.
Qed.

Lemma unfence_occurs input : occurs_in (unfence input) input.
Proof.
  unfold unfence. cbv zeta.
  destruct (Py.startswith "```" (Py.strip input)); [|apply strip_with_occurs].
  eapply occurs_in_trans; [apply strip_with_occurs|].
  eapply occurs_in_trans; apply strip_with_occurs.
Qed.

(** What [lstrip] leaves starts with a character that stays. *)
Lemma lstrip_with_head f s :
  Py.lstrip_with f s = ""
  \/ exists c r, Py.lstrip_with f s = String c r /\ f c = false.
Proof.
  induction s as [|c s IH]; simpl; [by left|].
  destruct (f c) eqn:E; [done|]. right. eauto.
Qed.

Lemma rstrip_with_head f c r :
  f c = false -> exists r', Py.rstrip_with f (String c r) = String c r'.
Proof.
  intros H. simpl. destruct (Py.rstrip_with f r); rewrite ?H; eauto.
Qed.

Lemma rstrip_with_idem f s :
  Py.rstrip_with f (Py.rstrip_with f s) = Py.rstrip_with f s.
Proof.
  induction s as [|c s IH]; [done|]. simpl.
  destruct (Py.rstrip_with f s) as [|c' r] eqn:E.
  - destruct (f c) eqn:Ec; [done|]. simpl. by rewrite Ec.
  - simpl in *. by rewrite IH.
Qed.

Lemma strip_with_idem f s :
  Py.strip_with f (Py.strip_with f s) = Py.strip_with f s.
Proof.
  unfold Py.strip_with.
  destruct (lstrip_with_head f s) as [->|(c & r & -> & Hc)]; [done|].
  destruct (rstrip_with_head f c r Hc) as [r' Hr]. rewrite Hr.
  rewrite lstrip_with_id by done. rewrite <- Hr. apply rstrip_with_idem.
Qed.

Lemma strip_unfence input : Py.strip (unfence input) = unfence input.
Proof.
  unfold unfence. cbv zeta.
  destruct (Py.startswith "```" (Py.strip input)); apply strip_with_idem.
Qed.

Lemma strip_braced s a :
  Py.startswith "{" s = true -> s = a +:+ "}" -> Py.strip s = s.
Proof.
  intros Hs Ha. apply startswith_spec in Hs as [b Hb]. unfold Py.strip, Py.strip_with.
  assert (Py.lstrip_with Py.isspace s = s) as ->.
  { rewrite Hb. by apply lstrip_with_id. }
  rewrite Ha. by apply rstrip_with_id.
Qed.

End ExtractMore.

(** X1.  The extraction never makes text up: its result is a part of the
    input, taken in one piece, and it has no white space at either end. *)
Theorem extract_is_part_of_input (input : string) :
  occurs_in (_extract_json_str input) input
  /\ Py.strip (_extract_json_str input) = _extract_json_str input.
Proof.
  destruct (extract_cases input) as [->|(pre & post & Hs & _ & Hb)].
  - split; [apply unfence_occurs | apply strip_unfence].
  - split.
    + eapply occurs_in_trans; [|apply unfence_occurs]. by exists pre, post.
    + apply balanced_first_zero in Hb as (p & Hp & Hne & Hfz).
      destruct (scan_complete p "" 0
                  {| w_depth := 1; w_in_str := false; w_esc := false |}
                  ltac:(simpl; lia) Hne Hfz) as [_ [a Ha]].
      apply (strip_braced _ (String "{" a)); rewrite Hp; [done|].
      by rewrite Ha.
Qed.

(** ** The request to the model *)

Section Request.



End Request.



(** ** The optional CrewAI step *)

Section Crew.

Variable w : World.



End Crew.


(** ** The task and the store *)

Section StoreMore.

Implicit Types db : Store.
Implicit Types rows : list Analysis.t.

Lemma has_analysis_app j rows rows' :
  has_analysis j (rows ++ rows')
  = has_analysis j rows || has_analysis j rows'.
Proof. unfold has_analysis. apply existsb_app. Qed.

Lemma store_ok_deliver db d : store_ok db -> store_ok (deliver db d).
Proof.
  intros (Hfk & Hone & Hpend). unfold deliver.
  destruct (process_pdf_job_cases (d_world d) (d_job_id d) (d_file_path d)
              (d_query d) (d_user_id d) db)
    as [[_ ->]|[(job & e & Hj & _ & ->)|[(job & res & Hj & _ & Hh & ->)
       |(job & res & _ & _ & _ & ->)]]]; simpl; try done.
  - split; [|split]; simpl.
    + intros a Ha. apply lookup_insert_is_Some'. right. by apply Hfk.
    + done.
    + intros j job0. destruct (decide (d_job_id d = j)) as [<-|Hne].
      * rewrite lookup_insert_eq. by intros [= <-].
      * rewrite lookup_insert_ne by done. apply Hpend.
  - split; [|split]; simpl.
    + intros a Ha. apply lookup_insert_is_Some'.
      apply in_app_or in Ha as [Ha|[<-|[]]]; [right; by apply Hfk | by left].
    + intros j. rewrite count_analyses_snoc. simpl.
      destruct (decide (d_job_id d = j)) as [<-|]; [|specialize (Hone j); lia].
      rewrite (has_analysis_count _ _ Hh). lia.
    + intros j job0. destruct (decide (d_job_id d = j)) as [<-|Hne].
      * rewrite lookup_insert_eq. by intros [= <-].
      * rewrite lookup_insert_ne by done. intros H1 H2.
        rewrite has_analysis_app, (Hpend _ _ H1 H2). simpl.
        rewrite orb_false_r. by apply String.eqb_neq.
Qed.

End StoreMore.

(** X4.  An invocation of the task touches one job only.  No job is added
    or removed; every other job is left as it is; of the job itself only
    status and error can change; the analyses that exist stay as they are,
    and at most one is added, for this job. *)
Theorem task_touches_one_job (w : World) (job_id fp q : string)
    (uid : option string) (db : Store) :
  let db' := snd (process_pdf_job w job_id fp q uid db) in
  dom (jobs db') = dom (jobs db)
  /\ (forall j, j <> job_id -> jobs db' !! j = jobs db !! j)
  /\ (forall job', jobs db' !! job_id = Some job' ->
        exists job,
          jobs db !! job_id = Some job
          /\ Job.id job' = Job.id job
          /\ Job.user_id job' = Job.user_id job
          /\ Job.created_at job' = Job.created_at job
          /\ Job.file_path job' = Job.file_path job
          /\ Job.query job' = Job.query job)
  /\ (exists added,
        analyses db' = analyses db ++ added
        /\ (length added <= 1)%nat
        /\ forall a, In a added -> Analysis.job_id a = job_id).
Proof.
  cbv zeta.
  destruct (process_pdf_job_cases w job_id fp q uid db)
    as [[Hn ->]|[(job & e & Hj & _ & ->)|[(job & res & Hj & _ & _ & ->)
       |(job & res & Hj & _ & _ & ->)]]]; simpl.
  - split; [done|]. split; [done|]. split; [intros; congruence|].
    exists []. rewrite app_nil_r. split; [done|]. split; [simpl; lia|].
    by intros a [].
  - split; [apply dom_insert_lookup_L; eauto|].
    split; [intros j Hne; by rewrite lookup_insert_ne|].
    split; [rewrite lookup_insert_eq; intros job' [= <-]; eauto 10|].
    exists []. rewrite app_nil_r. split; [done|]. split; [simpl; lia|].
    by intros a [].
  - split; [apply dom_insert_lookup_L; eauto|].
    split; [intros j Hne; by rewrite lookup_insert_ne|].
    split; [rewrite lookup_insert_eq; intros job' [= <-]; eauto 10|].
    eexists. split; [done|]. split; [simpl; lia|].
    by intros a [<-|[]].
  - split; [done|]. split; [done|]. split; [intros; eauto 10|].
    exists []. rewrite app_nil_r. split; [done|]. split; [simpl; lia|].
    by intros a [].
Qed.

(** X5.  Deliveries of the task keep the store consistent, however often
    and in whatever world the queue delivers: every analysis belongs to a
    job of the store, no job has two analyses, and a job that is still
    pending has none. *)
Theorem deliveries_keep_store_ok (ds : list delivery) (db : Store) :
  store_ok db -> store_ok (deliver_all ds db).
Proof.
  unfold deliver_all. revert db.
  induction ds as [|d ds IH]; intros db Hok; [done|].
  simpl. apply IH. by apply store_ok_deliver.
Qed.

Lemma deliveries_keep_store_ok_witness :
  store_ok store_pending
  /\ store_ok (deliver_all [sample_delivery; sample_delivery] store_pending).
Proof.
  assert (store_ok store_pending) as Hok.
  { split; [|split].
    - intros a [].
    - intros j. apply Nat.le_0_l.
    - reflexivity. }
  split; [exact Hok|]. apply deliveries_keep_store_ok. exact Hok.
Defined.

(** ** Validation and serialisation *)

Section RoundTrip.

Lemma literal_ok allowed s :
  In s allowed -> literal allowed (VStr s) = Valid s.
Proof.
  intros H. unfold literal.
  assert (existsb (String.eqb s) allowed = true) as ->; [|done].
  apply existsb_exists. exists s. split; [done|]. apply String.eqb_refl.
Qed.

Lemma conint_ok lo hi n : lo <= n <= hi -> conint lo hi (VInt n) = Valid n.
Proof.
  intros H. unfold conint. simpl.
  destruct (Z.ltb_spec n lo); [lia|]. destruct (Z.ltb_spec hi n); [lia|done].
Qed.

Lemma riskitem_valid v k : validate_RiskItem v = Valid k -> RiskItem_ok k.
Proof.
  unfold validate_RiskItem, model. destruct v as [| | | | | |d]; try done.
  intros H. apply cmap_valid in H as ([n [s [i [l m]]]] & H & <-).
  apply both_valid in H as [_ H]. apply both_valid in H as [Hs H].
  apply both_valid in H as [_ H]. apply both_valid in H as [Hl _].
  apply required_valid in Hs as (vs & _ & Hs).
  apply required_valid in Hl as (vl & _ & Hl).
  apply literal_valid in Hs as [_ Hs]. apply literal_valid in Hl as [_ Hl].
  done.
Qed.

Lemma each_valid {A} (f : value -> checked A) (P : A -> Prop) l : forall i xs,
  (forall v x, f v = Valid x -> P x) ->
  each f i l = Valid xs -> Forall P xs.
Proof.
  induction l as [|v l IH]; intros i xs HP; simpl.
  - by intros [= <-].
  - intros H. apply cmap_valid in H as ([x xs'] & H & <-).
    apply both_valid in H as [Hx Hxs]. apply at_loc_valid in Hx.
    constructor; eauto.
Qed.

Lemma each_dump {A} (f : value -> checked A) (d : A -> value) xs : forall i,
  Forall (fun x => f (d x) = Valid x) xs ->
  each f i (map d xs) = Valid xs.
Proof.
  induction xs as [|x xs IH]; intros i H; [done|].
  apply Forall_cons in H as [Hx Hxs]. simpl. by rewrite Hx, IH.
Qed.

Lemma roundtrip_Recommendation r :
  Recommendation_ok r ->
  validate_Recommendation (dump_Recommendation r) = Valid r.
Proof.
  intros [Ha Hc]. unfold validate_Recommendation, dump_Recommendation, model,
    required.
  cbn [Json.dict_lookup String.eqb Ascii.eqb Bool.eqb].
  rewrite literal_ok, conint_ok by done. by destruct r.
Qed.

Lemma roundtrip_RiskItem k :
  RiskItem_ok k -> validate_RiskItem (dump_RiskItem k) = Valid k.
Proof.
  intros [Hs Hl]. unfold validate_RiskItem, dump_RiskItem, model, required.
  cbn [Json.dict_lookup String.eqb Ascii.eqb Bool.eqb].
  rewrite !literal_ok by done. by destruct k.
Qed.

Lemma roundtrip_MarketInsight m :
  validate_MarketInsight (dump_MarketInsight m) = Valid m.
Proof. by destruct m. Qed.

Lemma roundtrip_Metrics m : validate_Metrics (dump_Metrics m) = Valid m.
Proof.
  destruct m as [[[]|] [[]|] [[]|] [|]]; reflexivity.
Qed.

Lemma roundtrip_DocumentMetadata m :
  validate_DocumentMetadata (dump_DocumentMetadata m) = Valid m.
Proof. destruct m as [[|] [|] [|] [|] [|]]; reflexivity. Qed.

Lemma optional_dump_Metrics o :
  optional validate_Metrics (dump_opt dump_Metrics o) = Valid o.
Proof.
  destruct o as [km|]; [|done].
  change (optional validate_Metrics (dump_opt dump_Metrics (Some km)))
    with (cmap Some (validate_Metrics (dump_Metrics km))).
  by rewrite roundtrip_Metrics.
Qed.

Lemma analysis_result_ok v r :
  validate_AnalysisResult v = Valid r -> AnalysisResult_ok r.
Proof.
  unfold validate_AnalysisResult, model. destruct v as [| | | | | |d]; try done.
  intros H. apply cmap_valid in H as ([m [rc rest]] & H & <-).
  destruct rest as [k [i [km [q l]]]].
  apply both_valid in H as [_ H]. apply both_valid in H as [Hr H].
  apply both_valid in H as [Hk _].
  apply required_valid in Hr as (vr & _ & Hr).
  apply required_valid in Hk as (vk & _ & Hk).
  split; simpl.
  - apply recommendation_valid in Hr as [? ?]. by split.
  - destruct vk; try done. simpl in Hk.
    eapply each_valid; [|done]. apply riskitem_valid.
Qed.

Lemma roundtrip_AnalysisResult r :
  AnalysisResult_ok r ->
  validate_AnalysisResult (VDict (model_dump r)) = Valid r.
Proof.
  intros [Hr Hk].
  unfold validate_AnalysisResult, model_dump, model, required, defaulted.
  cbn [Json.dict_lookup String.eqb Ascii.eqb Bool.eqb].
  rewrite roundtrip_DocumentMetadata, roundtrip_Recommendation by done.
  unfold list_of.
  rewrite (each_dump validate_RiskItem dump_RiskItem).
  2: { eapply Forall_impl; [done|]. apply roundtrip_RiskItem. }
  rewrite (each_dump validate_MarketInsight dump_MarketInsight).
  2: { apply Forall_forall. intros m _. apply roundtrip_MarketInsight. }
  rewrite (each_dump val_str VStr).
  2: { by apply Forall_forall. }
  rewrite optional_dump_Metrics. by destruct r.
Qed.

End RoundTrip.

(** X6.  Validation and serialisation agree.  A result that passed
    validation satisfies the constraints of the schema, and the dictionary
    that [model_dump] makes of such a result validates again, to the same
    result: nothing is lost or changed on the way through JSON. *)
Theorem dump_then_validate (r : AnalysisResult) :
  (forall v, validate_AnalysisResult v = Valid r -> AnalysisResult_ok r)
  /\ (AnalysisResult_ok r ->
      validate_AnalysisResult (VDict (model_dump r)) = Valid r)
  /\ (forall v, validate_AnalysisResult v = Valid r ->
                validate_AnalysisResult (VDict (model_dump r)) = Valid r).
Proof.
  split; [|split].
  - intros v. apply analysis_result_ok.
  - apply roundtrip_AnalysisResult.
  - intros v H. by apply roundtrip_AnalysisResult, (analysis_result_ok v).
Qed.

Lemma dump_then_validate_witness :
  AnalysisResult_ok sample_result
  /\ validate_AnalysisResult (VDict (model_dump sample_result))
     = Valid sample_result.
Proof.
  assert (AnalysisResult_ok sample_result) as Hok.
  { split.
    - split; [simpl; tauto | simpl; lia].
    - constructor; [|constructor]. split; simpl; tauto. }
  split; [exact Hok|].
  destruct (dump_then_validate sample_result) as (_ & H & _).
  exact (H Hok).
Defined.

(** ** What the pipeline stores *)

Section Pipeline.

Lemma init_valid {A} title (c : checked A) a :
  raise_invalid title c = Return a -> c = Valid a.
Proof. destruct c; simpl; [by intros [= <-]|done]. Qed.

Lemma mock_result_ok text meta r :
  _mock_result text meta = Return r -> AnalysisResult_ok r.
Proof.
  unfold _mock_result. cbv zeta.
  destruct (DocumentMetadata_init _ _ _ _ _) as [md|]; [|done].
  cbn [mbind outcome_bind].
  destruct (Recommendation_init _ _ _) as [rc|] eqn:Erc; [|done].
  cbn [mbind outcome_bind].
  destruct (RiskItem_init _ _ _ _ _) as [rk|] eqn:Erk; [|done].
  cbn [mbind outcome_bind].
  destruct (MarketInsight_init _ _ _) as [mi|]; [|done].
  cbn [mbind outcome_bind].
  destruct (Metrics_init _ _ _ _) as [km|]; [|done].
  cbn [mbind outcome_bind]. intros [= <-].
  apply init_valid in Erc. apply init_valid in Erk.
  apply recommendation_valid in Erc as [? ?]. apply riskitem_valid in Erk.
  split; simpl; [by split|]. by constructor.
Qed.

Lemma llm_result_ok w text meta r :
  _llm_analyze_financials w text meta = Return r -> AnalysisResult_ok r.
Proof.
  destruct (mock_llm w) eqn:Hm.
  - unfold _llm_analyze_financials. rewrite Hm. apply mock_result_ok.
  - intros H. apply live_returns in H as (content & _ & H); [|done].
    unfold model_validate_json in H.
    destruct (Json.loads _) as [v|]; [|done].
    apply init_valid in H. by apply analysis_result_ok in H.
Qed.

Lemma run_analysis_ok w q fp result :
  run_analysis w q fp = Return result ->
  exists r, result = model_dump r /\ AnalysisResult_ok r.
Proof.
  unfold run_analysis. destruct (read_file w fp) as [b|]; [|done]. simpl.
  destruct (extract_text_from_pdf_bytes w b) as [ext|]; [|done]. simpl.
  destruct (if String.eqb _ "1" then _ else _) as [[]|]; [|done]. simpl.
  destruct (_llm_analyze_financials w _ _) as [r|] eqn:E; [|done]. simpl.
  intros [= <-]. exists r. split; [done|]. by apply llm_result_ok in E.
Qed.

End Pipeline.

(** X7.  Whatever [run_analysis] returns, on the mock path or from the
    model, satisfies the schema: it is the dump of a result that validates
    again to itself.  So the row that the task makes of it has a confidence
    from 0 to 100 and one of the actions buy, hold, sell in its columns. *)
Theorem stored_result_satisfies_schema (w : World) (query file_path : string)
    (job_id : string) (result : list (string * value)) :
  run_analysis w query file_path = Return result ->
  exists r,
    result = model_dump r
    /\ validate_AnalysisResult (VDict result) = Valid r
    /\ Analysis.confidence (new_analysis job_id result)
       = Some (confidence (recommendation r))
    /\ 0 <= confidence (recommendation r) <= 100
    /\ Analysis.recommendation_action (new_analysis job_id result)
       = Some (action (recommendation r))
    /\ In (action (recommendation r)) ["buy"; "hold"; "sell"].
Proof.
  intros H. apply run_analysis_ok in H as (r & -> & Hok).
  exists r. split; [done|]. split; [by apply roundtrip_AnalysisResult|].
  destruct (new_analysis_fields job_id r) as (_ & _ & _ & _ & _ & Ha & Hc & _).
  destruct Hok as [[? ?] _]. done.
Qed.

Lemma stored_result_satisfies_schema_witness :
  exists result r,
    run_analysis (sample_world mock_env (CompletionContent None))
      "Analyze" "data/financial_document_1.pdf" = Return result
    /\ validate_AnalysisResult (VDict result) = Valid r
    /\ Analysis.confidence (new_analysis "j1" result)
       = Some (confidence (recommendation r))
    /\ 0 <= confidence (recommendation r) <= 100.
Proof.
  assert (exists result,
            run_analysis (sample_world mock_env (CompletionContent None))
              "Analyze" "data/financial_document_1.pdf" = Return result)
    as [result Hr] by (eexists; vm_compute; reflexivity).
  destruct (stored_result_satisfies_schema _ _ _ "j1" _ Hr)
    as (r & Hd & Hv & Hc & Hrange & _).
  exists result, r. split; [exact Hr|]. split; [exact Hv|].
  split; [exact Hc | exact Hrange].
Defined.

(** ** Documents without text *)

Section NoText.

Lemma join_empty_chunks ps :
  Forall (fun p => page_chunk p = "") ps ->
  all_chars is_nl (Py.join Py.nl (map page_chunk ps)) = true.
Proof.
  unfold Py.join. induction ps as [|p ps IH]; intros H; [done|].
  apply Forall_cons in H as [Hp Hps]. specialize (IH Hps).
  simpl. rewrite Hp. destruct ps as [|p' ps]; [done|].
  simpl in *. by rewrite str_app_nil_l.
Qed.

Lemma lower_newlines t : all_chars is_nl t = true -> Py.lower t = t.
Proof.
  induction t as [|c t IH]; [done|]. simpl.
  intros [Hc Ht]%andb_true_iff. apply Ascii.eqb_eq in Hc as ->.
  by rewrite IH.
Qed.

Lemma newlines_contain_no_word c k t :
  is_nl c = false -> all_chars is_nl t = true ->
  Py.contains (String c k) t = false.
Proof.
  intros Hc Ht. unfold Py.contains.
  assert (forall i, Py.find_from (String c k) t i = None) as ->; [|done].
  induction t as [|c' t IH]; intros i; [done|].
  simpl in Ht. apply andb_true_iff in Ht as [Hc' Ht].
  apply Ascii.eqb_eq in Hc' as ->. simpl.
  unfold is_nl in Hc. rewrite Hc. simpl. by apply IH.
Qed.

Lemma run_analysis_mock w q fp b ps :
  mock_llm w = true -> getenv w "CREWAI_ENABLED" "0" <> "1" ->
  read_file w fp = Return b -> pypdf w b = PdfPages ps ->
  run_analysis w q fp
  = (r ← _mock_result (Py.join Py.nl (map page_chunk ps))
           [("company", VNone); ("quarter", VNone); ("year", VNone);
            ("source", VStr fp); ("pages", VInt (Z.of_nat (length ps)))];
     Return (model_dump r)).
Proof.
  intros Hm Hc Hf Hp. unfold run_analysis, extract_text_from_pdf_bytes.
  rewrite Hf. simpl. rewrite Hp. simpl.
  apply String.eqb_neq in Hc. rewrite Hc. simpl.
  unfold _llm_analyze_financials. by rewrite Hm.
Qed.

End NoText.

(** X8.  A document in which no page yields text (a scan, or pages whose
    extraction fails) is not an error: in mock mode the analysis returns,
    with the page count of the document, and since an empty text has no
    growth keyword the recommendation is "sell" with confidence 65. *)
Theorem document_without_text_sells (w : World) (q fp b : string)
    (ps : list page) :
  mock_llm w = true -> getenv w "CREWAI_ENABLED" "0" <> "1" ->
  read_file w fp = Return b -> pypdf w b = PdfPages ps ->
  Forall (fun p => page_chunk p = "") ps ->
  exists r,
    run_analysis w q fp = Return (model_dump r)
    /\ action (recommendation r) = "sell"
    /\ confidence (recommendation r) = 65
    /\ pages (metadata r) = Some (Z.of_nat (length ps))
    /\ map insight (insights r) = ["No clear growth signals detected."].
Proof.
  intros Hm Hc Hf Hp Hall.
  rewrite (run_analysis_mock w q fp b ps Hm Hc Hf Hp).
  rewrite mock_result_typed by reflexivity. cbv zeta.
  pose proof (join_empty_chunks ps Hall) as Hnl.
  rewrite (lower_newlines _ Hnl).
  assert (existsb (fun k => Py.contains k (Py.join Py.nl (map page_chunk ps)))
            growth_keywords = false) as ->.
  { unfold growth_keywords. cbn [existsb].
    by rewrite (newlines_contain_no_word "i" "ncrease"),
      (newlines_contain_no_word "g" "rew"),
      (newlines_contain_no_word "u" "p "),
      (newlines_contain_no_word "g" "rowth"),
      (newlines_contain_no_word "h" "igher") by done. }
  eexists. split; [reflexivity|]. done.
Qed.

Lemma document_without_text_sells_witness :
  exists r,
    run_analysis
      {| environ := mock_env;
         read_file := fun _ => Return "%PDF-1.7";
         pypdf := fun _ => PdfPages [PageText None;
                                     PageRaises (Exception "no /Contents")];
         pdfplumber := fun _ => PdfPages [];
         OpenAI := None;
         chat_completions_create := fun _ => CompletionContent None;
         crew_kickoff := fun _ _ => None |}
      "Analyze" "scan.pdf" = Return (model_dump r)
    /\ action (recommendation r) = "sell"
    /\ pages (metadata r) = Some 2.
Proof.
  edestruct (document_without_text_sells
               {| environ := mock_env;
                  read_file := fun _ => Return "%PDF-1.7";
                  pypdf := fun _ => PdfPages [PageText None;
                                              PageRaises (Exception "no /Contents")];
                  pdfplumber := fun _ => PdfPages [];
                  OpenAI := None;
                  chat_completions_create := fun _ => CompletionContent None;
                  crew_kickoff := fun _ _ => None |}
               "Analyze" "scan.pdf" "%PDF-1.7"
               [PageText None; PageRaises (Exception "no /Contents")])
    as (r & Hr & Ha & _ & Hp & _).
  - reflexivity.
  - discriminate.
  - reflexivity.
  - reflexivity.
  - repeat constructor.
  - exists r. split; [exact Hr|]. split; [exact Ha | exact Hp].
Defined.

(** ** The [.env] loader *)

Section DotenvFacts.

Import Dotenv.

Implicit Types env : gmap string string.
Implicit Types lines : list string.

Lemma setdefault_subseteq env k v env' :
  setdefault env k v = inl env' -> env ⊆ env'.
Proof.
  unfold setdefault. destruct (env !! k) eqn:E; [by intros [= <-]|].
  destruct (has_nul k || has_nul v); [done|].
  destruct (String.eqb k ""); [done|]. intros [= <-].
  by apply insert_subseteq.
Qed.

Lemma setdefault_lookup env k v env' :
  setdefault env k v = inl env' -> is_Some (env' !! k).
Proof.
  unfold setdefault. destruct (env !! k) eqn:E; [intros [= <-]; eauto|].
  destruct (has_nul k || has_nul v); [done|].
  destruct (String.eqb k ""); [done|]. intros [= <-].
  rewrite lookup_insert_eq. eauto.
Qed.

Lemma setdefault_new env k v env' :
  setdefault env k v = inl env' -> env !! k = None -> env' = <[k := v]> env.
Proof.
  unfold setdefault. intros H E. rewrite E in H.
  destruct (has_nul k || has_nul v); [done|].
  destruct (String.eqb k ""); [done|]. by injection H as <-.
Qed.

Lemma setdefault_present env k v :
  is_Some (env !! k) -> setdefault env k v = inl env.
Proof. intros [x Hx]. unfold setdefault. by rewrite Hx. Qed.

Lemma load_lines_subseteq lines : forall env,
  env ⊆ (load_lines lines env).1.
Proof.
  induction lines as [|l lines IH]; intros env; simpl; [done|].
  destruct (parse_line l) as [[k v]|]; [|apply IH].
  destruct (setdefault env k v) as [env'|e] eqn:E; [|done].
  etrans; [by eapply setdefault_subseteq | apply IH].
Qed.

(** Every variable of the result was there before or is assigned by a
    line. *)
Lemma load_lines_origin lines : forall env k v,
  (load_lines lines env).1 !! k = Some v ->
  env !! k = Some v \/ exists l, In l lines /\ parse_line l = Some (k, v).
Proof.
  induction lines as [|l lines IH]; intros env k v; simpl; [by left|].
  destruct (parse_line l) as [[k0 v0]|] eqn:Ep.
  - destruct (setdefault env k0 v0) as [env'|e] eqn:E; [|by left].
    intros H. apply IH in H as [H|(l' & Hl & Hp)]; [|right; eauto].
    destruct (env !! k0) eqn:E0.
    + rewrite setdefault_present in E by eauto. injection E as <-. by left.
    + rewrite (setdefault_new _ _ _ _ E E0) in H.
      destruct (decide (k0 = k)) as [->|Hne].
      * rewrite lookup_insert_eq in H. injection H as ->. right. eauto.
      * rewrite lookup_insert_ne in H by done. by left.
  - intros H. apply IH in H as [H|(l' & Hl & Hp)]; [by left|right; eauto].
Qed.

(** After a load that did not raise, every name that a line assigns is
    set. *)
Lemma load_lines_defined lines : forall env,
  (load_lines lines env).2 = None ->
  forall l k v, In l lines -> parse_line l = Some (k, v) ->
                is_Some ((load_lines lines env).1 !! k).
Proof.
  induction lines as [|l0 lines IH]; intros env Hok l k v; simpl; [done|].
  simpl in Hok. destruct (parse_line l0) as [[k0 v0]|] eqn:Ep.
  - destruct (setdefault env k0 v0) as [env'|e] eqn:E; [|done].
    intros [<-|Hl] Hp.
    + rewrite Ep in Hp. injection Hp as <- <-.
      destruct (setdefault_lookup _ _ _ _ E) as [x Hx]. exists x.
      by eapply lookup_weaken; [|apply load_lines_subseteq].
    + by eapply IH.
  - intros [<-|Hl] Hp; [congruence|]. by eapply IH.
Qed.

(** Lines whose names are all set change nothing. *)
Lemma load_lines_present lines : forall env,
  (forall l k v, In l lines -> parse_line l = Some (k, v) ->
                 is_Some (env !! k)) ->
  load_lines lines env = (env, None).
Proof.
  induction lines as [|l0 lines IH]; intros env H; simpl; [done|].
  destruct (parse_line l0) as [[k0 v0]|] eqn:Ep.
  - rewrite setdefault_present by (eapply H; [by left|done]).
    apply IH. intros l k v Hl. apply H. by right.
  - apply IH. intros l k v Hl. apply H. by right.
Qed.

Lemma load_lines_app l1 l2 env :
  load_lines (l1 ++ l2) env
  = match load_lines l1 env with
    | (env1, None) => load_lines l2 env1
    | (env1, Some e) => (env1, Some e)
    end.
Proof.
  revert env. induction l1 as [|l l1 IH]; intros env; simpl; [done|].
  destruct (parse_line l) as [[k v]|]; [|apply IH].
  destruct (setdefault env k v); [apply IH|done].
Qed.

End DotenvFacts.

(** X9.  Loading [.env] never changes a variable that the process already
    has: every variable of the environment keeps its value, also when the
    load ends by raising.  What the load of an ASCII file adds comes from
    an assignment in one of its lines.  Without a file the environment is
    left as it is. *)
Theorem dotenv_keeps_environment (dotenv : option string)
    (env : gmap string string) :
  let env' := (Dotenv._load_dotenv_if_present dotenv env).1 in
  (forall k v, env !! k = Some v -> env' !! k = Some v)
  /\ (forall text k v,
        dotenv = Some text -> ascii_text text -> env' !! k = Some v ->
        env !! k = Some v
        \/ exists l, In l (Dotenv.splitlines text)
                     /\ Dotenv.parse_line l = Some (k, v))
  /\ (dotenv = None ->
      Dotenv._load_dotenv_if_present dotenv env = (env, None)).
Proof.
  cbv zeta. destruct dotenv as [text|]; simpl.
  - split; [|split; [|done]].
    + intros k v H.
      by eapply lookup_weaken; [|apply load_lines_subseteq].
    + intros ? k v [= <-] _ H.
      apply load_lines_origin in H as [H|(l & Hl & Hp)]; [by left|].
      right. eauto.
  - split; [done|]. split; [done|done].
Qed.

Lemma dotenv_keeps_environment_witness :
  ascii_text Dotenv.sample_dotenv
  /\ (Dotenv._load_dotenv_if_present (Some Dotenv.sample_dotenv)
        {["MOCK_LLM" := "0"]}).1 !! "MOCK_LLM" = Some "0".
Proof.
  split; [reflexivity|].
  apply (dotenv_keeps_environment (Some Dotenv.sample_dotenv)
           {["MOCK_LLM" := "0"]}).
  reflexivity.
Defined.

(** X10.  When a name is assigned by several lines of an ASCII file, the
    first of them counts: a load that does not raise sets a new name to
    the value of the first line that assigns it. *)
Theorem dotenv_first_assignment_wins (text : string)
    (env : gmap string string) (before after : list string)
    (line k v : string) :
  ascii_text text ->
  Dotenv.splitlines text = before ++ line :: after ->
  Dotenv.parse_line line = Some (k, v) ->
  (forall l v', In l before -> Dotenv.parse_line l <> Some (k, v')) ->
  env !! k = None ->
  (Dotenv._load_dotenv_if_present (Some text) env).2 = None ->
  (Dotenv._load_dotenv_if_present (Some text) env).1 !! k = Some v.
Proof.
  intros _ Hs Hp Hfirst Hk. simpl. rewrite Hs, load_lines_app.
  destruct (Dotenv.load_lines before env) as [env1 [e|]] eqn:E1; [done|].
  assert (env1 !! k = None) as Hk1.
  { destruct (env1 !! k) as [x|] eqn:Ex; [|done].
    replace env1 with (Dotenv.load_lines before env).1 in Ex by by rewrite E1.
    apply load_lines_origin in Ex as [Ex|(l & Hl & Hpl)]; [congruence|].
    by apply Hfirst in Hpl. }
  simpl. rewrite Hp.
  destruct (Dotenv.setdefault env1 k v) as [env2|e] eqn:E2; [|done].
  intros _. rewrite (setdefault_new _ _ _ _ E2 Hk1).
  eapply lookup_weaken; [apply lookup_insert_eq|apply load_lines_subseteq].
Qed.

Lemma dotenv_first_assignment_wins_witness :
  (Dotenv._load_dotenv_if_present (Some Dotenv.sample_dotenv) ∅).1
    !! "MOCK_LLM" = Some "1".
Proof.
  apply (dotenv_first_assignment_wins Dotenv.sample_dotenv ∅
           ["# local settings"]
           [""; "OPENAI_MODEL = 'gpt-4o'"; "MOCK_LLM=0"; "not an assignment"]
           "MOCK_LLM=1").
  - reflexivity.
  - reflexivity.
  - reflexivity.
  - intros l v' [<-|[]]. discriminate.
  - reflexivity.
  - reflexivity.
Defined.

(** X11.  Loading is idempotent: after a load that did not raise, loading
    the same file again changes nothing and does not raise.  The module is
    loaded once by the web process and once by the worker. *)
Theorem dotenv_load_twice (dotenv : option string) (env : gmap string string) :
  (Dotenv._load_dotenv_if_present dotenv env).2 = None ->
  Dotenv._load_dotenv_if_present dotenv
    (Dotenv._load_dotenv_if_present dotenv env).1
  = ((Dotenv._load_dotenv_if_present dotenv env).1, None).
Proof.
  destruct dotenv as [text|]; simpl; [|done].
  intros Hok. apply load_lines_present.
  intros l k v. by apply load_lines_defined.
Qed.

Lemma dotenv_load_twice_witness :
  Dotenv._load_dotenv_if_present (Some Dotenv.sample_dotenv)
    (Dotenv._load_dotenv_if_present (Some Dotenv.sample_dotenv) ∅).1
  = ((Dotenv._load_dotenv_if_present (Some Dotenv.sample_dotenv) ∅).1, None).
Proof.
  apply (dotenv_load_twice (Some Dotenv.sample_dotenv) ∅). reflexivity.
Defined.

Section DotenvLines.

Import Dotenv.

Implicit Types s k v u a : string.

Lemma rstrip_with_last f t :
  Py.rstrip_with f t = ""
  \/ exists a c, Py.rstrip_with f t = a +:+ String c "" /\ f c = false.
Proof.
  induction t as [|c t IH]; simpl; [by left|].
  destruct (Py.rstrip_with f t) as [|c' r] eqn:E.
  - destruct (f c) eqn:Ec; [by left|]. right. by exists "", c.
  - right. destruct IH as [|(a & c0 & -> & Hc0)]; [done|].
    by exists (String c a), c0.
Qed.

Lemma strip_with_fixed f s :
  s <> "" -> Py.strip_with f s = s ->
  (exists c r, s = String c r /\ f c = false)
  /\ (exists a c, s = a +:+ String c "" /\ f c = false).
Proof.
  unfold Py.strip_with. intros Hne H. split.
  - destruct (lstrip_with_head f s) as [E|(c & r & E & Hc)].
    + rewrite E in H. by subst.
    + rewrite E in H. destruct (rstrip_with_head f c r Hc) as [r' Hr].
      rewrite Hr in H. eauto.
  - destruct (rstrip_with_last f (Py.lstrip_with f s)) as [E|(a & c & E & Hc)].
    + rewrite E in H. by subst.
    + rewrite E in H. eauto.
Qed.

Lemma strip_with_between f c r a c' :
  f c = false -> f c' = false -> String c r = a +:+ String c' "" ->
  Py.strip_with f (String c r) = String c r.
Proof.
  intros Hc Hc' E. unfold Py.strip_with. rewrite lstrip_with_id by done.
  rewrite E. by apply rstrip_with_id.
Qed.

Lemma split_once_first sep k v :
  Py.contains (String sep "") k = false ->
  split_once sep (k +:+ String sep v) = (k, v).
Proof.
  intros Hk. apply contains_false in Hk.
  induction k as [|c k IH].
  - rewrite str_app_nil_l. simpl. by rewrite Ascii.eqb_refl.
  - rewrite str_app_cons. simpl.
    destruct (Ascii.eqb_spec c sep) as [->|Hne].
    + exfalso. apply Hk. by exists "", k.
    + rewrite IH; [done|]. intros (x & y & ->). apply Hk.
      by exists (String c x), y.
Qed.

Lemma endswith_last a c : endswith (String c "") (a +:+ String c "") = true.
Proof.
  unfold endswith. rewrite str_length_app. simpl String.length.
  apply andb_true_iff. split; [apply Nat.leb_le; lia|].
  replace (String.length a + 1 - 1)%nat with (String.length a) by lia.
  rewrite substring_skip. apply String.eqb_eq. reflexivity.
Qed.

Lemma strip_ends_between c u :
  strip_ends (String c (u +:+ String c "")) = u.
Proof.
  unfold strip_ends. simpl String.length. rewrite str_length_app.
  simpl String.length.
  replace (S (String.length u + 1) - 2)%nat with (String.length u) by lia.
  simpl. apply substring_prefix.
Qed.

(** What [parse_line] makes of a name, "=", and a value without white
    space around it. *)
Lemma parse_assignment k v :
  name_ok k -> Py.strip v = v ->
  parse_line (k +:+ "=" +:+ v)
  = Some (k, if quoted v then strip_ends v else v).
Proof.
  intros (Hne & Hk & Heq & Hhash) Hv.
  destruct (strip_with_fixed _ _ Hne Hk) as [(c & r & Ek & Hc) _].
  assert (exists a c', k +:+ "=" +:+ v = a +:+ String c' ""
                        /\ Py.isspace c' = false) as (a & c' & Ea & Hc').
  { destruct v as [|cv v'] eqn:Ev.
    - exists k, "="%char. by rewrite str_app_nil_r.
    - destruct (strip_with_fixed Py.isspace v) as [_ (a & c' & E & Hc')];
        [by subst|by subst|].
      exists (k +:+ "=" +:+ a), c'. rewrite <- Ev, E.
      by rewrite !str_app_assoc. }
  unfold parse_line. cbv zeta.
  assert (Py.strip (k +:+ "=" +:+ v) = k +:+ "=" +:+ v) as ->.
  { unfold Py.strip. rewrite Ek, str_app_cons in *.
    by eapply strip_with_between. }
  assert (String.eqb (k +:+ "=" +:+ v) "" = false) as ->.
  { apply String.eqb_neq. rewrite Ek, str_app_cons. done. }
  assert (Py.startswith "#" (k +:+ "=" +:+ v) = false) as ->.
  { rewrite Ek, str_app_cons in *. simpl in *. done. }
  assert (Py.contains "=" (k +:+ "=" +:+ v) = true) as ->.
  { apply contains_spec. by exists k, v. }
  simpl. change ("=" +:+ v) with (String "=" v).
  rewrite split_once_first by done.
  fold (Py.strip k). fold (Py.strip v). by rewrite Hk, Hv.
Qed.

Lemma contains_char_cons sep c s :
  Py.contains (String sep "") (String c s)
  = Ascii.eqb sep c || Py.contains (String sep "") s.
Proof.
  destruct (Ascii.eqb_spec sep c) as [->|Hne]; simpl.
  - apply contains_spec. by exists "", s.
  - destruct (Py.contains (String sep "") s) eqn:E.
    + apply contains_spec. apply contains_spec in E as (a & b & ->).
      by exists (String c a), b.
    + apply contains_false. apply contains_false in E.
      intros ([|c' a] & b & H).
      * rewrite str_app_nil_l, str_app_cons in H. by injection H.
      * rewrite str_app_cons in H. injection H as _ ->. apply E. by exists a, b.
Qed.

Lemma contains_char_lstrip f sep s :
  f sep = false ->
  Py.contains (String sep "") (Py.lstrip_with f s)
  = Py.contains (String sep "") s.
Proof.
  intros Hs. induction s as [|c s IH]; [done|]. simpl.
  destruct (f c) eqn:Ec; [|done]. rewrite IH, contains_char_cons.
  destruct (Ascii.eqb_spec sep c) as [->|]; [congruence|done].
Qed.

Lemma contains_char_rstrip f sep s :
  f sep = false ->
  Py.contains (String sep "") (Py.rstrip_with f s)
  = Py.contains (String sep "") s.
Proof.
  intros Hs. induction s as [|c s IH]; [done|]. simpl.
  rewrite contains_char_cons, <- IH.
  destruct (Py.rstrip_with f s) as [|c' r] eqn:E.
  - destruct (f c) eqn:Ec.
    + destruct (Ascii.eqb_spec sep c) as [->|]; [congruence|done].
    + by rewrite contains_char_cons.
  - by rewrite contains_char_cons.
Qed.

Lemma contains_char_strip sep s :
  Py.isspace sep = false ->
  Py.contains (String sep "") (Py.strip s) = Py.contains (String sep "") s.
Proof.
  intros H. unfold Py.strip, Py.strip_with.
  by rewrite contains_char_rstrip, contains_char_lstrip.
Qed.

End DotenvLines.

(** X12.  An assignment is read as written.  For an ASCII name without
    white space around it, without "=" and not starting with "#":
    [name=value] gives the value, when the value is ASCII, has no white
    space around it and is not quoted; a value between double quotes or
    between apostrophes loses exactly these two characters, whatever it
    contains, "=" and blanks and "#" included. *)
Theorem dotenv_reads_assignment (k : string) :
  ascii_text k ->
  Dotenv.name_ok k ->
  (forall v, ascii_text v -> Py.strip v = v -> Dotenv.quoted v = false ->
             Dotenv.parse_line (k +:+ "=" +:+ v) = Some (k, v))
  /\ (forall u,
        Dotenv.parse_line
          (k +:+ "=" +:+ String Py.dquote (u +:+ String Py.dquote ""))
        = Some (k, u))
  /\ (forall u, Dotenv.parse_line (k +:+ "='" +:+ u +:+ "'") = Some (k, u)).
Proof.
  intros _ Hk. split; [|split].
  - intros v _ Hv Hq. by rewrite parse_assignment, Hq.
  - intros u. rewrite parse_assignment; [|done|].
    + unfold Dotenv.quoted. simpl Py.startswith.
      rewrite <- (str_app_cons Py.dquote u (String Py.dquote "")) at 1.
      rewrite endswith_last. simpl.
      by rewrite strip_ends_between.
    + unfold Py.strip.
      by apply (strip_with_between _ _ _ (String Py.dquote u) Py.dquote).
  - intros u. change ("='" +:+ u +:+ "'") with ("=" +:+ String "'" (u +:+ "'")).
    rewrite parse_assignment; [|done|].
    + unfold Dotenv.quoted. simpl Py.startswith.
      rewrite <- (str_app_cons "'" u "'") at 2.
      rewrite endswith_last. rewrite orb_true_r.
      by rewrite strip_ends_between.
    + unfold Py.strip.
      by apply (strip_with_between _ _ _ (String "'" u) "'"%char).
Qed.

Lemma dotenv_reads_assignment_witness :
  Dotenv.name_ok "DB_URL"
  /\ Dotenv.parse_line "DB_URL=sqlite:///./finanalyzer.db"
     = Some ("DB_URL", "sqlite:///./finanalyzer.db")
  /\ Dotenv.parse_line "DB_URL='postgresql://u:p@h/db?sslmode=require'"
     = Some ("DB_URL", "postgresql://u:p@h/db?sslmode=require").
Proof.
  assert (Dotenv.name_ok "DB_URL") as Hk.
  { split; [discriminate|]. split; [reflexivity|]. split; reflexivity. }
  split; [exact Hk|].
  destruct (dotenv_reads_assignment "DB_URL" eq_refl Hk) as (H1 & _ & H3).
  split.
  - exact (H1 "sqlite:///./finanalyzer.db" eq_refl eq_refl eq_refl).
  - exact (H3 "postgresql://u:p@h/db?sslmode=require").
Defined.

(** X13.  An ASCII line is skipped exactly when, trimmed, it is empty or
    starts with "#", or when it has no "=" at all.  An ASCII file that
    consists of such lines leaves the environment as it is and cannot make
    the load raise. *)
Theorem dotenv_skips_lines :
  (forall l,
     ascii_text l ->
     (Dotenv.parse_line l = None <->
      Py.strip l = "" \/ Py.startswith "#" (Py.strip l) = true
      \/ ~ occurs_in "=" l))
  /\ (forall text env,
        ascii_text text ->
        (forall l, In l (Dotenv.splitlines text) ->
                   Dotenv.parse_line l = None) ->
        Dotenv._load_dotenv_if_present (Some text) env = (env, None)).
Proof.
  split.
  - intros l _. unfold Dotenv.parse_line. cbv zeta.
    rewrite (contains_char_strip "=" l eq_refl).
    rewrite <- contains_false.
    destruct (String.eqb_spec (Py.strip l) "") as [E|E]; cbn [orb negb].
    { split; [by left|done]. }
    destruct (Py.startswith "#" (Py.strip l)) eqn:Eh; cbn [orb negb].
    { split; [by right; left|done]. }
    destruct (Py.contains "=" l) eqn:Ec; cbn [orb negb].
    + destruct (Dotenv.split_once "=" (Py.strip l)). split; [done|].
      intros [?|[?|?]]; done.
    + split; [by right; right|done].
  - intros text env _ H. simpl. apply load_lines_present.
    intros l k v Hl Hp. rewrite (H l Hl) in Hp. done.
Qed.

Lemma dotenv_skips_lines_witness :
  ascii_text "  # MOCK_LLM=1"
  /\ Dotenv.parse_line "  # MOCK_LLM=1" = None.
Proof.
  split; [reflexivity|].
  apply (proj1 dotenv_skips_lines "  # MOCK_LLM=1" eq_refl).
  right; left. reflexivity.
Defined.

(** ** The result endpoint *)

Section GetResult.

Implicit Types db : Store.

Lemma session_scope_read_only {A} (o : outcome A) db
    (body : Session -> outcome A * Session) :
  body (SessionLocal db) = (o, SessionLocal db) ->
  session_scope body db = (o, db).
Proof.
  unfold session_scope. intros ->. destruct o as [a|e]; [|done].
  unfold commit. simpl. f_equal. apply store_eq; [|done].
  by rewrite (left_id_L ∅ (∪)).
Qed.

Lemma no_analysis_filter j rows :
  has_analysis j rows = false ->
  filter (fun a => Analysis.job_id a = j) rows = [].
Proof.
  intros H. apply has_analysis_count in H. unfold count_analyses in H.
  by apply length_zero_iff_nil.
Qed.

(** The result endpoint, case by case. *)
Lemma get_result_cases job_id db :
  get_result job_id db
  = (match jobs db !! job_id with
     | None => Raise (HTTPException 404 "Job not found.")
     | Some job =>
         if negb (String.eqb (Job.status job) "done") then
           Return (VDict [("job_id", VStr (Job.id job));
                          ("status", VStr (Job.status job));
                          ("error", dump_opt VStr (Job.error job))])
         else
           match filter (fun a => Analysis.job_id a = job_id) (analyses db) with
           | [] => Return (VDict [("job_id", VStr (Job.id job));
                                  ("status", VStr "done"); ("result", VNone)])
           | [a] => Return (VDict [("job_id", VStr (Job.id job));
                                   ("status", VStr "done");
                                   ("result", VDict (Analysis.result_json a))])
           | _ => Raise MultipleResultsFound
           end
     end, db).
Proof.
  unfold get_result. apply session_scope_read_only.
  unfold session_get_job, analysis_one_or_none. simpl. rewrite lookup_empty.
  destruct (jobs db !! job_id) as [job|]; [|done].
  destruct (negb _); [done|].
  by destruct (filter _ (analyses db)) as [|a [|a' rows]].
Qed.

End GetResult.

(** X14.  The result endpoint only reads: it leaves the store as it is,
    whatever it answers.  It answers 404 exactly for a job id that is not
    in the store.  For a job that is not done it reports the status and the
    error of the job, and for a job that is done and has no analysis row it
    reports a null result. *)
Theorem get_result_reads_only (job_id : string) (db : Store) :
  snd (get_result job_id db) = db
  /\ (fst (get_result job_id db) = Raise (HTTPException 404 "Job not found.")
      <-> jobs db !! job_id = None)
  /\ (forall job,
        jobs db !! job_id = Some job -> Job.status job <> "done" ->
        fst (get_result job_id db)
        = Return (VDict [("job_id", VStr (Job.id job));
                         ("status", VStr (Job.status job));
                         ("error", dump_opt VStr (Job.error job))]))
  /\ (forall job,
        jobs db !! job_id = Some job -> Job.status job = "done" ->
        has_analysis job_id (analyses db) = false ->
        fst (get_result job_id db)
        = Return (VDict [("job_id", VStr (Job.id job));
                         ("status", VStr "done"); ("result", VNone)])).
Proof.
  rewrite get_result_cases. simpl. split; [done|]. split; [|split].
  - destruct (jobs db !! job_id) as [job|]; [|done]. split; [|done].
    destruct (negb _); [done|].
    by destruct (filter _ (analyses db)) as [|a [|a' rows]].
  - intros job -> Hs. apply String.eqb_neq in Hs. by rewrite Hs.
  - intros job -> Hs Hh. rewrite Hs. simpl. by rewrite no_analysis_filter.
Qed.

Lemma get_result_reads_only_witness :
  jobs store_pending !! "j1" = Some (sample_job "pending" None)
  /\ fst (get_result "j1" store_pending)
     = Return (VDict [("job_id", VStr "j1"); ("status", VStr "pending");
                      ("error", VNone)]).
Proof.
  split; [reflexivity|].
  destruct (get_result_reads_only "j1" store_pending) as (_ & _ & H & _).
  apply (H (sample_job "pending" None)); [reflexivity|discriminate].
Defined.



(** ** The health endpoint *)

(** X16.  The flags of the health report tell what the analysis engine of
    the same process does.  When the report says [mock], the model is never
    consulted: [run_analysis] gives the same outcome whatever the OpenAI
    client does.  When the report says that CrewAI is off, the crew is
    never started. *)
Theorem health_flags_tell (w : World) (q fp : string) :
  (Json.get "mock" (health w) = VBool true ->
   forall ctor create,
     run_analysis (with_model w ctor create) q fp = run_analysis w q fp)
  /\ (Json.get "crewai" (health w) = VBool false ->
      forall kickoff,
        run_analysis (with_crew w kickoff) q fp = run_analysis w q fp).
Proof.
  split.
  - intros H ctor create.
    assert (mock_llm w = true) as Hm by (by injection H).
    unfold run_analysis. simpl.
    destruct (read_file w fp) as [b|]; [|done]. simpl.
    change (extract_text_from_pdf_bytes (with_model w ctor create) b)
      with (extract_text_from_pdf_bytes w b).
    destruct (extract_text_from_pdf_bytes w b) as [ext|]; [|done]. simpl.
    change (getenv (with_model w ctor create)) with (getenv w).
    destruct (if String.eqb (getenv w "CREWAI_ENABLED" "0") "1"
              then _ else _) as [[]|]; [|done]. simpl.
    unfold _llm_analyze_financials.
    change (mock_llm (with_model w ctor create)) with (mock_llm w).
    by rewrite Hm.
  - intros H kickoff.
    assert (String.eqb (getenv w "CREWAI_ENABLED" "0") "1" = false) as Hc
      by (by injection H).
    unfold run_analysis. simpl.
    destruct (read_file w fp) as [b|]; [|done]. simpl.
    change (extract_text_from_pdf_bytes (with_crew w kickoff) b)
      with (extract_text_from_pdf_bytes w b).
    destruct (extract_text_from_pdf_bytes w b) as [ext|]; [|done]. simpl.
    change (getenv (with_crew w kickoff)) with (getenv w).
    rewrite Hc. simpl. done.
Qed.

Lemma health_flags_tell_witness :
  run_analysis
    (with_model (sample_world mock_env (CompletionContent None))
       (Some (OpenAIError "The api_key client option must be set"))
       (fun _ => CompletionRaises (OpenAIError "Connection error.")))
    "Analyze" "data/financial_document_1.pdf"
  = run_analysis (sample_world mock_env (CompletionContent None))
      "Analyze" "data/financial_document_1.pdf".
Proof.
  apply (proj1 (health_flags_tell
                  (sample_world mock_env (CompletionContent None))
                  "Analyze" "data/financial_document_1.pdf")).
  reflexivity.
Defined.

(** ** The upload endpoint *)

Section Intake.

Implicit Types (db : Database) (sv : Service) (fx : Effects).
Implicit Types (email name : option string).

Lemma filter_none {A} (P : A -> Prop) `{!forall x, Decision (P x)}
    (l : list A) :
  (forall x, In x l -> ~ P x) -> filter P l = [].
Proof.
  induction l as [|a l IH]; [done|]. intros Hall.
  rewrite filter_cons_False by (apply Hall; by left).
  apply IH. intros x Hx. apply Hall. by right.
Qed.

Lemma filter_email_nodup e (us : list User.t) :
  NoDup (map User.email us) ->
  (length (filter (fun u => User.email u = e) us) <= 1)%nat.
Proof.
  induction us as [|u us IH]; simpl; [lia|].
  intros Hnd. apply NoDup_cons in Hnd as [Hni Hnd].
  destruct (decide (User.email u = e)) as [He|He].
  - rewrite filter_cons_True by done. simpl.
    rewrite filter_none; [simpl; lia|].
    intros x Hx Hxe. apply Hni, list_elem_of_In.
    rewrite He, <- Hxe. by apply in_map.
  - rewrite filter_cons_False by done. auto.
Qed.

Lemma existsb_id_false i (us : list User.t) :
  existsb (fun x => String.eqb (User.id x) i) us = false <->
  ~ In i (map User.id us).
Proof.
  induction us as [|u us IH]; simpl; [tauto|].
  rewrite orb_false_iff, IH, String.eqb_neq. tauto.
Qed.

Lemma existsb_email_false e (us : list User.t) :
  existsb (fun x => String.eqb (User.email x) e) us = false <->
  ~ In e (map User.email us).
Proof.
  induction us as [|u us IH]; simpl; [tauto|].
  rewrite orb_false_iff, IH, String.eqb_neq. tauto.
Qed.

(** What a transaction of the upload that returns has done. *)
Lemma create_job_returns fx fp q email name db jid uid db' :
  create_job fx fp q email name db = Return ((jid, uid), db') ->
  jid = job_uuid fx
  /\ jobs (db_store db) !! job_uuid fx = None
  /\ db_store db'
     = {| jobs := <[job_uuid fx :=
                     {| Job.id := job_uuid fx; Job.user_id := uid;
                        Job.created_at := utcnow fx; Job.status := "pending";
                        Job.error := None; Job.file_path := Some fp;
                        Job.query := Some q |}]> (jobs (db_store db));
          analyses := analyses (db_store db) |}
  /\ ((uid = None /\ (email = None \/ email = Some "")
       /\ db_users db' = db_users db)
      \/ (exists e u, email = Some e /\ e <> "" /\ In u (db_users db)
                      /\ User.email u = e /\ uid = Some (User.id u)
                      /\ db_users db' = db_users db)
      \/ (exists e, email = Some e /\ e <> ""
                    /\ ~ In e (map User.email (db_users db))
                    /\ ~ In (user_uuid fx) (map User.id (db_users db))
                    /\ uid = Some (user_uuid fx)
                    /\ db_users db'
                       = db_users db ++ [{| User.id := user_uuid fx;
                                            User.email := e;
                                            User.name := name |}])).
Proof.
  unfold create_job.
  set (step := match email with Some e => _ | None => _ end).
  assert (forall u1 d1, step = Return (u1, d1) ->
            db_store d1 = db_store db
            /\ ((u1 = None /\ (email = None \/ email = Some "")
                 /\ db_users d1 = db_users db)
                \/ (exists e u, email = Some e /\ e <> "" /\ In u (db_users db)
                      /\ User.email u = e /\ u1 = Some (User.id u)
                      /\ db_users d1 = db_users db)
                \/ (exists e, email = Some e /\ e <> ""
                      /\ ~ In e (map User.email (db_users db))
                      /\ ~ In (user_uuid fx) (map User.id (db_users db))
                      /\ u1 = Some (user_uuid fx)
                      /\ db_users d1
                         = db_users db ++ [{| User.id := user_uuid fx;
                                              User.email := e;
                                              User.name := name |}]))) as Hstep.
  { subst step. intros u1 d1. destruct email as [e|].
    - destruct (String.eqb e "") eqn:He.
      + apply String.eqb_eq in He as ->. intros [= <- <-]. eauto 10.
      + apply String.eqb_neq in He. unfold user_one_or_none.
        destruct (filter _ (db_users db)) as [|u [|u' rest]] eqn:Hf; simpl;
          [| |done].
        * unfold flush_user. simpl.
          destruct (existsb _ (db_users db)) eqn:Hid; [done|].
          destruct (existsb (fun x => String.eqb (User.email x) e) _)
            eqn:Hem; [done|].
          simpl. intros [= <- <-]. split; [done|]. right; right.
          exists e. apply existsb_id_false in Hid.
          apply existsb_email_false in Hem. done.
        * intros [= <- <-]. split; [done|]. right; left. exists e, u.
          assert (u ∈ filter (fun u => User.email u = e) (db_users db)) as Hu
            by (rewrite Hf; left).
          apply list_elem_of_filter in Hu as [Hue Hu].
          apply list_elem_of_In in Hu. done.
    - intros [= <- <-]. eauto 10. }
  destruct step as [[u1 d1]|] eqn:Hs; [|done]. simpl.
  destruct (Hstep u1 d1 eq_refl) as [Hst Hus]. unfold flush_job. simpl.
  rewrite Hst. destruct (jobs (db_store db) !! job_uuid fx) eqn:Hj; [done|].
  simpl. intros [= <- <- <-]. simpl. done.
Qed.

Lemma create_job_succeeds fx fp q email name db :
  jobs (db_store db) !! job_uuid fx = None ->
  users_ok db ->
  ~ In (user_uuid fx) (map User.id (db_users db)) ->
  exists uid db',
    create_job fx fp q email name db = Return ((job_uuid fx, uid), db').
Proof.
  intros Hj [Hem _] Hid. unfold create_job.
  assert (forall uid d, db_store d = db_store db ->
            exists db',
              (db ← flush_job {| Job.id := job_uuid fx; Job.user_id := uid;
                                 Job.created_at := utcnow fx;
                                 Job.status := "pending"; Job.error := None;
                                 Job.file_path := Some fp;
                                 Job.query := Some q |} d;
               Return ((job_uuid fx, uid), db))
              = Return ((job_uuid fx, uid), db')) as Hjob.
  { intros uid d Hd. unfold flush_job. simpl. rewrite Hd, Hj. simpl. eauto. }
  destruct email as [e|]; [|simpl; eauto].
  destruct (String.eqb e ""); [simpl; eauto|].
  unfold user_one_or_none.
  pose proof (filter_email_nodup e (db_users db) Hem) as Hlen.
  destruct (filter _ (db_users db)) as [|u [|u' rest]] eqn:Hf;
    [| |simpl in Hlen; lia].
  - simpl. unfold flush_user. simpl.
    apply existsb_id_false in Hid. rewrite Hid.
    assert (existsb (fun x => String.eqb (User.email x) e) (db_users db)
            = false) as ->.
    { apply existsb_email_false. intros Hin.
      apply in_map_iff in Hin as (x & Hx & Hin).
      apply list_elem_of_In in Hin.
      by apply (filter_nil_not_elem_of _ _ x Hf). }
    simpl. eauto.
  - simpl. eauto.
Qed.

Lemma analyze_cases w fx query email name sv :
  mkdir fx = None ->
  (exists e sv',
     analyze_financial_document w fx query email name sv
     = (Raise (processing_error e), sv')
     /\ database sv' = database sv /\ queue sv' = queue sv)
  \/ (exists content uid db',
        file_read fx = Return content /\ write_bytes fx = None
        /\ create_job fx (upload_path fx) (normalize_query query) email name
             (database sv)
           = Return ((job_uuid fx, uid), db')
        /\ analyze_financial_document w fx query email name sv
           = match delay w fx
                     {| m_job_id := job_uuid fx;
                        m_file_path := upload_path fx;
                        m_query := normalize_query query;
                        m_user_id := uid |}
                     {| database := db';
                        files := <[upload_path fx := content]> (files sv);
                        queue := queue sv |} with
             | (Raise e, sv2) => (Raise (processing_error e), sv2)
             | (Return _, sv2) =>
                 (Return (VDict [("job_id", VStr (job_uuid fx));
                                 ("status", VStr "pending")]), sv2)
             end).
Proof.
  intros Hmk. unfold analyze_financial_document. rewrite Hmk.
  destruct (file_read fx) as [content|e]; [|left; eauto].
  destruct (write_bytes fx) as [[e remains]|]; [left; eauto|].
  cbn [database files queue]. unfold session_scope_flushed.
  destruct (create_job fx (upload_path fx) (normalize_query query) email name
              (database sv)) as [[[jid uid] db']|e] eqn:Hc; [|left; eauto].
  destruct (create_job_returns _ _ _ _ _ _ _ _ _ Hc) as [-> _].
  right. exists content, uid, db'. split; [done|]. split; [done|].
  split; [done|].
  by destruct (delay w fx _ _) as [[[]|e] sv2].
Qed.

Lemma delay_cases w fx m sv :
  (task_always_eager w = true
   /\ delay w fx m sv
      = (Return tt,
         {| database :=
              {| db_users := db_users (database sv);
                 db_store := deliver (db_store (database sv))
                               (delivery_of (world_on w (files sv)) m) |};
            files := files sv; queue := queue sv |}))
  \/ (task_always_eager w = false
      /\ exists e, send fx = Some e /\ delay w fx m sv = (Raise e, sv))
  \/ (task_always_eager w = false /\ send fx = None
      /\ delay w fx m sv
         = (Return tt,
            {| database := database sv; files := files sv;
               queue := queue sv ++ [m] |})).
Proof.
  unfold delay. destruct (task_always_eager w); [by left|right].
  destruct (send fx) as [e|]; [left; eauto|by right].
Qed.

(** The task leaves the columns of a job that the upload has set. *)
Lemma deliver_keeps_job (db : Store) d j :
  match jobs db !! j, jobs (deliver db d) !! j with
  | Some job, Some job' =>
      Job.id job' = Job.id job /\ Job.user_id job' = Job.user_id job
      /\ Job.created_at job' = Job.created_at job
      /\ Job.file_path job' = Job.file_path job
      /\ Job.query job' = Job.query job
      /\ (j <> d_job_id d -> job' = job)
  | None, None => True
  | _, _ => False
  end.
Proof.
  unfold deliver.
  destruct (process_pdf_job_cases (d_world d) (d_job_id d) (d_file_path d)
              (d_query d) (d_user_id d) db)
    as [[_ ->]|[(job & e & Hj & _ & ->)|[(job & res & Hj & _ & _ & ->)
       |(job & res & _ & _ & _ & ->)]]]; simpl.
  - by destruct (jobs db !! j).
  - destruct (decide (j = d_job_id d)) as [->|Hne].
    + rewrite Hj, lookup_insert_eq. done.
    + rewrite lookup_insert_ne by done. by destruct (jobs db !! j).
  - destruct (decide (j = d_job_id d)) as [->|Hne].
    + rewrite Hj, lookup_insert_eq. done.
    + rewrite lookup_insert_ne by done. by destruct (jobs db !! j).
  - by destruct (jobs db !! j).
Qed.

Lemma no_orphan_analysis (db : Store) j :
  store_ok db -> jobs db !! j = None -> has_analysis j (analyses db) = false.
Proof.
  intros [Hfk _] Hj. unfold has_analysis.
  destruct (existsb _ (analyses db)) eqn:He; [|done].
  apply existsb_exists in He as (a & Ha & Heq).
  apply String.eqb_eq in Heq. apply Hfk in Ha. rewrite Heq, Hj in Ha.
  by destruct Ha.
Qed.

End Intake.

(** X17.  An upload is accepted whenever nothing outside the program
    fails: the upload can be read and written, the ids drawn are new, the
    users have distinct addresses, and the broker takes the message.  The
    answer then names a job that is stored as pending with the path of the
    file, the file holds the uploaded content at that path, and the message
    that is queued carries the id, the path, the query and the user of this
    job.  The other jobs and the analyses are left as they are. *)
Theorem upload_accepted (w : World) (fx : Effects) (query : string)
    (email name : option string) (sv : Service) (content : string) :
  mkdir fx = None -> file_read fx = Return content ->
  write_bytes fx = None -> send fx = None ->
  task_always_eager w = false ->
  jobs (db_store (database sv)) !! job_uuid fx = None ->
  users_ok (database sv) ->
  ~ In (user_uuid fx) (map User.id (db_users (database sv))) ->
  exists sv' job m,
    analyze_financial_document w fx query email name sv
    = (Return (VDict [("job_id", VStr (job_uuid fx));
                      ("status", VStr "pending")]), sv')
    /\ jobs (db_store (database sv'))
       = <[job_uuid fx := job]> (jobs (db_store (database sv)))
    /\ analyses (db_store (database sv')) = analyses (db_store (database sv))
    /\ Job.id job = job_uuid fx /\ Job.status job = "pending"
    /\ Job.error job = None /\ Job.file_path job = Some (upload_path fx)
    /\ files sv' = <[upload_path fx := content]> (files sv)
    /\ queue sv' = queue sv ++ [m]
    /\ m_job_id m = Job.id job /\ Some (m_file_path m) = Job.file_path job
    /\ Some (m_query m) = Job.query job /\ m_user_id m = Job.user_id job.
Proof.
  intros Hmk Hrd Hwr Hsend Heager Hj Hus Hid.
  destruct (analyze_cases w fx query email name sv Hmk)
    as [(e & sv' & Ha & _)|(c & uid & db' & Hc & _ & Hcj & Ha)].
  - exfalso. revert Ha. unfold analyze_financial_document.
    rewrite Hmk, Hrd, Hwr. cbn [database files queue].
    unfold session_scope_flushed.
    destruct (create_job_succeeds fx (upload_path fx) (normalize_query query)
                email name (database sv) Hj Hus Hid) as (uid & db' & ->).
    unfold delay. rewrite Heager, Hsend. done.
  - rewrite Hrd in Hc. injection Hc as <-.
    destruct (create_job_returns _ _ _ _ _ _ _ _ _ Hcj) as (_ & _ & Hst & _).
    revert Ha. unfold delay. rewrite Heager, Hsend. cbn [database files queue].
    intros Ha. eexists _, _, _. split; [exact Ha|].
    cbn [database files queue]. rewrite Hst. simpl. done.
Qed.

Lemma upload_accepted_witness :
  exists sv',
    analyze_financial_document (sample_world mock_env (CompletionContent None))
      sample_effects "  What changed in Q2?  " (Some "ana@example.com")
      (Some "Ana") empty_service
    = (Return (VDict [("job_id", VStr (job_uuid sample_effects));
                      ("status", VStr "pending")]), sv').
Proof.
  assert (users_ok (database empty_service)) as Hus
    by (split; apply NoDup_nil_2).
  destruct (upload_accepted (sample_world mock_env (CompletionContent None))
              sample_effects "  What changed in Q2?  "
              (Some "ana@example.com") (Some "Ana") empty_service "%PDF-1.7"
              eq_refl eq_refl eq_refl eq_refl eq_refl eq_refl Hus
              (fun H => H))
    as (sv' & job & m & H & _).
  exists sv'. exact H.
Defined.

(** X18.  An upload that fails never queues a message, and what it raises
    after the directory was made is always the 500 error with the text of
    the cause.  The database is left as it was: the user and the job of a
    failed transaction are rolled back together.  The one exception is a
    broker that refuses the message: the job was committed before, and it
    stays in the database as pending although the upload was answered with
    an error and no worker will hear of it. *)
Theorem upload_failure (w : World) (fx : Effects) (query : string)
    (email name : option string) (sv sv' : Service) (e : exn) :
  analyze_financial_document w fx query email name sv = (Raise e, sv') ->
  queue sv' = queue sv
  /\ ((mkdir fx = Some e /\ sv' = sv)
      \/ exists cause,
           mkdir fx = None /\ e = processing_error cause
           /\ (database sv' = database sv
               \/ (task_always_eager w = false /\ send fx = Some cause
                   /\ jobs (db_store (database sv)) !! job_uuid fx = None
                   /\ exists job,
                        jobs (db_store (database sv')) !! job_uuid fx
                        = Some job
                        /\ Job.status job = "pending"))).
Proof.
  intros Ha. destruct (mkdir fx) as [e0|] eqn:Hmk.
  { revert Ha. unfold analyze_financial_document. rewrite Hmk.
    intros [= <- <-]. split; [done|]. by left. }
  destruct (analyze_cases w fx query email name sv Hmk)
    as [(c & sv1 & Ha' & Hdb & Hq)|(ct & uid & db' & _ & _ & Hcj & Ha')];
    rewrite Ha' in Ha.
  - injection Ha as <- <-. split; [done|]. right. exists c. eauto.
  - destruct (create_job_returns _ _ _ _ _ _ _ _ _ Hcj) as (_ & Hj & Hst & _).
    destruct (delay_cases w fx
                {| m_job_id := job_uuid fx; m_file_path := upload_path fx;
                   m_query := normalize_query query; m_user_id := uid |}
                {| database := db';
                   files := <[upload_path fx := ct]> (files sv);
                   queue := queue sv |})
      as [[_ Hd]|[(Heager & c & Hsend & Hd)|(_ & _ & Hd)]];
      rewrite Hd in Ha; try done.
    injection Ha as <- <-. split; [done|]. right. exists c.
    split; [done|]. split; [done|]. right.
    split; [done|]. split; [done|]. split; [done|].
    cbn [database]. rewrite Hst. simpl. rewrite lookup_insert_eq. eauto.
Qed.

Lemma upload_failure_witness :
  exists e sv',
    analyze_financial_document (sample_world mock_env (CompletionContent None))
      effects_without_broker "" None None empty_service
    = (Raise e, sv')
    /\ queue sv' = queue empty_service.
Proof.
  destruct (analyze_financial_document
              (sample_world mock_env (CompletionContent None))
              effects_without_broker "" None None empty_service)
    as [[v|e] sv'] eqn:Ha.
  - vm_compute in Ha. discriminate.
  - exists e, sv'. split; [reflexivity|].
    exact (proj1 (upload_failure _ _ _ _ _ _ _ _ Ha)).
Defined.

Section IntakeInvariant.

Implicit Types (db : Database) (sv : Service) (fx : Effects).

Lemma NoDup_snoc {A} (l : list A) (x : A) :
  NoDup l -> ~ In x l -> NoDup (l ++ [x]).
Proof.
  intros Hl Hx. apply NoDup_app. split; [done|]. split.
  - intros y Hy Hy'. apply list_elem_of_singleton in Hy' as ->.
    by apply Hx, list_elem_of_In.
  - apply NoDup_singleton.
Qed.

Lemma create_job_keeps_ok fx fp q email name db jid uid db' :
  database_ok db ->
  create_job fx fp q email name db = Return ((jid, uid), db') ->
  database_ok db'.
Proof.
  intros ([Hem Hid] & Hst & Hfk) Hc.
  destruct (create_job_returns _ _ _ _ _ _ _ _ _ Hc)
    as (_ & Hj & Hs & Hus).
  assert (users_ok db'
          /\ (forall i, In i (map User.id (db_users db)) ->
                        In i (map User.id (db_users db')))
          /\ (forall i, uid = Some i -> In i (map User.id (db_users db'))))
    as (Hus' & Hsub & Huid).
  { destruct Hus as [(-> & _ & Hu)|[(e & u & _ & _ & Hin & _ & -> & Hu)
                                   |(e & _ & _ & Hne & Hni & -> & Hu)]].
    - unfold users_ok. rewrite Hu. done.
    - unfold users_ok. rewrite Hu. split; [done|]. split; [done|].
      intros i [= <-]. by apply in_map.
    - unfold users_ok. rewrite Hu, !map_app. simpl.
      split; [split; by apply NoDup_snoc|].
      split; [intros i Hi; apply in_or_app; by left|].
      intros i [= <-]. apply in_or_app. right. by left. }
  split; [done|]. rewrite Hs. split.
  - destruct Hst as (H1 & H2 & H3). split; [|split]; simpl.
    + intros a Ha. apply lookup_insert_is_Some'. right. by apply H1.
    + done.
    + intros j job. destruct (decide (job_uuid fx = j)) as [<-|Hne].
      * intros _ _. apply no_orphan_analysis; [|done]. by split.
      * rewrite lookup_insert_ne by done. apply H3.
  - simpl. intros j job i. destruct (decide (job_uuid fx = j)) as [<-|Hne].
    + rewrite lookup_insert_eq. intros [= <-]. simpl. apply Huid.
    + rewrite lookup_insert_ne by done. intros H1 H2. eapply Hsub, Hfk; eauto.
Qed.

Lemma delay_keeps_ok w fx m sv :
  database_ok (database sv) ->
  database_ok (database (snd (delay w fx m sv))).
Proof.
  intros (Hus & Hst & Hfk).
  destruct (delay_cases w fx m sv)
    as [[_ ->]|[(_ & e & _ & ->)|(_ & _ & ->)]]; simpl; try done.
  split; [done|]. split; [by apply store_ok_deliver|]. simpl.
  intros j job' i Hj' Hi.
  pose proof (deliver_keeps_job (db_store (database sv))
                (delivery_of (world_on w (files sv)) m) j) as Hk.
  rewrite Hj' in Hk.
  destruct (jobs (db_store (database sv)) !! j) as [job|] eqn:Hj; [|done].
  destruct Hk as (_ & Hu & _). eapply Hfk; [exact Hj|]. congruence.
Qed.

End IntakeInvariant.

(** X19.  An upload keeps the database consistent, whether it is accepted
    or fails, with a queue or with an eager task: no two users share an
    address or an id, every job that names a user names one that exists,
    every analysis belongs to a job, no job has two analyses and a pending
    job has none. *)
Theorem upload_keeps_database_ok (w : World) (fx : Effects) (query : string)
    (email name : option string) (sv : Service) :
  database_ok (database sv) ->
  database_ok
    (database (snd (analyze_financial_document w fx query email name sv))).
Proof.
  intros Hok. destruct (mkdir fx) as [e0|] eqn:Hmk.
  { unfold analyze_financial_document. by rewrite Hmk. }
  destruct (analyze_cases w fx query email name sv Hmk)
    as [(c & sv1 & -> & Hdb & _)|(ct & uid & db' & _ & _ & Hcj & ->)].
  - simpl. by rewrite Hdb.
  - pose proof (create_job_keeps_ok _ _ _ _ _ _ _ _ _ Hok Hcj) as Hok'.
    pose proof (delay_keeps_ok w fx
                  {| m_job_id := job_uuid fx; m_file_path := upload_path fx;
                     m_query := normalize_query query; m_user_id := uid |}
                  {| database := db';
                     files := <[upload_path fx := ct]> (files sv);
                     queue := queue sv |} Hok') as Hd.
    by destruct (delay w fx _ _) as [[[]|e] sv2].
Qed.

Lemma upload_keeps_database_ok_witness :
  database_ok
    (database
       (snd (analyze_financial_document
               (sample_world mock_env (CompletionContent None))
               sample_effects "" (Some "ana@example.com") None
               empty_service))).
Proof.
  apply upload_keeps_database_ok.
  split; [split; apply NoDup_nil_2|]. split.
  - split; [intros a []|]. split; [intros j; cbv; lia|].
    intros j job Hj. unfold empty_service in Hj. simpl in Hj.
    by rewrite lookup_empty in Hj.
  - intros j job uid Hj. unfold empty_service in Hj. simpl in Hj.
    by rewrite lookup_empty in Hj.
Defined.

Section Accepted.

Implicit Types (db : Database) (sv : Service) (fx : Effects).

Lemma NoDup_map_inj {A B} (f : A -> B) (l : list A) x y :
  NoDup (map f l) -> In x l -> In y l -> f x = f y -> x = y.
Proof.
  induction l as [|a l IH]; simpl; [done|].
  intros Hnd Hx Hy Hf. apply NoDup_cons in Hnd as [Hni Hnd].
  destruct Hx as [->|Hx], Hy as [->|Hy]; [done| | |by apply IH].
  - exfalso. apply Hni, list_elem_of_In. rewrite Hf. by apply in_map.
  - exfalso. apply Hni, list_elem_of_In. rewrite <- Hf. by apply in_map.
Qed.

(** What an accepted upload has done. *)
Lemma accepted_upload w fx query email name sv v sv' :
  analyze_financial_document w fx query email name sv = (Return v, sv') ->
  exists ct uid db' job,
    let m := {| m_job_id := job_uuid fx; m_file_path := upload_path fx;
                m_query := normalize_query query; m_user_id := uid |} in
    let sv1 := {| database := db';
                  files := <[upload_path fx := ct]> (files sv);
                  queue := queue sv |} in
    file_read fx = Return ct
    /\ create_job fx (upload_path fx) (normalize_query query) email name
         (database sv) = Return ((job_uuid fx, uid), db')
    /\ v = VDict [("job_id", VStr (job_uuid fx)); ("status", VStr "pending")]
    /\ jobs (db_store db') !! job_uuid fx = Some job
    /\ job = {| Job.id := job_uuid fx; Job.user_id := uid;
                Job.created_at := utcnow fx; Job.status := "pending";
                Job.error := None; Job.file_path := Some (upload_path fx);
                Job.query := Some (normalize_query query) |}
    /\ (if task_always_eager w then
          sv' = {| database :=
                     {| db_users := db_users db';
                        db_store := deliver (db_store db')
                                      (delivery_of (world_on w (files sv1))
                                         m) |};
                   files := files sv1; queue := queue sv |}
        else
          sv' = {| database := db'; files := files sv1;
                   queue := queue sv ++ [m] |}).
Proof.
  intros Ha. destruct (mkdir fx) as [e0|] eqn:Hmk.
  { revert Ha. unfold analyze_financial_document. by rewrite Hmk. }
  destruct (analyze_cases w fx query email name sv Hmk)
    as [(c & sv1 & Ha' & _)|(ct & uid & db' & Hrd & _ & Hcj & Ha')];
    rewrite Ha' in Ha; [done|].
  destruct (create_job_returns _ _ _ _ _ _ _ _ _ Hcj) as (_ & _ & Hst & _).
  exists ct, uid, db'. eexists. cbv zeta.
  split; [done|]. split; [done|].
  destruct (delay_cases w fx
              {| m_job_id := job_uuid fx; m_file_path := upload_path fx;
                 m_query := normalize_query query; m_user_id := uid |}
              {| database := db';
                 files := <[upload_path fx := ct]> (files sv);
                 queue := queue sv |})
    as [[He Hd]|[(He & c & _ & Hd)|(He & _ & Hd)]];
    rewrite Hd in Ha; [|done|]; injection Ha as <- <-; rewrite He;
    (split; [done|]); rewrite Hst; simpl; rewrite lookup_insert_eq; done.
Qed.

(** The job of an accepted upload as the database has it afterwards. *)
Lemma accepted_job w fx query email name sv v sv' :
  analyze_financial_document w fx query email name sv = (Return v, sv') ->
  exists uid db' job,
    create_job fx (upload_path fx) (normalize_query query) email name
      (database sv) = Return ((job_uuid fx, uid), db')
    /\ db_users (database sv') = db_users db'
    /\ jobs (db_store (database sv')) !! job_uuid fx = Some job
    /\ Job.id job = job_uuid fx /\ Job.user_id job = uid
    /\ Job.file_path job = Some (upload_path fx)
    /\ Job.query job = Some (normalize_query query).
Proof.
  intros Ha.
  destruct (accepted_upload _ _ _ _ _ _ _ _ Ha)
    as (ct & uid & db' & job & _ & Hcj & _ & Hj & Hjob & Hsv).
  cbv zeta in Hsv. exists uid, db'.
  destruct (task_always_eager w).
  - pose proof (deliver_keeps_job (db_store db')
                  (delivery_of
                     (world_on w (<[upload_path fx := ct]> (files sv)))
                     {| m_job_id := job_uuid fx;
                        m_file_path := upload_path fx;
                        m_query := normalize_query query;
                        m_user_id := uid |}) (job_uuid fx)) as Hk.
    rewrite Hj in Hk. rewrite Hsv. cbn [database db_store db_users files].
    destruct (jobs (deliver _ _) !! job_uuid fx) as [job'|]; [|done].
    exists job'. destruct Hk as (Hk1 & Hk2 & _ & Hk4 & Hk5 & _).
    rewrite Hk1, Hk2, Hk4, Hk5, Hjob. simpl.
    split; [exact Hcj|]. split; [done|]. split; [done|]. done.
  - exists job. rewrite Hsv. cbn [database]. rewrite Hjob. simpl.
    split; [exact Hcj|]. split; [done|]. split; [by rewrite <- Hjob|]. done.
Qed.

End Accepted.

(** X20.  An accepted upload finds the user of its address or adds them.
    When a user has the address, no user is added and the job belongs to
    that user; when no user has it, exactly one user is added, with this
    address and the name given, and the job belongs to them; without an
    address, or with an empty one, no user is added and the job belongs to
    nobody. *)
Theorem upload_finds_or_adds_user (w : World) (fx : Effects)
    (query : string) (email name : option string) (sv sv' : Service)
    (v : value) :
  users_ok (database sv) ->
  analyze_financial_document w fx query email name sv = (Return v, sv') ->
  exists job,
    jobs (db_store (database sv')) !! job_uuid fx = Some job
    /\ (forall e u,
          email = Some e -> e <> "" ->
          In u (db_users (database sv)) -> User.email u = e ->
          db_users (database sv') = db_users (database sv)
          /\ Job.user_id job = Some (User.id u))
    /\ (forall e,
          email = Some e -> e <> "" ->
          ~ In e (map User.email (db_users (database sv))) ->
          db_users (database sv')
          = db_users (database sv)
            ++ [{| User.id := user_uuid fx; User.email := e;
                   User.name := name |}]
          /\ Job.user_id job = Some (user_uuid fx))
    /\ (email = None \/ email = Some "" ->
        db_users (database sv') = db_users (database sv)
        /\ Job.user_id job = None).
Proof.
  intros [Hem _] Ha.
  destruct (accepted_job _ _ _ _ _ _ _ _ Ha)
    as (uid & db' & job & Hcj & Hus & Hj & _ & Hu & _).
  destruct (create_job_returns _ _ _ _ _ _ _ _ _ Hcj) as (_ & _ & _ & Hc).
  exists job. split; [done|]. rewrite Hus, Hu.
  destruct Hc as [(-> & He & ->)|[(e' & u' & -> & Hne & Hin & He' & -> & ->)
                                 |(e' & -> & Hne & Hni & _ & -> & ->)]].
  - split; [|split; [|done]].
    + intros e u -> Hne. by destruct He as [|[= ?]].
    + intros e -> Hne. by destruct He as [|[= ?]].
  - split; [|split].
    + intros e u [= <-] _ Hu' Heq. split; [done|]. do 2 f_equal.
      apply (NoDup_map_inj User.email (db_users (database sv))); congruence.
    + intros e [= <-] _ Hni. exfalso. apply Hni. rewrite <- He'.
      by apply in_map.
    + intros [|[= ?]]; done.
  - split; [|split].
    + intros e u [= <-] _ Hu' Heq. exfalso. apply Hni. rewrite <- Heq.
      by apply in_map.
    + by intros e [= <-] _ _.
    + intros [|[= ?]]; done.
Qed.

Lemma upload_finds_or_adds_user_witness :
  exists v sv',
    analyze_financial_document (sample_world mock_env (CompletionContent None))
      sample_effects "" (Some "ana@example.com") (Some "Ana") empty_service
    = (Return v, sv')
    /\ db_users (database sv')
       = [{| User.id := user_uuid sample_effects;
             User.email := "ana@example.com"; User.name := Some "Ana" |}].
Proof.
  destruct (analyze_financial_document
              (sample_world mock_env (CompletionContent None))
              sample_effects "" (Some "ana@example.com") (Some "Ana")
              empty_service) as [[v|e] sv'] eqn:Ha.
  - exists v, sv'. split; [reflexivity|].
    assert (users_ok (database empty_service)) as Hus
      by (split; apply NoDup_nil_2).
    destruct (upload_finds_or_adds_user _ _ _ _ _ _ _ _ Hus Ha)
      as (job & _ & _ & H & _).
    apply (H "ana@example.com" eq_refl); [discriminate|]. intros [].
  - vm_compute in Ha. discriminate.
Defined.

(** X21.  The query of an accepted upload is never blank.  The job keeps
    the query of the form without the white space around it, and the
    default question when the form has none or only white space; what it
    keeps is not empty and has no white space at either end.  (For an ASCII
    query; Python knows more blanks than the ASCII ones.) *)
Theorem upload_query_never_blank (w : World) (fx : Effects)
    (query : string) (email name : option string) (sv sv' : Service)
    (v : value) :
  ascii_text query ->
  analyze_financial_document w fx query email name sv = (Return v, sv') ->
  exists job q,
    jobs (db_store (database sv')) !! job_uuid fx = Some job
    /\ Job.query job = Some q
    /\ q <> "" /\ Py.strip q = q
    /\ (Py.strip query = "" -> q = default_query)
    /\ (Py.strip query <> "" -> q = Py.strip query).
Proof.
  intros _ Ha.
  destruct (accepted_job _ _ _ _ _ _ _ _ Ha)
    as (uid & db' & job & _ & _ & Hj & _ & _ & _ & Hq).
  exists job, (normalize_query query). split; [done|]. split; [done|].
  unfold normalize_query.
  destruct (String.eqb_spec (Py.strip query) "") as [He|Hne].
  - split; [done|]. split; [reflexivity|]. done.
  - split; [done|]. split; [apply strip_with_idem|]. done.
Qed.

Lemma upload_query_never_blank_witness :
  exists v sv' job,
    analyze_financial_document (sample_world mock_env (CompletionContent None))
      sample_effects "  What changed in Q2?  " None None empty_service
    = (Return v, sv')
    /\ jobs (db_store (database sv')) !! job_uuid sample_effects = Some job
    /\ Job.query job = Some "What changed in Q2?".
Proof.
  destruct (analyze_financial_document
              (sample_world mock_env (CompletionContent None))
              sample_effects "  What changed in Q2?  " None None
              empty_service) as [[v|e] sv'] eqn:Ha.
  - assert (ascii_text "  What changed in Q2?  ") as Hascii by reflexivity.
    destruct (upload_query_never_blank _ _ _ _ _ _ _ _ Hascii Ha)
      as (job & q & Hj & Hq & _ & _ & _ & Hs).
    exists v, sv', job. split; [reflexivity|]. split; [exact Hj|].
    rewrite Hq, Hs; [reflexivity|discriminate].
  - vm_compute in Ha. discriminate.
Defined.

Section EndToEnd.

(** The answer of the result endpoint once the task has run for a job
    that had no analysis. *)
Lemma get_result_after_delivery (db : Store) (d : delivery) (job : Job.t) :
  jobs db !! d_job_id d = Some job ->
  has_analysis (d_job_id d) (analyses db) = false ->
  match run_analysis (d_world d) (d_query d) (d_file_path d) with
  | Return result =>
      fst (get_result (d_job_id d) (deliver db d))
      = Return (VDict [("job_id", VStr (Job.id job)); ("status", VStr "done");
                       ("result", VDict result)])
      /\ jobs (deliver db d) !! d_job_id d = Some (set_status job "done" None)
  | Raise e =>
      fst (get_result (d_job_id d) (deliver db d))
      = Return (VDict [("job_id", VStr (Job.id job));
                       ("status", VStr "error"); ("error", VStr (str e))])
      /\ jobs (deliver db d) !! d_job_id d
         = Some (set_status job "error" (Some (str e)))
  end.
Proof.
  intros Hj Hh. rewrite get_result_cases. unfold deliver.
  destruct (process_pdf_job_cases (d_world d) (d_job_id d) (d_file_path d)
              (d_query d) (d_user_id d) db)
    as [[Hn _]|[(j & e & Hj' & -> & ->)|[(j & res & Hj' & -> & _ & ->)
       |(j & res & _ & _ & Hh' & _)]]]; try congruence; simpl.
  - rewrite lookup_insert_eq. simpl. rewrite Hj in Hj'. by injection Hj' as <-.
  - rewrite lookup_insert_eq. simpl. rewrite Hj in Hj'. injection Hj' as <-.
    rewrite filter_app, no_analysis_filter by done. simpl.
    rewrite filter_cons_True by done. done.
Qed.

End EndToEnd.





(** ** The query, the text and the pages *)

(** X24.  The query of the user reaches the crew only.  With CrewAI off,
    two queries give the same outcome of [run_analysis] and the same run of
    the task, which also ignores the user id of the message; with CrewAI
    on, two queries give the same outcome whenever the crew treats them
    alike. *)
Theorem query_reaches_only_the_crew (w : World) (q1 q2 fp : string) :
  (getenv w "CREWAI_ENABLED" "0" <> "1" ->
   run_analysis w q1 fp = run_analysis w q2 fp
   /\ forall job_id u1 u2 db,
        process_pdf_job w job_id fp q1 u1 db
        = process_pdf_job w job_id fp q2 u2 db)
  /\ ((forall text, crew_kickoff w q1 text = crew_kickoff w q2 text) ->
      run_analysis w q1 fp = run_analysis w q2 fp).
Proof.
  assert ((getenv w "CREWAI_ENABLED" "0" <> "1"
           \/ forall text, crew_kickoff w q1 text = crew_kickoff w q2 text) ->
          run_analysis w q1 fp = run_analysis w q2 fp) as Hrun.
  { intros H. unfold run_analysis.
    destruct (read_file w fp) as [b|]; [|done]. simpl.
    destruct (extract_text_from_pdf_bytes w b) as [ext|]; [|done]. simpl.
    destruct (String.eqb_spec (getenv w "CREWAI_ENABLED" "0") "1")
      as [He|Hne]; [|done].
    destruct H as [H|H]; [done|]. by rewrite H. }
  split; [|by auto].
  intros Hoff. split; [by auto|].
  intros job_id u1 u2 db. unfold process_pdf_job, session_scope. cbv beta.
  by rewrite (Hrun (or_introl Hoff)).
Qed.

Lemma query_reaches_only_the_crew_witness :
  run_analysis (sample_world mock_env (CompletionContent None))
    "Is the dividend safe?" "data/financial_document_1.pdf"
  = run_analysis (sample_world mock_env (CompletionContent None))
      "Summarise the risks" "data/financial_document_1.pdf".
Proof.
  apply (proj1 (query_reaches_only_the_crew
                  (sample_world mock_env (CompletionContent None))
                  "Is the dividend safe?" "Summarise the risks"
                  "data/financial_document_1.pdf")).
  discriminate.
Defined.

(** X25.  More text never lowers the mock recommendation.  When a text is
    a part of another, the recommendation for the larger text is the same
    or a higher one in the order sell, hold, buy; the metadata of the two
    results are the same. *)
Theorem mock_more_text_never_lowers (t1 t2 : string)
    (meta : list (string * value)) :
  hints_typed meta = true -> occurs_in t1 t2 ->
  exists r1 r2,
    _mock_result t1 meta = Return r1 /\ _mock_result t2 meta = Return r2
    /\ (action_rank (action (recommendation r1))
        <= action_rank (action (recommendation r2)))%nat
    /\ metadata r1 = metadata r2.
Proof.
  intros Hm Ho. apply occurs_in_lower in Ho.
  eexists _, _. split; [by apply mock_result_typed|].
  split; [by apply mock_result_typed|].
  cbn [recommendation action metadata]. split; [|done].
  assert (forall k, Py.contains k (Py.lower t1) = true ->
                    Py.contains k (Py.lower t2) = true) as Hk.
  { intros k Hc. apply contains_spec. apply contains_spec in Hc.
    by eapply occurs_in_trans. }
  assert (existsb (fun k => Py.contains k (Py.lower t1)) growth_keywords = true
          -> existsb (fun k => Py.contains k (Py.lower t2)) growth_keywords
             = true) as Hg.
  { rewrite !existsb_exists. intros (k & Hin & Hc). eauto. }
  assert (Py.contains "margin" (Py.lower t1) || Py.contains "bps" (Py.lower t1)
          = true ->
          Py.contains "margin" (Py.lower t2) || Py.contains "bps" (Py.lower t2)
          = true) as Hmg.
  { rewrite !orb_true_iff. intros [H|H]; [left|right]; by apply Hk. }
  destruct (existsb _ growth_keywords) eqn:G1;
    [rewrite (Hg eq_refl)|];
    (destruct (Py.contains "margin" (Py.lower t1)
               || Py.contains "bps" (Py.lower t1)) eqn:M1;
     [rewrite (Hmg eq_refl)|]);
    cbn [andb];
    repeat match goal with
           | |- context [if ?b then _ else _] => destruct b
           end; cbv; lia.
Qed.

Lemma mock_more_text_never_lowers_witness :
  exists r1 r2,
    _mock_result "Revenue grew 15%" [] = Return r1
    /\ _mock_result "Revenue grew 15% and margin rose 40 bps" [] = Return r2
    /\ (action_rank (action (recommendation r1))
        <= action_rank (action (recommendation r2)))%nat.
Proof.
  destruct (mock_more_text_never_lowers "Revenue grew 15%"
              "Revenue grew 15% and margin rose 40 bps" [] eq_refl)
    as (r1 & r2 & H1 & H2 & H3 & _).
  - by exists "", " and margin rose 40 bps".
  - by exists r1, r2.
Defined.

Section Pages.


End Pages.



Section MockPipeline.

(** In mock mode the pipeline returns for every upload that one of the PDF
    libraries opens, with the file as source and one of the three
    recommendations. *)
Lemma run_analysis_mock_action w q fp b :
  mock_llm w = true -> getenv w "CREWAI_ENABLED" "0" <> "1" ->
  read_file w fp = Return b ->
  (exists ps, pypdf w b = PdfPages ps \/ pdfplumber w b = PdfPages ps) ->
  exists r, run_analysis w q fp = Return (model_dump r)
            /\ source (metadata r)
               = Some (if String.eqb fp "" then "uploaded.pdf" else fp)
            /\ In (action (recommendation r)) ["buy"; "hold"; "sell"]
            /\ confidence (recommendation r) = 65.
Proof.
  intros Hm Hc Hf Hp. unfold run_analysis. rewrite Hf. simpl.
  assert (exists ext n, extract_text_from_pdf_bytes w b = Return ext
                        /\ Json.get "pages" ext = VInt n) as (ext & n & -> & Hn).
  { unfold extract_text_from_pdf_bytes.
    destruct (pypdf w b) as [e1|ps1] eqn:E1; [|by eexists _, _].
    destruct (pdfplumber w b) as [e2|ps2] eqn:E2; [|by eexists _, _].
    by destruct Hp as [ps [?|?]]. }
  simpl. apply String.eqb_neq in Hc. rewrite Hc. simpl.
  unfold _llm_analyze_financials. rewrite Hm, Hn.
  rewrite mock_result_typed by reflexivity. simpl.
  eexists. split; [reflexivity|]. cbn [metadata source recommendation action
                                       confidence].
  split; [unfold hint_or; simpl; done|]. split; [|done].
  repeat match goal with
         | |- context [if ?c then _ else _] => destruct c
         end; simpl; tauto.
Qed.

End MockPipeline.

(** X27.  In mock mode every readable upload ends as done.  After an upload
    that was accepted with a queue, let a worker in mock mode, without
    CrewAI and on the same directory deliver the queued message.  If one of
    the two PDF libraries opens the upload, the result endpoint reports the
    job as done, and the result it serves names the uploaded file as its
    source and recommends buy, hold or sell with confidence 65. *)
Theorem mock_upload_completes (w w2 : World) (fx : Effects) (query : string)
    (email name : option string) (sv sv' : Service) (v : value)
    (content : string) :
  store_ok (db_store (database sv)) ->
  task_always_eager w = false ->
  analyze_financial_document w fx query email name sv = (Return v, sv') ->
  file_read fx = Return content ->
  mock_llm w2 = true -> getenv w2 "CREWAI_ENABLED" "0" <> "1" ->
  (exists ps, pypdf w2 content = PdfPages ps
              \/ pdfplumber w2 content = PdfPages ps) ->
  exists m r,
    queue sv' = queue sv ++ [m]
    /\ fst (get_result (job_uuid fx)
              (deliver (db_store (database sv'))
                 (delivery_of (world_on w2 (files sv')) m)))
       = Return (VDict [("job_id", VStr (job_uuid fx));
                        ("status", VStr "done");
                        ("result", VDict (model_dump r))])
    /\ source (metadata r) = Some (upload_path fx)
    /\ In (action (recommendation r)) ["buy"; "hold"; "sell"]
    /\ confidence (recommendation r) = 65.
Proof.
  intros Hok Heager Ha Hrd Hm Hc Hp.
  destruct (accepted_upload _ _ _ _ _ _ _ _ Ha)
    as (ct & uid & db' & job & Hrd' & Hcj & -> & Hj & Hjob & Hsv).
  rewrite Hrd in Hrd'. injection Hrd' as <-.
  cbv zeta in Hsv. rewrite Heager in Hsv. subst sv'.
  destruct (create_job_returns _ _ _ _ _ _ _ _ _ Hcj) as (_ & Hnew & Hst & _).
  assert (has_analysis (job_uuid fx) (analyses (db_store db')) = false) as Hh.
  { rewrite Hst. simpl. by apply no_orphan_analysis. }
  cbn [database files queue].
  set (fs := <[upload_path fx := content]> (files sv)).
  set (m := {| m_job_id := job_uuid fx; m_file_path := upload_path fx;
               m_query := normalize_query query; m_user_id := uid |}).
  destruct (run_analysis_mock_action (world_on w2 fs) (normalize_query query)
              (upload_path fx) content Hm Hc)
    as (r & Hr & Hsrc & Hact & Hconf).
  { simpl. subst fs. by rewrite lookup_insert_eq. }
  { exact Hp. }
  pose proof (get_result_after_delivery (db_store db')
                (delivery_of (world_on w2 fs) m) job Hj Hh) as Hg.
  cbn [delivery_of d_world d_job_id d_file_path d_query m m_job_id
       m_file_path m_query] in Hg.
  rewrite Hr in Hg. destruct Hg as [Hg _].
  exists m, r. split; [done|]. split; [by rewrite Hg, Hjob|].
  split; [|done].
  rewrite Hsrc. unfold upload_path. by rewrite str_app_cons.
Qed.

Lemma mock_upload_completes_witness :
  exists v sv' m r,
    analyze_financial_document (sample_world mock_env (CompletionContent None))
      sample_effects "" None None empty_service
    = (Return v, sv')
    /\ fst (get_result (job_uuid sample_effects)
              (deliver (db_store (database sv'))
                 (delivery_of
                    (world_on (sample_world mock_env (CompletionContent None))
                       (files sv')) m)))
       = Return (VDict [("job_id", VStr (job_uuid sample_effects));
                        ("status", VStr "done");
                        ("result", VDict (model_dump r))]).
Proof.
  destruct (analyze_financial_document
              (sample_world mock_env (CompletionContent None))
              sample_effects "" None None empty_service)
    as [[v|e] sv'] eqn:Ha.
  - assert (store_ok (db_store (database empty_service))) as Hok.
    { split; [intros a []|]. split; [intros j; cbv; lia|].
      intros j job Hj. unfold empty_service in Hj. simpl in Hj.
      by rewrite lookup_empty in Hj. }
    assert (task_always_eager
              (sample_world mock_env (CompletionContent None)) = false)
      as Heager by reflexivity.
    assert (mock_llm (sample_world mock_env (CompletionContent None)) = true)
      as Hm by reflexivity.
    assert (getenv (sample_world mock_env (CompletionContent None))
              "CREWAI_ENABLED" "0" <> "1") as Hc by discriminate.
    destruct (mock_upload_completes _
                (sample_world mock_env (CompletionContent None))
                _ _ _ _ _ _ _ "%PDF-1.7" Hok Heager Ha eq_refl Hm Hc)
      as (m & r & _ & Hg & _).
    + eexists. left. reflexivity.
    + exists v, sv', m, r. split; [reflexivity|exact Hg].
  - vm_compute in Ha. discriminate.
Defined.
